(** * VCF to FASTA pipeline: a shallow embedding of [src/vcf/vcf_to_fasta.py]

    The file has three layers.

    - [Py] and [Hashlib] give the Python built-ins the pipeline calls
      ([str.strip], [str.startswith], text-mode decoding, f-string number
      formats, [hashlib.md5]) as executable functions.
    - [Pipeline] embeds the methods of [VCFtoFASTAPipeline].  A method is a
      computation in a state-and-exception monad over a [World] (the file
      system, the terminal, the trace of spawned processes).  External tools
      are a black box supplied by an [Env].
    - The remaining sections state and prove properties of the methods. *)

From Stdlib Require Import NArith ZArith Ascii String List Lia.
From stdpp Require Import base option list gmap strings.

Local Open Scope N_scope.

(** Python [str] is a sequence of code points, Python [bytes] a sequence of
    octets.  The two are kept apart, as in the source. *)
Abbreviation text := (list N).
Abbreviation bytes := string.

(** ** Python built-ins *)
Module Py.

(** Octets of a byte string, and back. *)
Fixpoint octets (b : bytes) : list N :=
  match b with
  | EmptyString => []
  | String c r => N_of_ascii c :: octets r
  end.

Fixpoint of_octets (l : list N) : bytes :=
  match l with
  | [] => EmptyString
  | o :: r => String (ascii_of_N o) (of_octets r)
  end.

Definition is_cont (b : N) : bool := (0x80 <=? b) && (b <=? 0xBF).

Definition in_range (lo hi b : N) : bool := (lo <=? b) && (b <=? hi).

(** [bytes.decode('utf-8')] with [errors='strict']: over-long forms,
    surrogates and values above U+10FFFF are rejected. *)
Fixpoint utf8_decode (b : bytes) : option text :=
  match b with
  | EmptyString => Some []
  | String c0 r0 =>
    let b0 := N_of_ascii c0 in
    if b0 <? 0x80 then cons b0 <$> utf8_decode r0
    else if in_range 0xC2 0xDF b0 then
      match r0 with
      | String c1 r1 =>
        let b1 := N_of_ascii c1 in
        if is_cont b1
        then cons (N.lor (N.shiftl (N.land b0 0x1F) 6) (N.land b1 0x3F))
               <$> utf8_decode r1
        else None
      | _ => None
      end
    else if in_range 0xE0 0xEF b0 then
      match r0 with
      | String c1 (String c2 r2) =>
        let b1 := N_of_ascii c1 in
        let b2 := N_of_ascii c2 in
        let lo := if b0 =? 0xE0 then 0xA0 else 0x80 in
        let hi := if b0 =? 0xED then 0x9F else 0xBF in
        if in_range lo hi b1 && is_cont b2
        then cons (N.lor (N.shiftl (N.land b0 0x0F) 12)
                     (N.lor (N.shiftl (N.land b1 0x3F) 6) (N.land b2 0x3F)))
               <$> utf8_decode r2
        else None
      | _ => None
      end
    else if in_range 0xF0 0xF4 b0 then
      match r0 with
      | String c1 (String c2 (String c3 r3)) =>
        let b1 := N_of_ascii c1 in
        let b2 := N_of_ascii c2 in
        let b3 := N_of_ascii c3 in
        let lo := if b0 =? 0xF0 then 0x90 else 0x80 in
        let hi := if b0 =? 0xF4 then 0x8F else 0xBF in
        if in_range lo hi b1 && is_cont b2 && is_cont b3
        then cons (N.lor (N.shiftl (N.land b0 0x07) 18)
                     (N.lor (N.shiftl (N.land b1 0x3F) 12)
                        (N.lor (N.shiftl (N.land b2 0x3F) 6) (N.land b3 0x3F))))
               <$> utf8_decode r3
        else None
      | _ => None
      end
    else None
  end.

(** [str.encode()]: UTF-8.  Text handled by the pipeline comes from the
    decoder above or from literals, so it holds Unicode scalar values only. *)
Definition encode_point (c : N) : list N :=
  if c <? 0x80 then [c]
  else if c <? 0x800 then
    [N.lor 0xC0 (N.shiftr c 6); N.lor 0x80 (N.land c 0x3F)]
  else if c <? 0x10000 then
    [N.lor 0xE0 (N.shiftr c 12); N.lor 0x80 (N.land (N.shiftr c 6) 0x3F);
     N.lor 0x80 (N.land c 0x3F)]
  else
    [N.lor 0xF0 (N.shiftr c 18); N.lor 0x80 (N.land (N.shiftr c 12) 0x3F);
     N.lor 0x80 (N.land (N.shiftr c 6) 0x3F); N.lor 0x80 (N.land c 0x3F)].

Definition encode (s : text) : bytes := of_octets (concat (map encode_point s)).

(** A string literal of the source, read as UTF-8. *)
Definition u (lit : bytes) : text := default [] (utf8_decode lit).

(** Universal newlines, as applied by text-mode reads: CR LF and a lone CR
    both become LF. *)
Fixpoint universal_newlines (s : text) : text :=
  match s with
  | [] => []
  | c :: r =>
    if c =? 13 then
      10 :: match r with
            | d :: r' => if d =? 10 then universal_newlines r'
                         else universal_newlines r
            | [] => []
            end
    else c :: universal_newlines r
  end.

(** What a text-mode stream delivers for the given file content. *)
Definition text_mode (b : bytes) : option text :=
  universal_newlines <$> utf8_decode b.

(** [for line in f]: each line keeps its terminating LF; a last line without
    one is delivered as it is. *)
Fixpoint iter_lines (s : text) : list text :=
  match s with
  | [] => []
  | c :: r =>
    if c =? 10 then [c] :: iter_lines r
    else match iter_lines r with
         | [] => [[c]]
         | l :: ls => (c :: l) :: ls
         end
  end.

(** [str.isspace] for one code point. *)
Definition isspace (c : N) : bool :=
  in_range 0x09 0x0D c || in_range 0x1C 0x20 c || (c =? 0x85) || (c =? 0xA0)
  || (c =? 0x1680) || in_range 0x2000 0x200A c || (c =? 0x2028)
  || (c =? 0x2029) || (c =? 0x202F) || (c =? 0x205F) || (c =? 0x3000).

Fixpoint lstrip (s : text) : text :=
  match s with
  | [] => []
  | c :: r => if isspace c then lstrip r else s
  end.

Definition rstrip (s : text) : text := rev (lstrip (rev s)).

Definition strip (s : text) : text := rstrip (lstrip s).

Fixpoint startswith (s p : text) : bool :=
  match p, s with
  | [], _ => true
  | a :: p', b :: s' => (a =? b) && startswith s' p'
  | _ :: _, [] => false
  end.

Definition endswith (s p : text) : bool := startswith (rev s) (rev p).

(** [sep.join(parts)]. *)
Fixpoint join (sep : text) (parts : list text) : text :=
  match parts with
  | [] => []
  | [p] => p
  | p :: ps => p ++ sep ++ join sep ps
  end.

(** [s.split('\n')]. *)
Fixpoint split_lf (s : text) : list text :=
  match s with
  | [] => [[]]
  | c :: r =>
    if c =? 10 then [] :: split_lf r
    else match split_lf r with
         | [] => [[c]]
         | l :: ls => (c :: l) :: ls
         end
  end.

(** [sub in s]. *)
Fixpoint contains (s sub : text) : bool :=
  startswith s sub
  || match s with
     | [] => false
     | _ :: r => contains r sub
     end.

(** Truthiness of a [str]. *)
Definition truthy (s : text) : bool :=
  match s with [] => false | _ => true end.

(** [c * n] for a one-character string [c]. *)
Definition times (c : N) (n : nat) : text := repeat c n.

(** Decimal digits of a non-negative integer: [str(n)], [f"{n}"]. *)
Fixpoint digits (fuel : nat) (n : N) (acc : text) : text :=
  match fuel with
  | O => acc
  | S f =>
    let acc' := (48 + n mod 10) :: acc in
    if n <? 10 then acc' else digits f (n / 10) acc'
  end.

Definition str_N (n : N) : text := digits (S (N.to_nat (N.log2 n))) n [].

(** Thousands separators on a digit string, scanning from the right. *)
Fixpoint group3 (rdigits : text) (k : nat) : text :=
  match rdigits with
  | [] => []
  | d :: r =>
    match k, r with
    | 2%nat, _ :: _ => d :: 44 :: group3 r 0
    | _, _ => d :: group3 r (S k)
    end
  end.

(** [f"{n:,}"]. *)
Definition format_comma (n : N) : text := rev (group3 (rev (str_N n)) 0).

(** [f"{z:+,}"]. *)
Definition format_plus_comma (z : Z) : text :=
  (if (z <? 0)%Z then 45 else 43) :: format_comma (Z.abs_N z).

End Py.

(** ** [hashlib.md5] (RFC 1321) *)
Module Hashlib.

Definition mask32 : N := 0xFFFFFFFF.

Definition add32 (a b : N) : N := N.land (a + b) mask32.

Definition not32 (a : N) : N := N.lxor a mask32.

Definition rotl32 (x c : N) : N :=
  N.lor (N.land (N.shiftl x c) mask32) (N.shiftr x (32 - c)).

Definition K : list N :=
  [0xd76aa478; 0xe8c7b756; 0x242070db; 0xc1bdceee;
   0xf57c0faf; 0x4787c62a; 0xa8304613; 0xfd469501;
   0x698098d8; 0x8b44f7af; 0xffff5bb1; 0x895cd7be;
   0x6b901122; 0xfd987193; 0xa679438e; 0x49b40821;
   0xf61e2562; 0xc040b340; 0x265e5a51; 0xe9b6c7aa;
   0xd62f105d; 0x02441453; 0xd8a1e681; 0xe7d3fbc8;
   0x21e1cde6; 0xc33707d6; 0xf4d50d87; 0x455a14ed;
   0xa9e3e905; 0xfcefa3f8; 0x676f02d9; 0x8d2a4c8a;
   0xfffa3942; 0x8771f681; 0x6d9d6122; 0xfde5380c;
   0xa4beea44; 0x4bdecfa9; 0xf6bb4b60; 0xbebfbc70;
   0x289b7ec6; 0xeaa127fa; 0xd4ef3085; 0x04881d05;
   0xd9d4d039; 0xe6db99e5; 0x1fa27cf8; 0xc4ac5665;
   0xf4292244; 0x432aff97; 0xab9423a7; 0xfc93a039;
   0x655b59c3; 0x8f0ccc92; 0xffeff47d; 0x85845dd1;
   0x6fa87e4f; 0xfe2ce6e0; 0xa3014314; 0x4e0811a1;
   0xf7537e82; 0xbd3af235; 0x2ad7d2bb; 0xeb86d391].

Definition shifts : list N :=
  [7; 12; 17; 22; 7; 12; 17; 22; 7; 12; 17; 22; 7; 12; 17; 22;
   5; 9; 14; 20; 5; 9; 14; 20; 5; 9; 14; 20; 5; 9; 14; 20;
   4; 11; 16; 23; 4; 11; 16; 23; 4; 11; 16; 23; 4; 11; 16; 23;
   6; 10; 15; 21; 6; 10; 15; 21; 6; 10; 15; 21; 6; 10; 15; 21].

(** Little-endian bytes of a word, and the word of little-endian bytes. *)
Fixpoint le_bytes (n : nat) (w : N) : list N :=
  match n with
  | O => []
  | S n' => N.land w 0xFF :: le_bytes n' (N.shiftr w 8)
  end.

Fixpoint le_word (bs : list N) : N :=
  match bs with
  | [] => 0
  | b :: r => N.lor b (N.shiftl (le_word r) 8)
  end.

(** Padding: a 1 bit, zeros up to 56 mod 64, then the bit length on 64 bits. *)
Definition pad (msg : list N) : list N :=
  let len := N.of_nat (length msg) in
  let zeros := N.to_nat ((119 - len mod 64) mod 64) in
  msg ++ 0x80 :: repeat 0 zeros ++ le_bytes 8 (N.land (8 * len) 0xFFFFFFFFFFFFFFFF).

Fixpoint chunks (fuel : nat) (n : nat) (l : list N) : list (list N) :=
  match fuel, l with
  | O, _ | _, [] => []
  | S f, _ => take n l :: chunks f n (drop n l)
  end.

Record state := State { sA : N; sB : N; sC : N; sD : N }.

Definition init : state :=
  State 0x67452301 0xefcdab89 0x98badcfe 0x10325476.

Definition step (M : list N) (s : state) (i : nat) : state :=
  let '(State a b c d) := s in
  let n := N.of_nat i in
  let '(f, g) :=
    if n <? 16 then (N.lor (N.land b c) (N.land (not32 b) d), n)
    else if n <? 32 then
      (N.lor (N.land d b) (N.land (not32 d) c), (5 * n + 1) mod 16)
    else if n <? 48 then (N.lxor b (N.lxor c d), (3 * n + 5) mod 16)
    else (N.lxor c (N.lor b (not32 d)), (7 * n) mod 16) in
  let f' := add32 (add32 (add32 f a) (nth i K 0)) (nth (N.to_nat g) M 0) in
  State d (add32 b (rotl32 f' (nth i shifts 0))) b c.

Definition compress (s : state) (block : list N) : state :=
  let M := map le_word (chunks 16 4 block) in
  let '(State a b c d) := fold_left (step M) (seq 0 64) s in
  State (add32 (sA s) a) (add32 (sB s) b) (add32 (sC s) c) (add32 (sD s) d).

Definition digest (msg : list N) : list N :=
  let padded := pad msg in
  let '(State a b c d) :=
    fold_left compress (chunks (length padded) 64 padded) init in
  le_bytes 4 a ++ le_bytes 4 b ++ le_bytes 4 c ++ le_bytes 4 d.

Definition hex_digit (n : N) : N := if n <? 10 then 48 + n else 87 + n.

Definition hex (bs : list N) : text :=
  concat (map (fun b => [hex_digit (b / 16); hex_digit (b mod 16)]) bs).

(** The hash object: [hashlib.md5()], [.update(data)], [.hexdigest()].  The
    object remembers what it was fed; feeding it in pieces or at once is the
    same. *)
Definition md5 : Type := bytes.

Definition new : md5 := EmptyString.

Definition update (h : md5) (data : bytes) : md5 := (h +:+ data)%string.

Definition hexdigest (h : md5) : text := hex (digest (Py.octets h)).

End Hashlib.

Example md5_empty :
  Hashlib.hexdigest Hashlib.new = Py.u "d41d8cd98f00b204e9800998ecf8427e".
Proof. vm_compute. reflexivity. Qed.

Example md5_abc :
  Hashlib.hexdigest (Hashlib.update Hashlib.new "abc")
  = Py.u "900150983cd24fb0d6963f7d28e17f72".
Proof. vm_compute. reflexivity. Qed.

Example md5_alphabet :
  Hashlib.hexdigest
    (Hashlib.update (Hashlib.update Hashlib.new "abcdefghijklm") "nopqrstuvwxyz")
  = Py.u "c3fcd3d76192e4007dfb496cca67e13b".
Proof. vm_compute. reflexivity. Qed.

Example md5_two_blocks :
  Hashlib.hexdigest
    (Hashlib.update Hashlib.new
       "12345678901234567890123456789012345678901234567890123456789012345678901234567890")
  = Py.u "57edf4a22be3c955ac49da2e2107b67a".
Proof. vm_compute. reflexivity. Qed.

Example format_examples :
  Py.str_N 0 = Py.u "0" /\ Py.str_N 1234567 = Py.u "1234567"
  /\ Py.format_comma 1234567 = Py.u "1,234,567"
  /\ Py.format_comma 999 = Py.u "999" /\ Py.format_comma 1000 = Py.u "1,000"
  /\ Py.format_plus_comma 0 = Py.u "+0"
  /\ Py.format_plus_comma (-12345) = Py.u "-12,345"
  /\ Py.format_plus_comma 3 = Py.u "+3".
Proof. vm_compute. repeat split. Qed.


Example text_examples :
  Py.iter_lines [62; 97; 10; 65; 67; 10; 71] = [[62; 97; 10]; [65; 67; 10]; [71]]
  /\ Py.strip (32 :: 9 :: Py.u ">x y" ++ [13; 10]) = Py.u ">x y"
  /\ Py.universal_newlines [65; 13; 10; 66; 13; 67] = [65; 10; 66; 10; 67]
  /\ Py.split_lf [97; 10; 10; 98] = [[97]; []; [98]]
  /\ Py.utf8_decode "✓" = Some [0x2713]
  /\ Py.encode [0x2713; 0x1F600; 0xE9] = "✓😀é"%string.
Proof. vm_compute. repeat split. Qed.

(** ** The world the pipeline runs in *)

(** The file system maps the canonical name of a regular file to its
    content.  A path is not a file: the operating system resolves it, and
    two paths ([out.fa] and [./out.fa], a link and its target) may name
    one file; see [realpath] below.  Directories and permissions are not
    modelled: a file is there or is not, and opening for writing and writing
    never fail. *)
Abbreviation FS := (gmap text bytes).

(** What [subprocess] captured of a stream: nothing, text or raw bytes. *)
Inductive Captured :=
| NotCaptured
| Str (s : text)
| Bytes (b : bytes).

(** The exceptions that reach the pipeline. *)
Inductive Exn :=
| FileNotFoundError (filename : text)
| CalledProcessError (cmd : list text) (returncode : Z) (stdout stderr : Captured)
| RuntimeError (message : text)
| UnicodeDecodeError
| OtherError (name : text).

(** What running an argument vector does: the program is not installed
    ([FileNotFoundError]); or it cannot be started for another reason, and
    [subprocess.run] raises the exception named ([PermissionError], another
    [OSError], [IndexError] for an empty argument vector), which is neither
    a [FileNotFoundError] nor a [CalledProcessError]; or it runs to
    completion with an exit status, its two output streams and the file
    system it leaves behind. *)
Inductive Outcome :=
| NoSuchProgram
| CannotStart (error : text)
| Exited (returncode : Z) (out err : bytes) (fs' : FS).

(** The environment of a run.  [spawn k argv fs] is the behaviour of the
    [k]-th process started, on argument vector [argv] and file system [fs];
    [realpath p] is the canonical name of the file that the path [p] names,
    as the operating system resolves it from the working directory of the
    run: two paths name one file exactly when their canonical names are
    equal; [clock k] is the formatted local time at the [k]-th log line;
    [decode_replace] is [bytes.decode('utf-8', errors='replace')] and
    [str_exn] is [str(e)]. *)
Record Env := {
  spawn : nat -> list text -> FS -> Outcome;
  realpath : text -> text;
  clock : nat -> text;
  decode_replace : bytes -> text;
  str_exn : Exn -> text
}.

(** The two paths name different files. *)
Definition apart (env : Env) (p q : text) : Prop := realpath env p <> realpath env q.

(** The observable state: files, lines printed on the terminal, what
    children wrote on the inherited error stream, and the argument vector of
    every call of [subprocess.run], oldest first. *)
Record World := {
  w_fs : FS;
  w_out : list text;
  w_err : list bytes;
  w_procs : list (list text)
}.

(** ** Computations: state that survives exceptions *)

Inductive Result (A : Type) :=
| Return (a : A)
| Raise (e : Exn).
Arguments Return {A} a.
Arguments Raise {A} e.

Definition M (A : Type) : Type := World -> Result A * World.

Definition ret {A} (a : A) : M A := fun w => (Return a, w).

Definition bind {A B} (m : M A) (k : A -> M B) : M B := fun w =>
  match m w with
  | (Return a, w') => k a w'
  | (Raise e, w') => (Raise e, w')
  end.

Declare Scope M_scope.
Delimit Scope M_scope with M.
Bind Scope M_scope with M.
Notation "x ← y ; z" := (bind y (fun x => z))
  (at level 20, y at level 100, z at level 200, only parsing) : M_scope.
Notation "x ;; z" := (bind x (fun _ => z))
  (at level 100, z at level 200, only parsing, right associativity) : M_scope.
Local Open Scope M_scope.

Definition raise {A} (e : Exn) : M A := fun w => (Raise e, w).

(** [try: body except ...: handler]; the handler decides which exceptions it
    takes by re-raising the others. *)
Definition try_except {A} (body : M A) (handler : Exn -> M A) : M A := fun w =>
  match body w with
  | (Return a, w') => (Return a, w')
  | (Raise e, w') => handler e w'
  end.

(** [for x in xs: acc = body x acc]. *)
Fixpoint for_each {A S} (xs : list A) (body : A -> S -> M S) (acc : S) : M S :=
  match xs with
  | [] => ret acc
  | x :: r => acc' ← body x acc; for_each r body acc'
  end.

Definition when (b : bool) (m : M unit) : M unit := if b then m else ret tt.

(** ** Files *)

(** Every operation on a path acts on the file the path names. *)
Definition exists_ (env : Env) (path : text) : M bool := fun w =>
  (Return (bool_decide (is_Some (w_fs w !! realpath env path))), w).

(** [path.stat().st_size]. *)
Definition st_size (env : Env) (path : text) : M N := fun w =>
  match w_fs w !! realpath env path with
  | Some content => (Return (N.of_nat (String.length content)), w)
  | None => (Raise (FileNotFoundError path), w)
  end.

Definition set_fs (f : FS -> FS) (w : World) : World :=
  {| w_fs := f (w_fs w); w_out := w_out w; w_err := w_err w;
     w_procs := w_procs w |}.

(** [open(path, 'a')] followed by one [write]. *)
Definition append_file (env : Env) (path : text) (data : bytes) : M unit :=
  fun w =>
  (Return tt,
   set_fs (fun fs =>
             <[realpath env path :=
                 (default EmptyString (fs !! realpath env path) +:+ data)%string]>
               fs) w).

(** [open(path, 'w')] and [open(path, 'wb')]: the file is created or cut to
    length zero. *)
Definition open_w (env : Env) (path : text) : M unit := fun w =>
  (Return tt, set_fs (fun fs => <[realpath env path := EmptyString]> fs) w).

(** [open(path, 'r')] and the text the iteration over it delivers. *)
Definition open_r (env : Env) (path : text) : M text := fun w =>
  match w_fs w !! realpath env path with
  | None => (Raise (FileNotFoundError path), w)
  | Some content =>
    match Py.text_mode content with
    | Some t => (Return t, w)
    | None => (Raise UnicodeDecodeError, w)
    end
  end.

Definition print (line : text) : M unit := fun w =>
  (Return tt,
   {| w_fs := w_fs w; w_out := w_out w ++ [line]; w_err := w_err w;
      w_procs := w_procs w |}).

(** ** [subprocess.run(cmd, stdout=..., stderr=..., text=..., check=True)] *)

Inductive Sink :=
| PIPE
| ToFile (path : text)
| Inherit.

Record CompletedProcess := {
  cp_stdout : Captured;
  cp_stderr : Captured
}.

Definition capture (text_mode : bool) (sink : Sink) (data : bytes)
  : option Captured :=
  match sink with
  | PIPE => if text_mode then Str <$> Py.text_mode data else Some (Bytes data)
  | _ => Some NotCaptured
  end.

(** A sink that is a file handle receives the child's stream: the handle was
    opened for writing just before, and holds what the child wrote to it.
    An inherited error stream shows on the terminal.  Captured streams are
    decoded before the exit status is looked at.  A start that fails is
    still an entry in the trace. *)
Definition subprocess_run (env : Env) (cmd : list text) (stdout stderr : Sink)
    (text_mode : bool) : M CompletedProcess := fun w =>
  let procs := w_procs w ++ [cmd] in
  match spawn env (length (w_procs w)) cmd (w_fs w) with
  | NoSuchProgram =>
    (Raise (FileNotFoundError (default [] (head cmd))),
     {| w_fs := w_fs w; w_out := w_out w; w_err := w_err w; w_procs := procs |})
  | CannotStart error =>
    (Raise (OtherError error),
     {| w_fs := w_fs w; w_out := w_out w; w_err := w_err w; w_procs := procs |})
  | Exited returncode out err fs' =>
    let fs1 := match stdout with
               | ToFile p => <[realpath env p := out]> fs'
               | _ => fs'
               end in
    let fs2 := match stderr with
               | ToFile p => <[realpath env p := err]> fs1
               | _ => fs1
               end in
    let w' :=
      {| w_fs := fs2; w_out := w_out w;
         w_err := match stderr with Inherit => w_err w ++ [err] | _ => w_err w end;
         w_procs := procs |} in
    match capture text_mode stdout out, capture text_mode stderr err with
    | Some o, Some e =>
      if (returncode =? 0)%Z
      then (Return {| cp_stdout := o; cp_stderr := e |}, w')
      else (Raise (CalledProcessError cmd returncode o e), w')
    | _, _ => (Raise UnicodeDecodeError, w')
    end
  end.

(** The text of a captured stream, as an f-string shows it and as string
    methods see it, and its truthiness.  Wherever the pipeline reads one
    this way the stream was captured as text; a stream that was not
    captured is [None]. *)
Definition shown (c : Captured) : text :=
  match c with
  | Str s => s
  | _ => Py.u "None"
  end.

Definition nonempty (c : Captured) : bool :=
  match c with
  | Str s => Py.truthy s
  | Bytes b => negb (String.eqb b EmptyString)
  | NotCaptured => false
  end.

(** ** [class VCFtoFASTAPipeline] *)

(** The attributes set by [__init__].  The three data paths are wrapped in
    [Path] and kept here as their string form; [log_file] is kept as the
    string that was given.  None of them is resolved before it is used. *)
Record Pipeline := {
  fasta_path : text;
  vcf_path : text;
  output_path : text;
  log_file : text
}.

(** The dictionary built by [get_file_stats]. *)
Record Stats := {
  num_sequences : N;
  total_length : N;
  md5 : option text
}.

Definition LF : text := [10].

Definition rule : text := Py.times 61 60.

(** [len], of a string or of a list. *)
Definition len {A} (s : list A) : N := N.of_nat (length s).

Definition install_hint : text :=
  Py.u "Install with: conda install -c bioconda bcftools samtools htslib".

Definition required_tools : list text :=
  [Py.u "bcftools"; Py.u "samtools"; Py.u "bgzip"; Py.u "tabix"].

Section Methods.

Context (env : Env) (self : Pipeline).

(** [log]: one line, stamped, printed and appended to the log file. *)
Definition log (message : text) : M unit := fun w =>
  let timestamp := clock env (length (w_out w)) in
  let log_msg := Py.u "[" ++ timestamp ++ Py.u "] " ++ message in
  (print log_msg;;
   append_file env (log_file self) (Py.encode (log_msg ++ LF)) : M unit) w.

(** [run_command]. *)
Definition run_command (cmd : list text) (description : text)
  : M CompletedProcess :=
  log (Py.u "Running: " ++ description);;
  log (Py.u "Command: " ++ Py.join (Py.u " ") cmd);;
  try_except
    (result ← subprocess_run env cmd PIPE PIPE true;
     when (nonempty (cp_stdout result))
       (log (Py.u "Output: " ++ shown (cp_stdout result)));;
     ret result)
    (fun e =>
       match e with
       | CalledProcessError _ _ _ stderr =>
         log (Py.u "ERROR: " ++ description ++ Py.u " failed");;
         log (Py.u "Error message: " ++ shown stderr);;
         raise e
       | _ => raise e
       end).

(** [check_dependencies]. *)
Definition probe (tool : text) (missing_tools : list text) : M (list text) :=
  try_except
    (subprocess_run env [tool; Py.u "--version"] PIPE PIPE false;;
     log (Py.u "✓ " ++ tool ++ Py.u " found");;
     ret missing_tools)
    (fun e =>
       match e with
       | CalledProcessError _ _ _ _ | FileNotFoundError _ =>
         log (Py.u "✗ " ++ tool ++ Py.u " NOT found");;
         ret (missing_tools ++ [tool])
       | _ => raise e
       end).

Definition missing_message (missing_tools : list text) : text :=
  Py.u "Missing required tools: " ++ Py.join (Py.u ", ") missing_tools
  ++ LF ++ install_hint.

Definition check_dependencies : M unit :=
  log (Py.u "Checking dependencies...");;
  missing_tools ← for_each required_tools probe [];
  match missing_tools with
  | [] => ret tt
  | _ => raise (RuntimeError (missing_message missing_tools))
  end.

(** [index_fasta]. *)
Definition fai_path : text := fasta_path self ++ Py.u ".fai".

Definition index_fasta : M unit :=
  present ← exists_ env fai_path;
  if present then log (Py.u "FASTA index already exists: " ++ fai_path)
  else
    log (Py.u "Indexing FASTA file...");;
    run_command [Py.u "samtools"; Py.u "faidx"; fasta_path self]
      (Py.u "FASTA indexing");;
    ret tt.

(** [compress_and_index_vcf]. *)
Definition gz_path : text := vcf_path self ++ Py.u ".gz".

Definition compress_vcf : M unit :=
  log (Py.u "Compressing VCF file...");;
  log (Py.u "Command: bgzip -c " ++ vcf_path self ++ Py.u " > " ++ gz_path);;
  try_except
    (open_w env gz_path;;
     result ← subprocess_run env [Py.u "bgzip"; Py.u "-c"; vcf_path self]
                (ToFile gz_path) PIPE false;
     when (nonempty (cp_stderr result))
       (let stderr_msg :=
          match cp_stderr result with
          | Bytes b => decode_replace env b
          | c => shown c
          end in
        when (Py.truthy (Py.strip stderr_msg))
          (log (Py.u "bgzip stderr: " ++ stderr_msg)));;
     log (Py.u "VCF compressed successfully"))
    (fun e =>
       match e with
       | CalledProcessError _ _ _ stderr =>
         log (Py.u "ERROR: VCF compression failed");;
         (let stderr_msg :=
            match stderr with
            | Bytes b =>
              if nonempty stderr then decode_replace env b
              else Py.u "Unknown error"
            | _ => Py.u "Unknown error"
            end in
          log (Py.u "Error message: " ++ stderr_msg));;
         raise e
       | _ => raise e
       end).

Definition compress_and_index_vcf : M text :=
  compressed_vcf ←
    (if Py.endswith (vcf_path self) (Py.u ".gz") then
       log (Py.u "VCF is already compressed: " ++ vcf_path self);;
       ret (vcf_path self)
     else
       present ← exists_ env gz_path;
       (if present then log (Py.u "Compressed VCF already exists: " ++ gz_path)
        else compress_vcf);;
       ret gz_path);
  let tbi_path := compressed_vcf ++ Py.u ".tbi" in
  present ← exists_ env tbi_path;
  (if present then log (Py.u "VCF index already exists: " ++ tbi_path)
   else
     log (Py.u "Indexing VCF file...");;
     run_command [Py.u "tabix"; Py.u "-p"; Py.u "vcf"; compressed_vcf]
       (Py.u "VCF indexing");;
     ret tt);;
  ret compressed_vcf.

(** [get_file_stats]: the body of the loop over the lines of the file, on the
    loop's variables [stats], [md5_hash] and [current_seq]. *)
Definition flush (stats : Stats) (current_seq : list text) : Stats * list text :=
  match current_seq with
  | [] => (stats, current_seq)
  | _ =>
    ({| num_sequences := num_sequences stats;
        total_length := total_length stats + len (Py.join [] current_seq);
        md5 := md5 stats |}, [])
  end.

Definition scan_line (st : Stats * Hashlib.md5 * list text) (line : text)
  : Stats * Hashlib.md5 * list text :=
  let '(stats, md5_hash, current_seq) := st in
  let md5_hash := Hashlib.update md5_hash (Py.encode line) in
  let line := Py.strip line in
  if Py.startswith line (Py.u ">") then
    let '(stats, current_seq) := flush stats current_seq in
    ({| num_sequences := num_sequences stats + 1;
        total_length := total_length stats;
        md5 := md5 stats |}, md5_hash, current_seq)
  else (stats, md5_hash, current_seq ++ [line]).

Definition stats_of_lines (lines : list text) : Stats :=
  let stats := {| num_sequences := 0; total_length := 0; md5 := None |} in
  let '(stats, md5_hash, current_seq) :=
    fold_left scan_line lines (stats, Hashlib.new, []) in
  let '(stats, _) := flush stats current_seq in
  {| num_sequences := num_sequences stats;
     total_length := total_length stats;
     md5 := Some (Hashlib.hexdigest md5_hash) |}.

Definition get_file_stats (filepath : text) : M Stats :=
  f ← open_r env filepath;
  ret (stats_of_lines (Py.iter_lines f)).

(** [count_vcf_variants]. *)
Definition count_lines (stdout : text) : N :=
  if Py.truthy (Py.strip stdout)
  then len (Py.split_lf (Py.strip stdout))
  else 0.

Definition count_vcf_variants (vcf : text) : M N :=
  result ← subprocess_run env [Py.u "bcftools"; Py.u "view"; Py.u "-H"; vcf]
             PIPE Inherit true;
  ret (count_lines (shown (cp_stdout result))).

(** [apply_variants]. *)
Definition apply_variants (compressed_vcf : text) : M unit :=
  log (Py.u "Applying variants to reference...");;
  open_w env (output_path self);;
  result ← subprocess_run env
             [Py.u "bcftools"; Py.u "consensus"; Py.u "-f"; fasta_path self;
              compressed_vcf]
             (ToFile (output_path self)) PIPE true;
  when (nonempty (cp_stderr result))
    (log (Py.u "bcftools stderr: " ++ shown (cp_stderr result))).

(** [validate_output].  The three checks are named so that statements can
    refer to them; each is the condition of the corresponding [if]. *)
Definition check1 (input_stats output_stats : Stats) : bool :=
  num_sequences input_stats =? num_sequences output_stats.

Definition check2 (input_stats output_stats : Stats) : bool :=
  negb (bool_decide (md5 input_stats = md5 output_stats)).

Definition check3 : M bool :=
  present ← exists_ env (output_path self);
  if present then
    size ← st_size env (output_path self);
    ret (0 <? size)
  else ret false.

Definition log_stats (stats : Stats) : M unit :=
  log (Py.u "  Number of sequences: " ++ Py.str_N (num_sequences stats));;
  log (Py.u "  Total length: " ++ Py.format_comma (total_length stats)
       ++ Py.u " bp");;
  log (Py.u "  MD5 checksum: " ++ default (Py.u "None") (md5 stats)).

Definition validate_output : M bool :=
  log (LF ++ rule);;
  log (Py.u "VALIDATION REPORT");;
  log rule;;
  log (LF ++ Py.u "Input FASTA statistics:");;
  input_stats ← get_file_stats (fasta_path self);
  log_stats input_stats;;
  log (LF ++ Py.u "Output FASTA statistics:");;
  output_stats ← get_file_stats (output_path self);
  log_stats output_stats;;
  log (LF ++ Py.u "Validation checks:");;
  let checks_passed := true in
  checks_passed ←
    (if check1 input_stats output_stats
     then log (Py.u "  ✓ Number of sequences matches");; ret checks_passed
     else log (Py.u "  ✗ WARNING: Number of sequences differs!");; ret false);
  checks_passed ←
    (if check2 input_stats output_stats
     then log (Py.u "  ✓ Output differs from input (variants applied)");;
          ret checks_passed
     else log (Py.u "  ✗ WARNING: Output identical to input (no changes made?)");;
          ret false);
  c3 ← check3;
  checks_passed ←
    (if c3
     then log (Py.u "  ✓ Output file exists and has content");; ret checks_passed
     else log (Py.u "  ✗ ERROR: Output file is missing or empty!");; ret false);
  let length_diff :=
    (Z.of_N (total_length output_stats) - Z.of_N (total_length input_stats))%Z in
  log (LF ++ Py.u "  Length change: " ++ Py.format_plus_comma length_diff
       ++ Py.u " bp");;
  log (LF ++ rule);;
  (if checks_passed then log (Py.u "✓ VALIDATION PASSED")
   else log (Py.u "✗ VALIDATION FAILED - Review warnings above"));;
  log (rule ++ LF);;
  ret checks_passed.

(** [run]: the body of the [try], then the whole method. *)
Definition run_body : M bool :=
  log rule;;
  log (Py.u "VCF to FASTA Pipeline");;
  log rule;;
  log (Py.u "Input FASTA: " ++ fasta_path self);;
  log (Py.u "Input VCF: " ++ vcf_path self);;
  log (Py.u "Output FASTA: " ++ output_path self);;
  log (Py.u "Log file: " ++ log_file self);;
  log (rule ++ LF);;
  check_dependencies;;
  index_fasta;;
  compressed_vcf ← compress_and_index_vcf;
  num_variants ← count_vcf_variants compressed_vcf;
  log (LF ++ Py.u "Number of variants in VCF: " ++ Py.str_N num_variants);;
  apply_variants compressed_vcf;;
  validation_passed ← validate_output;
  log (LF ++ Py.u "Pipeline completed successfully!");;
  log (Py.u "Output saved to: " ++ output_path self);;
  ret validation_passed.

Definition run : M bool :=
  try_except run_body
    (fun e =>
       log (LF ++ rule);;
       log (Py.u "ERROR: Pipeline failed!");;
       log rule;;
       log (Py.u "Exception: " ++ str_exn env e);;
       raise e).

End Methods.

(** * Properties *)

(** ** Statistics: flush on the next header, flush at the end *)

(** A line is a header when, trimmed, it starts with the marker. *)
Definition is_header (line : text) : bool :=
  Py.startswith (Py.strip line) (Py.u ">").

(** The records of a file, as the format defines them: every header opens a
    record, which owns the residue lines up to the next header.  Residue
    lines ahead of the first header belong to no record and are returned
    apart. *)
Fixpoint records (lines : list text) : list text * list (text * list text) :=
  match lines with
  | [] => ([], [])
  | l :: rest =>
    let '(leading, recs) := records rest in
    if is_header l then ([], (l, leading) :: recs) else (l :: leading, recs)
  end.

(** Length of a record's concatenated residue lines, each trimmed. *)
Definition residue_length (residues : list text) : N :=
  len (Py.join [] (map Py.strip residues)).

Definition sum_N (l : list N) : N := fold_right N.add 0 l.

Lemma join_empty_sep (parts : list text) : Py.join [] parts = concat parts.
Proof.
  induction parts as [|p ps IH]; [reflexivity|].
  destruct ps as [|q ps]; simpl in *.
  - now rewrite app_nil_r.
  - now rewrite IH.
Qed.

Lemma len_join_app (a b : list text) :
  len (Py.join [] (a ++ b)) = len (Py.join [] a) + len (Py.join [] b).
Proof.
  rewrite !join_empty_sep, concat_app. unfold len.
  rewrite length_app. lia.
Qed.

Lemma total_length_flush (stats : Stats) (current_seq : list text) :
  total_length (flush stats current_seq).1
  = total_length stats + len (Py.join [] current_seq)
  /\ num_sequences (flush stats current_seq).1 = num_sequences stats
  /\ md5 (flush stats current_seq).1 = md5 stats.
Proof.
  destruct current_seq; simpl; repeat split; unfold len; simpl; lia.
Qed.

Lemma flush_resets (stats : Stats) (current_seq : list text) :
  (flush stats current_seq).2 = [].
Proof. now destruct current_seq. Qed.

(** The loop invariant: what has been flushed plus what is pending is the
    residue count so far, whatever state the loop starts from. *)
Lemma scan_lines_invariant (lines : list text) :
  forall (stats : Stats) (h : Hashlib.md5) (cur : list text),
    let '(stats', _, cur') := fold_left scan_line lines (stats, h, cur) in
    num_sequences stats' = num_sequences stats + len (records lines).2
    /\ total_length stats' + len (Py.join [] cur')
       = total_length stats + len (Py.join [] cur)
         + residue_length (records lines).1
         + sum_N (map (fun r => residue_length r.2) (records lines).2).
Proof.
  induction lines as [|l rest IH]; intros stats h cur.
  - simpl. unfold residue_length, len. simpl. lia.
  - simpl fold_left. fold (is_header l).
    simpl records. destruct (records rest) as [leading recs] eqn:Erec.
    destruct (is_header l) eqn:Ehd.
    + destruct (flush stats cur) as [stats1 cur1] eqn:Efl.
      pose proof (total_length_flush stats cur) as (Ht & Hn & _).
      pose proof (flush_resets stats cur) as Hc.
      rewrite Efl in Ht, Hn, Hc. simpl in Ht, Hn, Hc. subst cur1.
      match goal with
      | |- context [fold_left scan_line rest (?s, ?hh, [])] =>
        specialize (IH s hh [])
      end.
      destruct (fold_left scan_line rest _) as [[stats' h'] cur'].
      simpl in IH |- *. destruct IH as [IHn IHt].
      unfold residue_length, len in *. simpl in *. split; lia.
    + specialize (IH stats (Hashlib.update h (Py.encode l)) (cur ++ [Py.strip l])).
      destruct (fold_left scan_line rest _) as [[stats' h'] cur'].
      simpl in IH |- *. destruct IH as [IHn IHt]. split; [exact IHn|].
      rewrite IHt, len_join_app. unfold residue_length. simpl map.
      change (Py.strip l :: map Py.strip leading)
        with ([Py.strip l] ++ map Py.strip leading).
      rewrite len_join_app. lia.
Qed.

(** The digest is fed every line as read, headers included. *)
Lemma scan_lines_digest (lines : list text) :
  forall (stats : Stats) (h : Hashlib.md5) (cur : list text),
    (fold_left scan_line lines (stats, h, cur)).1.2
    = fold_left (fun h l => Hashlib.update h (Py.encode l)) lines h.
Proof.
  induction lines as [|l rest IH]; intros stats h cur; [reflexivity|].
  simpl fold_left. destruct (Py.startswith _ _).
  - destruct (flush stats cur). apply IH.
  - apply IH.
Qed.

Lemma stats_of_lines_spec (lines : list text) :
  stats_of_lines lines =
  {| num_sequences := len (records lines).2;
     total_length :=
       residue_length (records lines).1
       + sum_N (map (fun r => residue_length r.2) (records lines).2);
     md5 := Some (Hashlib.hexdigest
                    (fold_left (fun h l => Hashlib.update h (Py.encode l))
                       lines Hashlib.new)) |}.
Proof.
  unfold stats_of_lines.
  pose proof (scan_lines_invariant lines
                {| num_sequences := 0; total_length := 0; md5 := None |}
                Hashlib.new []) as Hinv.
  pose proof (scan_lines_digest lines
                {| num_sequences := 0; total_length := 0; md5 := None |}
                Hashlib.new []) as Hdig.
  destruct (fold_left scan_line lines _) as [[stats' h'] cur'].
  simpl in Hinv, Hdig. destruct Hinv as [Hn Ht]. subst h'.
  pose proof (total_length_flush stats' cur') as (Ht' & Hn' & _).
  destruct (flush stats' cur') as [stats2 cur2]. simpl in Ht', Hn'.
  f_equal.
  - rewrite Hn', Hn. lia.
  - rewrite Ht'. unfold len in Ht at 2. simpl in Ht. lia.
Qed.

Lemma get_file_stats_eq (env : Env) (filepath : text) (w : World) :
  get_file_stats env filepath w =
  match w_fs w !! realpath env filepath with
  | None => (Raise (FileNotFoundError filepath), w)
  | Some content =>
    match Py.text_mode content with
    | None => (Raise UnicodeDecodeError, w)
    | Some t => (Return (stats_of_lines (Py.iter_lines t)), w)
    end
  end.
Proof.
  unfold get_file_stats, bind, open_r, ret.
  destruct (w_fs w !! realpath env filepath) as [content|]; [|reflexivity].
  now destruct (Py.text_mode content).
Qed.

(** Concrete files and worlds used to exercise the statements. *)
Definition nl : bytes := String "010" EmptyString.

Definition world_of (files : list (text * bytes)) : World :=
  {| w_fs := list_to_map files; w_out := []; w_err := []; w_procs := [] |}.

(** An environment with no tool installed, used where no process matters;
    every path is the canonical name of its file. *)
Definition noon (k : nat) : text := Py.u "2024-05-17 12:00:00".

Definition env_no_tools : Env :=
  {| spawn := fun _ _ _ => NoSuchProgram;
     realpath := fun p => p;
     clock := noon;
     decode_replace := Py.u;
     str_exn := fun _ => Py.u "error" |}.

(** Three records with 10, 0 and 5 residues; the second has no residue line
    at all. *)
Definition fasta_10_0_5 : bytes :=
  (">r1" +:+ nl +:+ "ACGTACGTAC" +:+ nl +:+ ">r2" +:+ nl +:+ ">r3" +:+ nl
   +:+ "ACGTA" +:+ nl)%string.

(** The same, the second record holding one empty line, and the last line
    of the file unterminated. *)
Definition fasta_10_blank_5 : bytes :=
  (">r1" +:+ nl +:+ "ACGTA" +:+ nl +:+ "CGTAC" +:+ nl +:+ ">r2" +:+ nl +:+ nl
   +:+ ">r3" +:+ nl +:+ "ACGTA")%string.

(** C1. [get_file_stats] on a readable file returns, leaves the world as it
    was, counts one record per header line and totals the residues of every
    record: a record's residue lines are flushed when the next header comes
    and the last record is flushed at the end of the file, so no record is
    dropped (lines ahead of the first header are totalled too).  In
    particular a file of three records with 10, 0 and 5 residues has total
    length 15 and 3 records. *)
Theorem get_file_stats_flush (env : Env) (filepath : text) (w : World)
    (content : bytes) (t : text) :
  w_fs w !! realpath env filepath = Some content ->
  Py.text_mode content = Some t ->
  exists stats,
    get_file_stats env filepath w = (Return stats, w)
    /\ num_sequences stats = len (records (Py.iter_lines t)).2
    /\ total_length stats
       = residue_length (records (Py.iter_lines t)).1
         + sum_N (map (fun r => residue_length r.2) (records (Py.iter_lines t)).2)
    /\ ((records (Py.iter_lines t)).1 = [] ->
        map (fun r => residue_length r.2) (records (Py.iter_lines t)).2
        = [10; 0; 5] ->
        total_length stats = 15 /\ num_sequences stats = 3).
Proof.
  intros Hfile Htext. exists (stats_of_lines (Py.iter_lines t)).
  rewrite get_file_stats_eq, Hfile, Htext, stats_of_lines_spec. simpl.
  split; [reflexivity|]. split; [reflexivity|]. split; [reflexivity|].
  intros Hleading Hlengths. rewrite Hleading, Hlengths. split; [reflexivity|].
  apply (f_equal (@length N)) in Hlengths. rewrite length_map in Hlengths.
  unfold len. now rewrite Hlengths.
Qed.

Lemma get_file_stats_flush_witness :
  (exists stats,
     get_file_stats env_no_tools (Py.u "x.fa")
       (world_of [(Py.u "x.fa", fasta_10_0_5)])
     = (Return stats, world_of [(Py.u "x.fa", fasta_10_0_5)])
     /\ total_length stats = 15 /\ num_sequences stats = 3)
  /\ (exists stats,
     get_file_stats env_no_tools (Py.u "y.fa")
       (world_of [(Py.u "y.fa", fasta_10_blank_5)])
     = (Return stats, world_of [(Py.u "y.fa", fasta_10_blank_5)])
     /\ total_length stats = 15 /\ num_sequences stats = 3).
Proof.
  split.
  - destruct (get_file_stats_flush env_no_tools (Py.u "x.fa")
                (world_of [(Py.u "x.fa", fasta_10_0_5)]) fasta_10_0_5
                (default [] (Py.text_mode fasta_10_0_5)))
      as (stats & Heq & _ & _ & Hpart);
      [vm_compute; reflexivity | vm_compute; reflexivity |].
    exists stats. split; [exact Heq|].
    apply Hpart; vm_compute; reflexivity.
  - destruct (get_file_stats_flush env_no_tools (Py.u "y.fa")
                (world_of [(Py.u "y.fa", fasta_10_blank_5)]) fasta_10_blank_5
                (default [] (Py.text_mode fasta_10_blank_5)))
      as (stats & Heq & _ & _ & Hpart);
      [vm_compute; reflexivity | vm_compute; reflexivity |].
    exists stats. split; [exact Heq|].
    apply Hpart; vm_compute; reflexivity.
Defined.

(** ** Reasoning about computations *)

Lemma bind_eq {A B} (m : M A) (k : A -> M B) (w : World) :
  bind m k w =
  match m w with
  | (Return a, w') => k a w'
  | (Raise e, w') => (Raise e, w')
  end.
Proof. reflexivity. Qed.

Lemma bind_returns {A B} (m : M A) (k : A -> M B) (w w' : World) (a : A) :
  m w = (Return a, w') -> bind m k w = k a w'.
Proof. intros H. unfold bind. now rewrite H. Qed.



Lemma bind_assoc {A B C} (m : M A) (f : A -> M B) (g : B -> M C) (w : World) :
  bind (bind m f) g w = bind m (fun x => bind (f x) g) w.
Proof. unfold bind. now destruct (m w) as [[a|e] w']. Qed.

Lemma ret_bind {A B} (a : A) (k : A -> M B) (w : World) :
  bind (ret a) k w = k a w.
Proof. reflexivity. Qed.

(** A relation between the world before and the world after that every step
    of a computation respects is respected by the computation. *)
Section Preserves.

Context (R : World -> World -> Prop) `{!PreOrder R}.

Definition preserves {A} (m : M A) : Prop :=
  forall w r w', m w = (r, w') -> R w w'.

Lemma preserves_ret {A} (a : A) : preserves (ret a).
Proof. intros w r w' [= <- <-]. reflexivity. Qed.

Lemma preserves_raise {A} (e : Exn) : preserves (@raise A e).
Proof. intros w r w' [= <- <-]. reflexivity. Qed.

Lemma preserves_bind {A B} (m : M A) (k : A -> M B) :
  preserves m -> (forall a, preserves (k a)) -> preserves (bind m k).
Proof.
  intros Hm Hk w r w'. unfold bind.
  destruct (m w) as [[a|e] w1] eqn:Em; intros H.
  - transitivity w1; [exact (Hm _ _ _ Em) | exact (Hk _ _ _ _ H)].
  - injection H as <- <-. exact (Hm _ _ _ Em).
Qed.

Lemma preserves_try_except {A} (body : M A) (handler : Exn -> M A) :
  preserves body -> (forall e, preserves (handler e)) ->
  preserves (try_except body handler).
Proof.
  intros Hb Hh w r w'. unfold try_except.
  destruct (body w) as [[a|e] w1] eqn:Eb; intros H.
  - injection H as <- <-. exact (Hb _ _ _ Eb).
  - transitivity w1; [exact (Hb _ _ _ Eb) | exact (Hh _ _ _ _ H)].
Qed.

Lemma preserves_for_each {A S} (xs : list A) (body : A -> S -> M S) :
  (forall x acc, preserves (body x acc)) ->
  forall acc, preserves (for_each xs body acc).
Proof.
  intros Hbody. induction xs as [|x xs IH]; intros acc; simpl.
  - apply preserves_ret.
  - apply preserves_bind; [apply Hbody | exact IH].
Qed.

Lemma preserves_when (b : bool) (m : M unit) :
  preserves m -> preserves (when b m).
Proof. intros Hm. destruct b; [exact Hm | apply preserves_ret]. Qed.

Lemma preserves_exists (env : Env) (path : text) : preserves (exists_ env path).
Proof. intros w r w' [= <- <-]. reflexivity. Qed.

Lemma preserves_st_size (env : Env) (path : text) : preserves (st_size env path).
Proof.
  intros w r w'. unfold st_size.
  destruct (w_fs w !! realpath env path); intros [= <- <-]; reflexivity.
Qed.

Lemma preserves_get_file_stats (env : Env) (path : text) :
  preserves (get_file_stats env path).
Proof.
  intros w r w'. rewrite get_file_stats_eq.
  destruct (w_fs w !! realpath env path) as [c|]; [destruct (Py.text_mode c)|];
    intros [= <- <-]; reflexivity.
Qed.

(** The methods, given that logging, spawning and opening for writing
    respect the relation. *)
Section OfMethods.

Context (env : Env) (self : Pipeline).

Hypothesis preserves_log : forall m, preserves (log env self m).
Hypothesis preserves_spawn :
  forall cmd tm, preserves (subprocess_run env cmd PIPE PIPE tm)
              /\ preserves (subprocess_run env cmd PIPE Inherit tm)
              /\ preserves (subprocess_run env cmd (ToFile (gz_path self)) PIPE tm)
              /\ preserves (subprocess_run env cmd (ToFile (output_path self)) PIPE tm).
Hypothesis preserves_open_gz : preserves (open_w env (gz_path self)).
Hypothesis preserves_open_output : preserves (open_w env (output_path self)).

Ltac frame_step :=
  lazymatch goal with
  | |- forall _, _ => intros ?
  | |- preserves (bind _ _) => apply preserves_bind
  | |- preserves (try_except _ _) => apply preserves_try_except
  | |- preserves (when _ _) => apply preserves_when
  | |- preserves (for_each _ _ _) => apply preserves_for_each
  | |- preserves (ret _) => apply preserves_ret
  | |- preserves (raise _) => apply preserves_raise
  | |- preserves (log _ _ _) => apply preserves_log
  | |- preserves (subprocess_run _ _ _ _ _) => apply preserves_spawn
  | |- preserves (open_w _ _) =>
    first [apply preserves_open_gz | apply preserves_open_output]
  | |- preserves (exists_ _ _) => apply preserves_exists
  | |- preserves (st_size _ _) => apply preserves_st_size
  | |- preserves (get_file_stats _ _) => apply preserves_get_file_stats
  | |- preserves (let _ := _ in _) => cbv zeta
  | |- preserves (match ?x with _ => _ end) => destruct x
  end.

Ltac frame := repeat frame_step.

Lemma preserves_run_command cmd description :
  preserves (run_command env self cmd description).
Proof. unfold run_command. frame. Qed.

Lemma preserves_check_dependencies : preserves (check_dependencies env self).
Proof. unfold check_dependencies, probe. frame. Qed.

Lemma preserves_index_fasta : preserves (index_fasta env self).
Proof. unfold index_fasta. frame; apply preserves_run_command. Qed.

Lemma preserves_compress_and_index_vcf :
  preserves (compress_and_index_vcf env self).
Proof.
  unfold compress_and_index_vcf, compress_vcf.
  frame; apply preserves_run_command.
Qed.

Lemma preserves_count_vcf_variants vcf :
  preserves (count_vcf_variants env vcf).
Proof. unfold count_vcf_variants. frame. Qed.

Lemma preserves_apply_variants compressed_vcf :
  preserves (apply_variants env self compressed_vcf).
Proof. unfold apply_variants. frame. Qed.

Lemma preserves_validate_output : preserves (validate_output env self).
Proof. unfold validate_output, log_stats, check3. frame. Qed.

Lemma preserves_run_body : preserves (run_body env self).
Proof.
  unfold run_body.
  frame; first
    [ apply preserves_check_dependencies | apply preserves_index_fasta
    | apply preserves_compress_and_index_vcf | apply preserves_count_vcf_variants
    | apply preserves_apply_variants | apply preserves_validate_output ].
Qed.

Lemma preserves_run : preserves (run env self).
Proof. unfold run. frame. apply preserves_run_body. Qed.

End OfMethods.

End Preserves.

(** ** Logging *)

Section Logging.

Context (env : Env) (self : Pipeline).

(** A stamped log line, the world after one call of [log], and after a
    sequence of calls. *)
Definition stamp (k : nat) (message : text) : text :=
  Py.u "[" ++ clock env k ++ Py.u "] " ++ message.

Definition logged (message : text) (w : World) : World :=
  (log env self message w).2.

Definition logs (messages : list text) (w : World) : World :=
  fold_left (fun w m => logged m w) messages w.

Fixpoint stamps (k : nat) (messages : list text) : list text :=
  match messages with
  | [] => []
  | m :: r => stamp k m :: stamps (S k) r
  end.

Lemma log_eq (m : text) (w : World) : log env self m w = (Return tt, logged m w).
Proof. reflexivity. Qed.

Lemma log_bind {B} (m : text) (k : unit -> M B) (w : World) :
  bind (log env self m) k w = k tt (logged m w).
Proof. reflexivity. Qed.

Lemma w_out_logged (m : text) (w : World) :
  w_out (logged m w) = w_out w ++ [stamp (length (w_out w)) m].
Proof. reflexivity. Qed.

Lemma w_procs_logged (m : text) (w : World) : w_procs (logged m w) = w_procs w.
Proof. reflexivity. Qed.

Lemma w_err_logged (m : text) (w : World) : w_err (logged m w) = w_err w.
Proof. reflexivity. Qed.

Lemma w_fs_logged (m : text) (w : World) :
  w_fs (logged m w)
  = <[realpath env (log_file self) :=
        (default EmptyString (w_fs w !! realpath env (log_file self))
         +:+ Py.encode (stamp (length (w_out w)) m ++ LF))%string]> (w_fs w).
Proof. reflexivity. Qed.

(** Logging changes the file that the log path names, and no other:
    [file] is a canonical name. *)
Lemma w_fs_logged_ne (m : text) (w : World) (file : text) :
  realpath env (log_file self) <> file ->
  w_fs (logged m w) !! file = w_fs w !! file.
Proof. intros Hne. rewrite w_fs_logged. now apply lookup_insert_ne. Qed.

Lemma w_fs_logged_is_Some (m : text) (w : World) (file : text) :
  is_Some (w_fs w !! file) -> is_Some (w_fs (logged m w) !! file).
Proof.
  intros Hp. rewrite w_fs_logged.
  destruct (decide (realpath env (log_file self) = file)) as [<-|Hne].
  - rewrite lookup_insert_eq. eauto.
  - now rewrite lookup_insert_ne.
Qed.

Lemma logs_cons (m : text) (ms : list text) (w : World) :
  logs (m :: ms) w = logs ms (logged m w).
Proof. reflexivity. Qed.

Lemma logs_app (ms ms' : list text) (w : World) :
  logs (ms ++ ms') w = logs ms' (logs ms w).
Proof. apply fold_left_app. Qed.

Lemma w_out_logs (ms : list text) (w : World) :
  w_out (logs ms w) = w_out w ++ stamps (length (w_out w)) ms.
Proof.
  revert w. induction ms as [|m ms IH]; intros w; simpl.
  - now rewrite app_nil_r.
  - fold (logs ms (logged m w)). rewrite IH, w_out_logged, length_app.
    simpl. rewrite <- app_assoc. simpl.
    now replace (length (w_out w) + 1)%nat with (S (length (w_out w))) by lia.
Qed.

Lemma w_procs_logs (ms : list text) (w : World) : w_procs (logs ms w) = w_procs w.
Proof.
  revert w. induction ms as [|m ms IH]; intros w; [reflexivity|].
  rewrite logs_cons, IH. apply w_procs_logged.
Qed.

Lemma w_fs_logs_ne (ms : list text) (w : World) (file : text) :
  realpath env (log_file self) <> file ->
  w_fs (logs ms w) !! file = w_fs w !! file.
Proof.
  intros Hne. revert w. induction ms as [|m ms IH]; intros w; [reflexivity|].
  rewrite logs_cons, IH. now apply w_fs_logged_ne.
Qed.

Lemma w_fs_logs_is_Some (ms : list text) (w : World) (p : text) :
  is_Some (w_fs w !! p) -> is_Some (w_fs (logs ms w) !! p).
Proof.
  revert w. induction ms as [|m ms IH]; intros w Hp; [exact Hp|].
  rewrite logs_cons. now apply IH, w_fs_logged_is_Some.
Qed.

Lemma stamps_lookup (ms : list text) (n i : nat) (m : text) :
  ms !! i = Some m -> stamps n ms !! i = Some (stamp (n + i) m).
Proof.
  revert n i. induction ms as [|m' ms IH]; intros n i; [discriminate|].
  destruct i as [|i]; simpl.
  - intros [= ->]. now rewrite Nat.add_0_r.
  - intros H. rewrite (IH (S n) i H). f_equal. f_equal. lia.
Qed.

Lemma stamps_app (k : nat) (ms ms' : list text) :
  stamps k (ms ++ ms') = stamps k ms ++ stamps (k + length ms) ms'.
Proof.
  revert k. induction ms as [|m ms IH]; intros k; simpl.
  - now rewrite Nat.add_0_r.
  - rewrite IH. do 3 f_equal. lia.
Qed.

Lemma length_stamps (k : nat) (ms : list text) : length (stamps k ms) = length ms.
Proof. revert k. induction ms; intros k; simpl; congruence. Qed.

(** The terminal only grows. *)
Definition out_extends (w w' : World) : Prop :=
  exists more, w_out w' = w_out w ++ more.

#[global] Instance out_extends_preorder : PreOrder out_extends.
Proof.
  split.
  - intros w. exists []. now rewrite app_nil_r.
  - intros w1 w2 w3 [m1 H1] [m2 H2]. exists (m1 ++ m2).
    now rewrite H2, H1, app_assoc.
Qed.

Lemma out_extends_logs (ms : list text) (w : World) : out_extends w (logs ms w).
Proof. eexists. apply w_out_logs. Qed.

(** [said m w w']: between [w] and [w'] the message [m] was logged. *)
Definition said (message : text) (w w' : World) : Prop :=
  exists k, (length (w_out w) <= k)%nat
            /\ w_out w' !! k = Some (stamp k message).

Lemma said_logs (ms : list text) (i : nat) (m : text) (w : World) :
  ms !! i = Some m -> said m w (logs ms w).
Proof.
  intros Hi. exists (length (w_out w) + i)%nat. split; [lia|].
  rewrite w_out_logs, lookup_app_r by lia.
  replace (length (w_out w) + i - length (w_out w))%nat with i by lia.
  now apply stamps_lookup.
Qed.

Lemma said_weaken (m : text) (w0 w1 w2 w3 : World) :
  out_extends w0 w1 -> said m w1 w2 -> out_extends w2 w3 -> said m w0 w3.
Proof.
  intros [m01 H01] (k & Hk & Hlook) [m23 H23]. exists k. split.
  - rewrite H01, length_app in Hk. lia.
  - rewrite H23. apply lookup_app_l_Some. exact Hlook.
Qed.

End Logging.

(** Running through the log calls at the head of a computation. *)
Ltac through_logs :=
  repeat progress (rewrite ?bind_assoc, ?log_bind, ?ret_bind).


(** ** The validator *)

(** Rule 3 as a function of the world: the output file exists and is not
    empty. *)
Definition has_content (env : Env) (path : text) (w : World) : bool :=
  match w_fs w !! realpath env path with
  | Some content => 0 <? N.of_nat (String.length content)
  | None => false
  end.

(** The line the validator logs for each rule, by the rule's own result. *)
Definition msg_check1 (ok : bool) : text :=
  if ok then Py.u "  ✓ Number of sequences matches"
  else Py.u "  ✗ WARNING: Number of sequences differs!".

Definition msg_check2 (ok : bool) : text :=
  if ok then Py.u "  ✓ Output differs from input (variants applied)"
  else Py.u "  ✗ WARNING: Output identical to input (no changes made?)".

Definition msg_check3 (ok : bool) : text :=
  if ok then Py.u "  ✓ Output file exists and has content"
  else Py.u "  ✗ ERROR: Output file is missing or empty!".

Definition msg_verdict (ok : bool) : text :=
  if ok then Py.u "✓ VALIDATION PASSED"
  else Py.u "✗ VALIDATION FAILED - Review warnings above".

Definition stats_lines (stats : Stats) : list text :=
  [Py.u "  Number of sequences: " ++ Py.str_N (num_sequences stats);
   Py.u "  Total length: " ++ Py.format_comma (total_length stats) ++ Py.u " bp";
   Py.u "  MD5 checksum: " ++ default (Py.u "None") (md5 stats)].

Definition msg_length_change (input_stats output_stats : Stats) : text :=
  LF ++ Py.u "  Length change: "
  ++ Py.format_plus_comma
       (Z.of_N (total_length output_stats) - Z.of_N (total_length input_stats))
  ++ Py.u " bp".

Section Validator.

Context (env : Env) (self : Pipeline).

Lemma check3_eq (w : World) :
  check3 env self w = (Return (has_content env (output_path self) w), w).
Proof.
  unfold check3, has_content, bind, exists_, st_size, ret.
  destruct (w_fs w !! realpath env (output_path self)) as [c|] eqn:E.
  - rewrite bool_decide_eq_true_2 by eauto. now rewrite E.
  - rewrite bool_decide_eq_false_2; [reflexivity|].
    intros [x Hx]. discriminate.
Qed.

(** The validator, step by step: four lines, the input statistics, four
    lines, the output statistics, the lines of the checks, the verdict. *)
Lemma validate_output_eq (w : World) :
  validate_output env self w =
  let w1 := logs env self
              [LF ++ rule; Py.u "VALIDATION REPORT"; rule;
               LF ++ Py.u "Input FASTA statistics:"] w in
  match get_file_stats env (fasta_path self) w1 with
  | (Raise e, _) => (Raise e, w1)
  | (Return input_stats, _) =>
    let w2 := logs env self
                (stats_lines input_stats
                 ++ [LF ++ Py.u "Output FASTA statistics:"]) w1 in
    match get_file_stats env (output_path self) w2 with
    | (Raise e, _) => (Raise e, w2)
    | (Return output_stats, _) =>
      let c1 := check1 input_stats output_stats in
      let c2 := check2 input_stats output_stats in
      let w3 := logs env self
                  (stats_lines output_stats
                   ++ [LF ++ Py.u "Validation checks:"; msg_check1 c1;
                       msg_check2 c2]) w2 in
      let c3 := has_content env (output_path self) w3 in
      (Return (c1 && c2 && c3),
       logs env self
         [msg_check3 c3; msg_length_change input_stats output_stats;
          LF ++ rule; msg_verdict (c1 && c2 && c3); rule ++ LF] w3)
    end
  end.
Proof.
  unfold validate_output, log_stats. cbv zeta.
  cbn [logs fold_left stats_lines app].
  through_logs. rewrite bind_eq, get_file_stats_eq.
  destruct (w_fs _ !! realpath env (fasta_path self)) as [c|]; [|reflexivity].
  destruct (Py.text_mode c) as [t|]; [|reflexivity].
  through_logs. rewrite bind_eq, get_file_stats_eq.
  destruct (w_fs _ !! realpath env (output_path self)) as [c'|]; [|reflexivity].
  destruct (Py.text_mode c') as [t'|]; [|reflexivity].
  through_logs.
  destruct (check1 _ _), (check2 _ _);
    through_logs; rewrite bind_eq, check3_eq;
    cbn [msg_check1 msg_check2];
    match goal with
    | |- context [has_content ?en ?p ?w] => destruct (has_content en p w) eqn:Ec3
    end;
    through_logs; reflexivity.
Qed.

Lemma get_file_stats_world (path : text) (w w' : World) (r : Result Stats) :
  get_file_stats env path w = (r, w') -> w' = w.
Proof.
  rewrite get_file_stats_eq.
  destruct (w_fs w !! realpath env path) as [c|]; [destruct (Py.text_mode c)|];
    intros [= _ <-]; reflexivity.
Qed.

Lemma get_file_stats_same_file (path : text) (w w' : World) :
  w_fs w' !! realpath env path = w_fs w !! realpath env path ->
  get_file_stats env path w' = ((get_file_stats env path w).1, w').
Proof.
  intros Hsame. rewrite !get_file_stats_eq, Hsame.
  destruct (w_fs w !! realpath env path) as [c|]; [|reflexivity].
  now destruct (Py.text_mode c).
Qed.

Lemma has_content_logs (ms : list text) (w : World) (path : text) :
  apart env (log_file self) path ->
  has_content env path (logs env self ms w) = has_content env path w.
Proof. intros Hne. unfold has_content. now rewrite w_fs_logs_ne. Qed.

(** Everything the validator logs when both files can be read. *)
Definition report (input_stats output_stats : Stats) (c3 : bool) : list text :=
  let c1 := check1 input_stats output_stats in
  let c2 := check2 input_stats output_stats in
  [LF ++ rule; Py.u "VALIDATION REPORT"; rule;
   LF ++ Py.u "Input FASTA statistics:"]
  ++ stats_lines input_stats
  ++ [LF ++ Py.u "Output FASTA statistics:"]
  ++ stats_lines output_stats
  ++ [LF ++ Py.u "Validation checks:"; msg_check1 c1; msg_check2 c2;
      msg_check3 c3; msg_length_change input_stats output_stats;
      LF ++ rule; msg_verdict (c1 && c2 && c3); rule ++ LF].

Lemma validate_output_report (w : World) (input_stats output_stats : Stats) :
  apart env (log_file self) (fasta_path self) ->
  apart env (log_file self) (output_path self) ->
  get_file_stats env (fasta_path self) w = (Return input_stats, w) ->
  get_file_stats env (output_path self) w = (Return output_stats, w) ->
  let c3 := has_content env (output_path self) w in
  validate_output env self w =
  (Return (check1 input_stats output_stats && check2 input_stats output_stats
           && c3),
   logs env self (report input_stats output_stats c3) w).
Proof.
  intros Hne1 Hne2 Hin Hout. rewrite validate_output_eq. cbv zeta.
  rewrite (get_file_stats_same_file (fasta_path self) w)
    by (apply w_fs_logs_ne; exact Hne1).
  rewrite Hin. cbn [fst].
  rewrite (get_file_stats_same_file (output_path self) w)
    by (rewrite !w_fs_logs_ne by exact Hne2; reflexivity).
  rewrite Hout. cbn [fst].
  rewrite !has_content_logs by exact Hne2.
  rewrite <- !logs_app. reflexivity.
Qed.

End Validator.

(** ** Concrete runs *)

(** A pipeline object to run. *)
Definition demo : Pipeline :=
  {| fasta_path := Py.u "ref.fa"; vcf_path := Py.u "calls.vcf";
     output_path := Py.u "out.fa"; log_file := Py.u "run.log" |}.

Ltac by_computation :=
  first [ vm_compute; reflexivity
        | let H := fresh in intros H; vm_compute in H; discriminate H ].

(** ** Statements about the statistics and the validator *)

(** C8. [get_file_stats] is a function of the bytes of the file alone: it
    leaves the world untouched, so a second application returns the same
    statistics record, and two files with the same bytes (a file and its
    exact copy, in the same or in another world) get the same record, in
    particular the same digest. *)
Theorem get_file_stats_deterministic (env : Env) (p1 p2 : text) (w1 w2 : World)
    (content : bytes) :
  w_fs w1 !! realpath env p1 = Some content ->
  w_fs w2 !! realpath env p2 = Some content ->
  (get_file_stats env p1 w1).2 = w1
  /\ get_file_stats env p1 (get_file_stats env p1 w1).2 = get_file_stats env p1 w1
  /\ (get_file_stats env p1 w1).1 = (get_file_stats env p2 w2).1
  /\ (forall s1 s2,
        (get_file_stats env p1 w1).1 = Return s1 ->
        (get_file_stats env p2 w2).1 = Return s2 ->
        s1 = s2 /\ md5 s1 = md5 s2).
Proof.
  intros H1 H2.
  assert (Hsame : (get_file_stats env p1 w1).1 = (get_file_stats env p2 w2).1).
  { rewrite !get_file_stats_eq, H1, H2. now destruct (Py.text_mode content). }
  assert (Hworld : (get_file_stats env p1 w1).2 = w1).
  { rewrite get_file_stats_eq, H1. now destruct (Py.text_mode content). }
  split; [exact Hworld|]. split; [now rewrite Hworld|]. split; [exact Hsame|].
  intros s1 s2 E1 E2. rewrite Hsame in E1.
  assert (s1 = s2) as -> by congruence. now split.
Qed.

Lemma get_file_stats_deterministic_witness :
  let w := world_of [(Py.u "a.fa", fasta_10_0_5); (Py.u "copy.fa", fasta_10_0_5)] in
  get_file_stats env_no_tools (Py.u "a.fa")
    (get_file_stats env_no_tools (Py.u "a.fa") w).2
  = get_file_stats env_no_tools (Py.u "a.fa") w
  /\ (get_file_stats env_no_tools (Py.u "a.fa") w).1
     = (get_file_stats env_no_tools (Py.u "copy.fa") w).1.
Proof.
  intros w.
  destruct (get_file_stats_deterministic env_no_tools (Py.u "a.fa")
              (Py.u "copy.fa") w w
              fasta_10_0_5) as (_ & Htwice & Hcopy & _);
    [by_computation | by_computation |].
  split; [exact Htwice | exact Hcopy].
Defined.

Section ValidatorStatements.

Context (env : Env) (self : Pipeline).

(** C2. When both files can be read, and the log path names a file that is
    neither the reference nor the output, the validator returns the
    conjunction of rule 1 (the two record counts are equal), rule 2 (the
    two digests differ) and rule 3 (the output file exists and is not
    empty), and logs one line per rule that depends on that rule's result
    alone.  So when rules 1 and 2 pass and the output file is empty the
    verdict is false, and rules 1 and 2 are still logged as passed. *)
Theorem validate_output_verdict (w : World) (input_stats output_stats : Stats) :
  apart env (log_file self) (fasta_path self) ->
  apart env (log_file self) (output_path self) ->
  get_file_stats env (fasta_path self) w = (Return input_stats, w) ->
  get_file_stats env (output_path self) w = (Return output_stats, w) ->
  let rule1 := num_sequences input_stats =? num_sequences output_stats in
  let rule2 := negb (bool_decide (md5 input_stats = md5 output_stats)) in
  let rule3 := has_content env (output_path self) w in
  exists w',
    validate_output env self w = (Return (rule1 && rule2 && rule3), w')
    /\ said env (msg_check1 rule1) w w'
    /\ said env (msg_check2 rule2) w w'
    /\ said env (msg_check3 rule3) w w'
    /\ (rule1 = true -> rule2 = true ->
        w_fs w !! realpath env (output_path self) = Some EmptyString ->
        validate_output env self w = (Return false, w')
        /\ said env (Py.u "  ✓ Number of sequences matches") w w'
        /\ said env (Py.u "  ✓ Output differs from input (variants applied)") w w'
        /\ said env (Py.u "  ✗ ERROR: Output file is missing or empty!") w w').
Proof.
  intros Hne1 Hne2 Hin Hout rule1 rule2 rule3.
  pose proof (validate_output_report env self w input_stats output_stats
                Hne1 Hne2 Hin Hout) as Hrep.
  cbv zeta in Hrep.
  change (check1 input_stats output_stats) with rule1 in Hrep.
  change (check2 input_stats output_stats) with rule2 in Hrep.
  fold rule3 in Hrep.
  assert (S1 : said env (msg_check1 rule1) w
                 (logs env self (report input_stats output_stats rule3) w))
    by (apply (said_logs env self _ 12); reflexivity).
  assert (S2 : said env (msg_check2 rule2) w
                 (logs env self (report input_stats output_stats rule3) w))
    by (apply (said_logs env self _ 13); reflexivity).
  assert (S3 : said env (msg_check3 rule3) w
                 (logs env self (report input_stats output_stats rule3) w))
    by (apply (said_logs env self _ 14); reflexivity).
  set (w' := logs env self (report input_stats output_stats rule3) w) in *.
  clearbody w'. exists w'.
  split; [exact Hrep|]. split; [exact S1|]. split; [exact S2|].
  split; [exact S3|]. intros E1 E2 Hempty.
  assert (E3 : rule3 = false)
    by (unfold rule3, has_content; rewrite Hempty; reflexivity).
  rewrite E1 in S1. rewrite E2 in S2. rewrite E3 in S3.
  cbn [msg_check1 msg_check2 msg_check3] in S1, S2, S3.
  split; [|split; [exact S1 | split; [exact S2 | exact S3]]].
  rewrite Hrep, E3, andb_false_r. reflexivity.
Qed.

(** C10. When the log path names a file other than the output: if the
    output file does not exist the validator raises (the input's read error
    if the input cannot be read, else [FileNotFoundError] for the output
    path) and returns no verdict; and whenever it does return a verdict the
    output file exists, rule 3 being logged as failed, and the verdict
    false, exactly when that file is empty. *)
Theorem validate_output_missing_output (w : World) :
  apart env (log_file self) (output_path self) ->
  (w_fs w !! realpath env (output_path self) = None ->
   exists e w',
     validate_output env self w = (Raise e, w')
     /\ (e = FileNotFoundError (output_path self)
         \/ exists w1, get_file_stats env (fasta_path self) w1 = (Raise e, w1)))
  /\ (forall v w',
        validate_output env self w = (Return v, w') ->
        exists content,
          w_fs w !! realpath env (output_path self) = Some content
          /\ said env (msg_check3 (negb (String.eqb content EmptyString))) w w'
          /\ (content = EmptyString -> v = false)).
Proof.
  intros Hne. split.
  - intros Hmissing. rewrite validate_output_eq. cbv zeta.
    destruct (get_file_stats env (fasta_path self) _) as [[ins|e] w1] eqn:Ein.
    + rewrite get_file_stats_eq, !w_fs_logs_ne, Hmissing by exact Hne.
      eexists _, _. split; [reflexivity|]. now left.
    + eexists _, _. split; [reflexivity|]. right.
      pose proof (get_file_stats_world _ _ _ _ _ Ein) as ->.
      eexists. exact Ein.
  - intros v w'. rewrite validate_output_eq. cbv zeta.
    destruct (get_file_stats env (fasta_path self) _) as [[ins|e] w1] eqn:Ein;
      [|discriminate].
    destruct (get_file_stats env (output_path self) _) as [[outs|e] w2] eqn:Eout;
      [|discriminate].
    rewrite get_file_stats_eq, !w_fs_logs_ne in Eout by exact Hne.
    destruct (w_fs w !! realpath env (output_path self)) as [content|] eqn:Efile;
      [|discriminate].
    rewrite !has_content_logs by exact Hne.
    assert (Hc3 : has_content env (output_path self) w
                  = negb (String.eqb content EmptyString)).
    { unfold has_content. rewrite Efile. now destruct content. }
    rewrite Hc3. intros Heq.
    pose proof (f_equal fst Heq) as Hv. pose proof (f_equal snd Heq) as Hw.
    cbn [fst snd] in Hv, Hw. clear Heq. subst w'. injection Hv as <-.
    exists content. split; [reflexivity|]. split.
    + match goal with
      | |- said _ _ _ (logs _ _ ?ms ?w3) =>
        apply (said_weaken env _ w w3 (logs env self ms w3) (logs env self ms w3))
      end.
      * etransitivity; [apply out_extends_logs|].
        etransitivity; apply out_extends_logs.
      * apply (said_logs env self _ 0). reflexivity.
      * reflexivity.
    + intros ->. cbn [String.eqb negb]. rewrite !andb_false_r. reflexivity.
Qed.

End ValidatorStatements.

(** An input without header lines and an empty output: rules 1 and 2 pass,
    rule 3 fails. *)
Definition world_empty_output : World :=
  world_of [(Py.u "ref.fa", ("ACGT" +:+ nl)%string); (Py.u "out.fa", EmptyString)].

Lemma validate_output_verdict_witness :
  exists w',
    validate_output env_no_tools demo world_empty_output = (Return false, w')
    /\ said env_no_tools (Py.u "  ✓ Number of sequences matches")
         world_empty_output w'
    /\ said env_no_tools (Py.u "  ✓ Output differs from input (variants applied)")
         world_empty_output w'
    /\ said env_no_tools (Py.u "  ✗ ERROR: Output file is missing or empty!")
         world_empty_output w'.
Proof.
  destruct (validate_output_verdict env_no_tools demo world_empty_output
              (stats_of_lines [Py.u "ACGT" ++ LF]) (stats_of_lines []))
    as (w' & _ & _ & _ & _ & Hscenario); try by_computation.
  exists w'. apply Hscenario; by_computation.
Defined.

Lemma validate_output_missing_output_witness :
  exists e w',
    validate_output env_no_tools demo
      (world_of [(Py.u "ref.fa", ("ACGT" +:+ nl)%string)]) = (Raise e, w').
Proof.
  destruct (validate_output_missing_output env_no_tools demo
              (world_of [(Py.u "ref.fa", ("ACGT" +:+ nl)%string)]))
    as [Hraises _]; [by_computation|].
  destruct Hraises as (e & w' & Heq & _); [by_computation|].
  now exists e, w'.
Defined.

(** Two paths to one file.  Here a leading [./] does not matter, and the
    log path names the output file.  The output does not exist when the
    validator starts; its first log line creates the file, and the
    validator, reading its own log as the output, returns a verdict. *)
Definition drop_dot (p : text) : text :=
  if Py.startswith p (Py.u "./") then drop 2 p else p.

Definition env_dot : Env :=
  {| spawn := fun _ _ _ => NoSuchProgram;
     realpath := drop_dot;
     clock := noon;
     decode_replace := Py.u;
     str_exn := fun _ => Py.u "error" |}.

Definition logs_to_output : Pipeline :=
  {| fasta_path := Py.u "ref.fa"; vcf_path := Py.u "calls.vcf";
     output_path := Py.u "out.fa"; log_file := Py.u "./out.fa" |}.

Example log_path_names_output :
  let w := world_of [(Py.u "ref.fa", ("ACGT" +:+ nl)%string)] in
  w_fs w !! realpath env_dot (output_path logs_to_output) = None
  /\ ~ apart env_dot (log_file logs_to_output) (output_path logs_to_output)
  /\ (validate_output env_dot logs_to_output w).1 = Return true.
Proof.
  intros w. split; [reflexivity|]. split; [|vm_compute; reflexivity].
  intros Hapart. apply Hapart. reflexivity.
Qed.

(** ** Occurrence of one text in another *)

Definition occurs_in (sub s : text) : Prop :=
  exists before after, s = before ++ sub ++ after.

Lemma startswith_app (sub after : text) : Py.startswith (sub ++ after) sub = true.
Proof.
  induction sub as [|c sub IH]; [now destruct after|].
  simpl. now rewrite N.eqb_refl.
Qed.

Lemma contains_eq (s sub : text) :
  Py.contains s sub
  = Py.startswith s sub
    || match s with [] => false | _ :: r => Py.contains r sub end.
Proof. now destruct s. Qed.

Lemma contains_occurs_in (sub s : text) :
  occurs_in sub s -> Py.contains s sub = true.
Proof.
  intros (before & after & ->).
  induction before as [|c before IH].
  - change ([] ++ sub ++ after) with (sub ++ after).
    now rewrite contains_eq, startswith_app.
  - change ((c :: before) ++ sub ++ after) with (c :: before ++ sub ++ after).
    rewrite contains_eq, IH. apply orb_true_r.
Qed.




(** ** Running external commands *)

(** The world once a child has run: its file system, one more entry in the
    trace. *)
Definition spawned (w : World) (cmd : list text) (fs' : FS) : World :=
  {| w_fs := fs'; w_out := w_out w; w_err := w_err w;
     w_procs := w_procs w ++ [cmd] |}.

Section CommandExecutor.

Context (env : Env) (self : Pipeline).

Lemma subprocess_run_pipe_text (cmd : list text) (w : World) (rc : Z)
    (out err : bytes) (fs' : FS) (out_t err_t : text) :
  spawn env (length (w_procs w)) cmd (w_fs w) = Exited rc out err fs' ->
  Py.text_mode out = Some out_t ->
  Py.text_mode err = Some err_t ->
  subprocess_run env cmd PIPE PIPE true w =
  (if (rc =? 0)%Z
   then Return {| cp_stdout := Str out_t; cp_stderr := Str err_t |}
   else Raise (CalledProcessError cmd rc (Str out_t) (Str err_t)),
   spawned w cmd fs').
Proof.
  intros Hspawn Hout Herr. unfold subprocess_run, capture.
  rewrite Hspawn, Hout, Herr. cbn [fmap option_fmap option_map].
  now destruct (rc =? 0)%Z.
Qed.

(** What [run_command] logs once the child has exited. *)
Definition lines_after_exit (description : text) (rc : Z) (out_t err_t : text)
  : list text :=
  if (rc =? 0)%Z then
    if Py.truthy out_t then [Py.u "Output: " ++ out_t] else []
  else [Py.u "ERROR: " ++ description ++ Py.u " failed";
        Py.u "Error message: " ++ err_t].

(** [run_command] once the child has exited: its result and the world it
    leaves. *)
Lemma run_command_exited (cmd : list text) (description : text) (w : World)
    (rc : Z) (out err : bytes) (fs' : FS) (out_t err_t : text) :
  let w2 := logs env self
              [Py.u "Running: " ++ description;
               Py.u "Command: " ++ Py.join (Py.u " ") cmd] w in
  spawn env (length (w_procs w)) cmd (w_fs w2) = Exited rc out err fs' ->
  Py.text_mode out = Some out_t ->
  Py.text_mode err = Some err_t ->
  run_command env self cmd description w =
  (if (rc =? 0)%Z
   then Return {| cp_stdout := Str out_t; cp_stderr := Str err_t |}
   else Raise (CalledProcessError cmd rc (Str out_t) (Str err_t)),
   logs env self (lines_after_exit description rc out_t err_t)
     (spawned w2 cmd fs')).
Proof.
  intros w2 Hspawn Hout Herr.
  unfold run_command. through_logs.
  change (logged env self _ (logged env self _ w)) with w2.
  unfold try_except.
  rewrite bind_eq.
  rewrite (subprocess_run_pipe_text cmd w2 rc out err fs' out_t err_t);
    [| exact Hspawn | exact Hout | exact Herr].
  unfold lines_after_exit.
  destruct (rc =? 0)%Z.
  - cbn [cp_stdout nonempty shown]. destruct (Py.truthy out_t); reflexivity.
  - through_logs. reflexivity.
Qed.


(** C3, as the code has it.  [run_command] logs the description and the
    command line and runs the command.  On a non-zero exit it logs the
    description and the captured error text and re-raises the
    [CalledProcessError], which carries the command line, the exit status
    and both captured streams.  On exit status zero it returns the completed
    process with both captured streams, and logs the captured standard
    output if that is not empty; the captured error text is returned, and
    not logged. *)
Theorem run_command_outcome (cmd : list text) (description : text) (w : World)
    (rc : Z) (out err : bytes) (fs' : FS) (out_t err_t : text) :
  let w2 := logs env self
              [Py.u "Running: " ++ description;
               Py.u "Command: " ++ Py.join (Py.u " ") cmd] w in
  spawn env (length (w_procs w)) cmd (w_fs w2) = Exited rc out err fs' ->
  Py.text_mode out = Some out_t ->
  Py.text_mode err = Some err_t ->
  exists w',
    run_command env self cmd description w =
    (if (rc =? 0)%Z
     then Return {| cp_stdout := Str out_t; cp_stderr := Str err_t |}
     else Raise (CalledProcessError cmd rc (Str out_t) (Str err_t)), w')
    /\ w' = logs env self (lines_after_exit description rc out_t err_t)
              (spawned w2 cmd fs')
    /\ w_out w' =
       w_out w
       ++ stamps env (length (w_out w))
            ([Py.u "Running: " ++ description;
              Py.u "Command: " ++ Py.join (Py.u " ") cmd]
             ++ lines_after_exit description rc out_t err_t)
    /\ w_procs w' = w_procs w ++ [cmd].
Proof.
  intros w2 Hspawn Hout Herr.
  pose proof (run_command_exited cmd description w rc out err fs' out_t err_t
                Hspawn Hout Herr) as Hrun.
  cbv zeta in Hrun. fold w2 in Hrun.
  eexists. split; [exact Hrun|]. split; [reflexivity|]. split.
  - rewrite w_out_logs. cbn [spawned w_out]. unfold w2.
    rewrite w_out_logs, <- app_assoc. f_equal.
    rewrite length_app, length_stamps, stamps_app. reflexivity.
  - rewrite w_procs_logs. cbn [spawned w_procs]. unfold w2.
    now rewrite w_procs_logs.
Qed.

End CommandExecutor.

(** ** A model tool set *)

(** Stand-ins for the five collaborators, enough to run the pipeline from
    end to end: [samtools faidx] and [tabix] write their sibling index (and
    fail on a missing input), [bgzip -c] and [bcftools consensus] write to
    standard output, [bcftools view -H] lists records.  [installed] says
    which programs exist; [listing] and [consensus] are what the two
    [bcftools] subcommands print.  They run where every path is the
    canonical name of its file. *)
Definition tools (installed : text -> bool) (listing consensus : bytes)
    (k : nat) (argv : list text) (fs : FS) : Outcome :=
  match argv with
  | [] => NoSuchProgram
  | tool :: args =>
    if negb (installed tool) then NoSuchProgram
    else if bool_decide (args = [Py.u "--version"]) then
      Exited 0 "1.17" EmptyString fs
    else if bool_decide (tool = Py.u "samtools") then
      match args with
      | [_; p] =>
        if bool_decide (is_Some (fs !! p))
        then Exited 0 EmptyString EmptyString (<[p ++ Py.u ".fai" := "FAI"%string]> fs)
        else Exited 1 EmptyString "[E::fai_build3_core] Failed to open the file" fs
      | _ => Exited 1 EmptyString "usage" fs
      end
    else if bool_decide (tool = Py.u "bgzip") then
      Exited 0 "BGZF" EmptyString fs
    else if bool_decide (tool = Py.u "tabix") then
      match args with
      | [_; _; p] =>
        Exited 0 EmptyString "[tabix] index written"
          (<[p ++ Py.u ".tbi" := "TBI"%string]> fs)
      | _ => Exited 1 EmptyString "usage" fs
      end
    else if bool_decide (tool = Py.u "bcftools") then
      match args with
      | [_; _; _] => Exited 0 listing EmptyString fs
      | [_; _; _; _] => Exited 0 consensus "Applied 2 variants" fs
      | _ => Exited 1 EmptyString "usage" fs
      end
    else NoSuchProgram
  end.

Definition env_tools (installed : text -> bool) (listing consensus : bytes) : Env :=
  {| spawn := tools installed listing consensus;
     realpath := fun p => p;
     clock := noon;
     decode_replace := Py.u;
     str_exn := fun _ => Py.u "error" |}.

Definition all_installed (tool : text) : bool := true.

Definition two_records : bytes :=
  ("chr1	5	.	A	G" +:+ nl +:+ "chr1	9	.	C	CTTT" +:+ nl)%string.

Definition reference : bytes := (">chr1" +:+ nl +:+ "ACGTACGTAC" +:+ nl)%string.

Definition consensus_out : bytes :=
  (">chr1" +:+ nl +:+ "ACGTGCGTACTTT" +:+ nl)%string.

Definition env_ok : Env := env_tools all_installed two_records consensus_out.

Definition world_start : World :=
  world_of [(Py.u "ref.fa", reference); (Py.u "calls.vcf", two_records)].

(** C3, success: [tabix] exits with status zero, prints nothing and writes a
    note on its error stream; the note is returned and two lines are
    logged, neither of them the note.  Failure: [samtools faidx] on a
    missing file. *)
Lemma run_command_outcome_witness :
  (exists w',
     run_command env_ok demo
       [Py.u "tabix"; Py.u "-p"; Py.u "vcf"; Py.u "calls.vcf.gz"]
       (Py.u "VCF indexing") world_start
     = (Return {| cp_stdout := Str []; cp_stderr := Str (Py.u "[tabix] index written") |}, w')
     /\ w_out w' = [stamp env_ok 0 (Py.u "Running: VCF indexing");
                    stamp env_ok 1 (Py.u "Command: tabix -p vcf calls.vcf.gz")])
  /\ (exists w',
     run_command env_ok demo [Py.u "samtools"; Py.u "faidx"; Py.u "nowhere.fa"]
       (Py.u "FASTA indexing") world_start
     = (Raise (CalledProcessError
                 [Py.u "samtools"; Py.u "faidx"; Py.u "nowhere.fa"] 1 (Str [])
                 (Str (Py.u "[E::fai_build3_core] Failed to open the file"))), w')
     /\ w_out w' = [stamp env_ok 0 (Py.u "Running: FASTA indexing");
                    stamp env_ok 1 (Py.u "Command: samtools faidx nowhere.fa");
                    stamp env_ok 2 (Py.u "ERROR: FASTA indexing failed");
                    stamp env_ok 3 (Py.u "Error message: [E::fai_build3_core] Failed to open the file")]).
Proof.
  split.
  - destruct (run_command_outcome env_ok demo
                [Py.u "tabix"; Py.u "-p"; Py.u "vcf"; Py.u "calls.vcf.gz"]
                (Py.u "VCF indexing") world_start 0 EmptyString
                "[tabix] index written"
                (<[Py.u "calls.vcf.gz.tbi" := "TBI"%string]>
                   (w_fs (logs env_ok demo
                            [Py.u "Running: VCF indexing";
                             Py.u "Command: tabix -p vcf calls.vcf.gz"]
                            world_start)))
                [] (Py.u "[tabix] index written"))
      as (w' & Hrun & _ & Hout & _); try by_computation.
    exists w'. split; [exact Hrun|]. rewrite Hout. by_computation.
  - destruct (run_command_outcome env_ok demo
                [Py.u "samtools"; Py.u "faidx"; Py.u "nowhere.fa"]
                (Py.u "FASTA indexing") world_start 1 EmptyString
                "[E::fai_build3_core] Failed to open the file"
                (w_fs (logs env_ok demo
                         [Py.u "Running: FASTA indexing";
                          Py.u "Command: samtools faidx nowhere.fa"]
                         world_start))
                [] (Py.u "[E::fai_build3_core] Failed to open the file"))
      as (w' & Hrun & _ & Hout & _); try by_computation.
    exists w'. split; [exact Hrun|]. rewrite Hout. by_computation.
Defined.

(** C3 as stated fails: a command that exits with status zero and a
    non-empty error stream has that stream returned, but no logged line
    holds it. *)
Lemma run_command_stderr_not_logged :
  let '(r, w') :=
    run_command env_ok demo
      [Py.u "tabix"; Py.u "-p"; Py.u "vcf"; Py.u "calls.vcf.gz"]
      (Py.u "VCF indexing") world_start in
  r = Return {| cp_stdout := Str [];
                cp_stderr := Str (Py.u "[tabix] index written") |}
  /\ ~ (exists line,
          In line (w_out w') /\ occurs_in (Py.u "[tabix] index written") line).
Proof.
  destruct (run_command _ _ _ _ _) as [r w'] eqn:E.
  vm_compute in E. injection E as <- <-. split; [reflexivity|].
  intros (line & Hin & Hocc). apply contains_occurs_in in Hocc.
  destruct Hin as [<-|[<-|[]]]; vm_compute in Hocc; discriminate Hocc.
Qed.

(** ** Counting variants *)

(** The number of LF in a text, and the claim's count: the lines of the
    output that are not empty. *)
Definition count_lf (s : text) : N := len (List.filter (fun c => c =? 10) s).

Definition nonempty_lines (stdout : text) : N :=
  len (List.filter Py.truthy (Py.split_lf stdout)).

(** A line of the listing as the collaborator prints it: not empty, no LF
    inside, no white space at either end. *)
Definition starts_clean (s : text) : bool :=
  match s with
  | c :: _ => negb (Py.isspace c)
  | [] => false
  end.

Definition is_record_line (r : text) : bool :=
  forallb (fun c => negb (c =? 10)) r && starts_clean r && starts_clean (rev r).

Definition listing_of (record_lines : list text) : text :=
  concat (map (fun r => r ++ LF) record_lines).

Lemma split_lf_length (s : text) : len (Py.split_lf s) = 1 + count_lf s.
Proof.
  unfold count_lf, len.
  induction s as [|c s IH]; [reflexivity|].
  simpl. destruct (c =? 10); simpl.
  - lia.
  - destruct (Py.split_lf s) as [|l ls]; simpl in *; lia.
Qed.

Lemma split_lf_line (r rest : text) :
  forallb (fun c => negb (c =? 10)) r = true ->
  Py.split_lf (r ++ 10 :: rest) = r :: Py.split_lf rest.
Proof.
  induction r as [|c r IH]; intros Hr; [reflexivity|].
  simpl in Hr. apply andb_true_iff in Hr as [Hc Hr].
  simpl. destruct (c =? 10); [discriminate|]. now rewrite IH.
Qed.

Lemma split_lf_last (r : text) :
  forallb (fun c => negb (c =? 10)) r = true -> Py.split_lf r = [r].
Proof.
  induction r as [|c r IH]; intros Hr; [reflexivity|].
  simpl in Hr. apply andb_true_iff in Hr as [Hc Hr].
  simpl. destruct (c =? 10); [discriminate|]. now rewrite IH.
Qed.

Lemma split_lf_join (rs : list text) :
  rs <> [] ->
  forallb is_record_line rs = true ->
  Py.split_lf (Py.join LF rs) = rs.
Proof.
  induction rs as [|r rs IH]; [congruence|]. intros _ Hrs.
  simpl in Hrs. apply andb_true_iff in Hrs as [Hr Hrs].
  unfold is_record_line in Hr.
  apply andb_true_iff in Hr as [Hr _]. apply andb_true_iff in Hr as [Hr _].
  destruct rs as [|r' rs].
  - simpl. now apply split_lf_last.
  - change (Py.join LF (r :: r' :: rs)) with (r ++ 10 :: Py.join LF (r' :: rs)).
    rewrite split_lf_line by exact Hr. f_equal. now apply IH.
Qed.

Lemma listing_of_join (rs : list text) :
  rs <> [] -> listing_of rs = Py.join LF rs ++ LF.
Proof.
  induction rs as [|r rs IH]; [congruence|]. intros _.
  destruct rs as [|r' rs].
  - unfold listing_of. simpl. now rewrite app_nil_r.
  - change (listing_of (r :: r' :: rs)) with ((r ++ LF) ++ listing_of (r' :: rs)).
    rewrite IH by congruence.
    change (Py.join LF (r :: r' :: rs)) with (r ++ LF ++ Py.join LF (r' :: rs)).
    now rewrite <- !app_assoc.
Qed.

Lemma lstrip_clean (s : text) : starts_clean s = true -> Py.lstrip s = s.
Proof.
  destruct s as [|c s]; [reflexivity|]. simpl.
  now destruct (Py.isspace c).
Qed.

Lemma starts_clean_app (s s' : text) :
  starts_clean s = true -> starts_clean (s ++ s') = true.
Proof. now destruct s. Qed.

Lemma starts_clean_join (rs : list text) :
  rs <> [] -> forallb is_record_line rs = true ->
  starts_clean (Py.join LF rs) = true
  /\ starts_clean (rev (Py.join LF rs)) = true.
Proof.
  induction rs as [|r rs IH]; [congruence|]. intros _ Hrs.
  simpl in Hrs. apply andb_true_iff in Hrs as [Hr Hrs].
  unfold is_record_line in Hr.
  apply andb_true_iff in Hr as [Hr Hend]. apply andb_true_iff in Hr as [_ Hstart].
  destruct rs as [|r' rs]; [now split|].
  change (Py.join LF (r :: r' :: rs)) with (r ++ LF ++ Py.join LF (r' :: rs)).
  split; [now apply starts_clean_app|].
  rewrite !rev_app_distr. apply starts_clean_app, starts_clean_app.
  apply IH; [congruence | exact Hrs].
Qed.

Lemma strip_listing (rs : list text) :
  rs <> [] -> forallb is_record_line rs = true ->
  Py.strip (listing_of rs) = Py.join LF rs.
Proof.
  intros Hne Hrs. destruct (starts_clean_join rs Hne Hrs) as [Hstart Hend].
  rewrite listing_of_join by exact Hne. unfold Py.strip, Py.rstrip.
  rewrite (lstrip_clean (Py.join LF rs ++ LF))
    by (apply starts_clean_app; exact Hstart).
  rewrite rev_app_distr.
  change (rev LF ++ rev (Py.join LF rs)) with (10 :: rev (Py.join LF rs)).
  change (Py.lstrip (10 :: rev (Py.join LF rs)))
    with (Py.lstrip (rev (Py.join LF rs))).
  rewrite lstrip_clean by exact Hend. apply rev_involutive.
Qed.

Lemma split_lf_listing (rs : list text) :
  rs <> [] -> forallb is_record_line rs = true ->
  Py.split_lf (Py.join LF rs ++ LF) = rs ++ [[]].
Proof.
  induction rs as [|r rs IH]; [congruence|]. intros _ Hrs.
  simpl in Hrs. apply andb_true_iff in Hrs as [Hr Hrs].
  unfold is_record_line in Hr.
  apply andb_true_iff in Hr as [Hr _]. apply andb_true_iff in Hr as [Hr _].
  destruct rs as [|r' rs].
  - simpl Py.join. unfold LF. now rewrite split_lf_line.
  - change (Py.join LF (r :: r' :: rs)) with (r ++ 10 :: Py.join LF (r' :: rs)).
    rewrite <- app_assoc.
    change ((10 :: Py.join LF (r' :: rs)) ++ LF)
      with (10 :: Py.join LF (r' :: rs) ++ LF).
    rewrite split_lf_line by exact Hr.
    rewrite IH by (congruence || exact Hrs). reflexivity.
Qed.

Lemma filter_truthy_records (rs : list text) :
  forallb is_record_line rs = true -> List.filter Py.truthy rs = rs.
Proof.
  induction rs as [|r rs IH]; intros Hrs; [reflexivity|].
  simpl in Hrs. apply andb_true_iff in Hrs as [Hr Hrs].
  unfold is_record_line in Hr.
  apply andb_true_iff in Hr as [Hr _]. apply andb_true_iff in Hr as [_ Hr].
  simpl. destruct r; [discriminate Hr|]. simpl. f_equal. now apply IH.
Qed.

Section VariantCounter.

Context (env : Env).

(** C4, as the code has it.  [count_vcf_variants] calls [subprocess.run]
    itself, with the output captured as text and the error stream left on
    the terminal: one process, nothing logged.  It raises exactly when the
    program is missing or cannot be started, the output cannot be decoded
    or the exit status is not zero.  Otherwise it returns 0 when the output, trimmed, is empty,
    and else one more than the number of LF in the trimmed output: every
    line of the trimmed output counts, empty or not.  When the listing is
    one record line per variant that is the number of variants. *)
Theorem count_vcf_variants_outcome (vcf : text) (w : World) :
  (let cmd := [Py.u "bcftools"; Py.u "view"; Py.u "-H"; vcf] in
   count_vcf_variants env vcf w =
   match spawn env (length (w_procs w)) cmd (w_fs w) with
   | NoSuchProgram =>
     (Raise (FileNotFoundError (Py.u "bcftools")),
      {| w_fs := w_fs w; w_out := w_out w; w_err := w_err w;
         w_procs := w_procs w ++ [cmd] |})
   | CannotStart error =>
     (Raise (OtherError error),
      {| w_fs := w_fs w; w_out := w_out w; w_err := w_err w;
         w_procs := w_procs w ++ [cmd] |})
   | Exited rc out err fs' =>
     let w' := {| w_fs := fs'; w_out := w_out w; w_err := w_err w ++ [err];
                  w_procs := w_procs w ++ [cmd] |} in
     match Py.text_mode out with
     | None => (Raise UnicodeDecodeError, w')
     | Some stdout =>
       if (rc =? 0)%Z then (Return (count_lines stdout), w')
       else (Raise (CalledProcessError cmd rc (Str stdout) NotCaptured), w')
     end
   end)
  /\ (forall stdout,
        count_lines stdout =
        if Py.truthy (Py.strip stdout) then 1 + count_lf (Py.strip stdout)
        else 0)
  /\ count_lines [] = 0
  /\ (forall record_lines,
        forallb is_record_line record_lines = true ->
        count_lines (listing_of record_lines) = len record_lines
        /\ count_lines (listing_of record_lines)
           = nonempty_lines (listing_of record_lines)).
Proof.
  split; [|split; [|split]].
  - cbv zeta. unfold count_vcf_variants, subprocess_run, bind, capture.
    destruct (spawn env _ _ _) as [|error|rc out err fs'];
      [reflexivity | reflexivity |].
    destruct (Py.text_mode out) as [stdout|]; [|reflexivity].
    cbn [fmap option_fmap option_map]. now destruct (rc =? 0)%Z.
  - intros stdout. unfold count_lines.
    destruct (Py.truthy _); [apply split_lf_length | reflexivity].
  - reflexivity.
  - intros rs Hrs. destruct rs as [|r rs]; [now split|].
    assert (Hcount : count_lines (listing_of (r :: rs)) = len (r :: rs)).
    { unfold count_lines. rewrite strip_listing by (congruence || exact Hrs).
      rewrite split_lf_join by (congruence || exact Hrs).
      destruct (starts_clean_join (r :: rs)) as [Hstart _];
        [congruence | exact Hrs |].
      destruct (Py.join LF (r :: rs)); [discriminate Hstart | reflexivity]. }
    split; [exact Hcount|]. rewrite Hcount. unfold nonempty_lines.
    rewrite listing_of_join, split_lf_listing by (congruence || exact Hrs).
    rewrite List.filter_app. simpl List.filter at 2.
    now rewrite app_nil_r, filter_truthy_records.
Qed.

End VariantCounter.

Definition record_a : text := Py.u "chr1	5	.	A	G".

Definition record_b : text := Py.u "chr1	9	.	C	CTTT".

Lemma count_vcf_variants_outcome_witness :
  (count_vcf_variants env_ok (Py.u "calls.vcf.gz") world_start).1 = Return 2
  /\ count_lines (listing_of [record_a; record_b]) = 2
  /\ nonempty_lines (listing_of [record_a; record_b]) = 2.
Proof.
  destruct (count_vcf_variants_outcome env_ok (Py.u "calls.vcf.gz") world_start)
    as (Hrun & _ & _ & Hlisting).
  destruct (Hlisting [record_a; record_b]) as [Hcount Hsame]; [by_computation|].
  split; [rewrite Hrun; by_computation|].
  split; [rewrite Hcount | rewrite <- Hsame, Hcount]; reflexivity.
Defined.

(** A listing with an empty line between its two records. *)
Definition listing_with_gap : bytes :=
  ("chr1	5	.	A	G" +:+ nl +:+ nl +:+ "chr1	9	.	C	CTTT" +:+ nl)%string.

(** C4 as stated fails: on a listing of two record lines with an empty line
    between them the count is 3, the number of lines that are not empty 2;
    and nothing is logged, which [run_command] never does. *)
Lemma count_vcf_variants_counts_empty_lines :
  let env := env_tools all_installed listing_with_gap consensus_out in
  let '(r, w') := count_vcf_variants env (Py.u "calls.vcf.gz") world_start in
  r = Return 3
  /\ nonempty_lines (default [] (Py.text_mode listing_with_gap)) = 2
  /\ r <> Return (nonempty_lines (default [] (Py.text_mode listing_with_gap)))
  /\ w_out w' = w_out world_start.
Proof.
  intros env.
  destruct (count_vcf_variants _ _ _) as [r w'] eqn:E.
  vm_compute in E. injection E as <- <-.
  split; [reflexivity|]. split; [reflexivity|]. split; [|reflexivity].
  intros H. vm_compute in H. discriminate H.
Qed.

(** ** The dependency check *)

Definition ok_exit (o : Outcome) : bool :=
  match o with
  | Exited rc _ _ _ => (rc =? 0)%Z
  | NoSuchProgram | CannotStart _ => false
  end.

Definition probe_cmd (tool : text) : list text := [tool; Py.u "--version"].

Section DependencyCheck.

Context (env : Env) (self : Pipeline).

(** Which tools answer [--version] with exit status zero; a tool that does
    not is absent or exits with another status: no probe fails to start for
    another reason. *)
Variable installed : text -> bool.

Hypothesis probe_answers :
  forall tool k fs, ok_exit (spawn env k (probe_cmd tool) fs) = installed tool.
Hypothesis probe_starts :
  forall tool k fs error, spawn env k (probe_cmd tool) fs <> CannotStart error.

Definition missing_of (tool_list : list text) : list text :=
  List.filter (fun t => negb (installed t)) tool_list.





End DependencyCheck.

(** [samtools] and [tabix] are not installed. *)
Definition lacks_two (tool : text) : bool :=
  negb (bool_decide (tool = Py.u "samtools") || bool_decide (tool = Py.u "tabix")).

Lemma tools_probe_answers (installed : text -> bool) (listing consensus : bytes)
    (tool : text) (k : nat) (fs : FS) :
  ok_exit (tools installed listing consensus k (probe_cmd tool) fs)
  = installed tool.
Proof.
  unfold tools, probe_cmd. destruct (installed tool); [|reflexivity].
  cbn [negb]. rewrite bool_decide_eq_true_2 by reflexivity. reflexivity.
Qed.



(** ** Indexing the reference *)

Section ReferenceIndex.

Context (env : Env) (self : Pipeline).

Definition faidx_cmd : list text :=
  [Py.u "samtools"; Py.u "faidx"; fasta_path self].

Lemma exists_eq (path : text) (w : World) :
  exists_ env path w
  = (Return (bool_decide (is_Some (w_fs w !! realpath env path))), w).
Proof. reflexivity. Qed.

(** With the index in place the method logs the skip and does nothing
    else. *)
Lemma index_fasta_present (w : World) :
  is_Some (w_fs w !! realpath env (fai_path self)) ->
  index_fasta env self w
  = (Return tt,
     logged env self (Py.u "FASTA index already exists: " ++ fai_path self) w).
Proof.
  intros Hpresent. unfold index_fasta.
  rewrite bind_eq, exists_eq, bool_decide_eq_true_2 by exact Hpresent.
  reflexivity.
Qed.

(** The contract of the indexing collaborator: on a reference that exists
    it succeeds and leaves the sibling index behind. *)
Hypothesis faidx_builds :
  forall k fs,
    is_Some (fs !! realpath env (fasta_path self)) ->
    exists out err fs',
    spawn env k faidx_cmd fs = Exited 0 out err fs'
    /\ is_Some (Py.text_mode out) /\ is_Some (Py.text_mode err)
    /\ is_Some (fs' !! realpath env (fai_path self)).

(** C5. Starting from a reference without an index, the log path naming a
    file other than the index:
    the first call runs the indexing collaborator once and leaves the index
    in place; the second call finds it, logs the skip, starts no process and
    leaves the index as it is.  Two calls, one external indexing
    operation. *)
Theorem index_fasta_idempotent (w : World) :
  apart env (log_file self) (fai_path self) ->
  is_Some (w_fs w !! realpath env (fasta_path self)) ->
  w_fs w !! realpath env (fai_path self) = None ->
  exists w1 w2,
    index_fasta env self w = (Return tt, w1)
    /\ index_fasta env self w1 = (Return tt, w2)
    /\ w_procs w1 = w_procs w ++ [faidx_cmd]
    /\ w_procs w2 = w_procs w ++ [faidx_cmd]
    /\ is_Some (w_fs w1 !! realpath env (fai_path self))
    /\ w_fs w2 !! realpath env (fai_path self)
       = w_fs w1 !! realpath env (fai_path self)
    /\ w2 = logged env self
              (Py.u "FASTA index already exists: " ++ fai_path self) w1.
Proof.
  intros Hlog Hreference Hfresh.
  set (w0 := logged env self (Py.u "Indexing FASTA file...") w).
  set (wcmd := logs env self
                 [Py.u "Running: " ++ Py.u "FASTA indexing";
                  Py.u "Command: " ++ Py.join (Py.u " ") faidx_cmd] w0).
  destruct (faidx_builds (length (w_procs w0)) (w_fs wcmd))
    as (out & err & fs' & Hspawn & [out_t Hout] & [err_t Herr] & Hfai).
  { apply w_fs_logs_is_Some, w_fs_logged_is_Some, Hreference. }
  pose proof (run_command_exited env self faidx_cmd (Py.u "FASTA indexing") w0
                0 out err fs' out_t err_t Hspawn Hout Herr) as Hrun.
  cbv zeta in Hrun. cbn [Z.eqb] in Hrun.
  match type of Hrun with _ = (_, ?w) => set (w1 := w) in * end.
  assert (Hw1 : w1 = logs env self
                       (lines_after_exit (Py.u "FASTA indexing") 0 out_t err_t)
                       (spawned wcmd faidx_cmd fs')) by reflexivity.
  assert (Hprocs : w_procs w1 = w_procs w0 ++ [faidx_cmd]).
  { rewrite Hw1, w_procs_logs. cbn [spawned w_procs]. unfold wcmd.
    now rewrite w_procs_logs. }
  clearbody w1.
  assert (Hfirst : index_fasta env self w = (Return tt, w1)).
  { unfold index_fasta.
    rewrite bind_eq, exists_eq, bool_decide_eq_false_2
      by (rewrite Hfresh; intros [x Hx]; discriminate Hx).
    rewrite log_bind. fold w0. fold faidx_cmd.
    rewrite (bind_returns _ _ _ _ _ Hrun). reflexivity. }
  assert (Hindex : is_Some (w_fs w1 !! realpath env (fai_path self))).
  { rewrite Hw1, w_fs_logs_ne by exact Hlog. exact Hfai. }
  exists w1, (logged env self
                (Py.u "FASTA index already exists: " ++ fai_path self) w1).
  split; [exact Hfirst|]. split; [now apply index_fasta_present|].
  assert (Hp1 : w_procs w1 = w_procs w ++ [faidx_cmd])
    by (rewrite Hprocs; unfold w0; now rewrite w_procs_logged).
  split; [exact Hp1|]. split; [now rewrite w_procs_logged|].
  split; [exact Hindex|]. split; [now apply w_fs_logged_ne | reflexivity].
Qed.

End ReferenceIndex.

Lemma tools_faidx_builds (k : nat) (fs : FS) :
  is_Some (fs !! Py.u "ref.fa") ->
  exists out err fs',
    spawn env_ok k (faidx_cmd demo) fs = Exited 0 out err fs'
    /\ is_Some (Py.text_mode out) /\ is_Some (Py.text_mode err)
    /\ is_Some (fs' !! fai_path demo).
Proof.
  intros Href. eexists EmptyString, EmptyString, _.
  split; [|split; [|split]].
  - cbn [spawn env_ok env_tools]. unfold tools, faidx_cmd.
    cbn [all_installed negb fasta_path demo].
    rewrite (bool_decide_eq_false_2 (_ = [Py.u "--version"]))
      by (intros H; vm_compute in H; discriminate H).
    rewrite (bool_decide_eq_true_2 (_ = Py.u "samtools")) by reflexivity.
    rewrite bool_decide_eq_true_2 by exact Href. reflexivity.
  - now eexists.
  - now eexists.
  - unfold fai_path. cbn [fasta_path demo]. rewrite lookup_insert_eq. now eexists.
Qed.

Lemma index_fasta_idempotent_witness :
  exists w1 w2,
    index_fasta env_ok demo world_start = (Return tt, w1)
    /\ index_fasta env_ok demo w1 = (Return tt, w2)
    /\ w_procs w2 = [[Py.u "samtools"; Py.u "faidx"; Py.u "ref.fa"]]
    /\ w_fs w2 !! Py.u "ref.fa.fai" = w_fs w1 !! Py.u "ref.fa.fai".
Proof.
  destruct (index_fasta_idempotent env_ok demo tools_faidx_builds world_start)
    as (w1 & w2 & H1 & H2 & _ & Hprocs & _ & Hsame & _).
  - by_computation.
  - exists reference. by_computation.
  - by_computation.
  - exists w1, w2. split; [exact H1|]. split; [exact H2|].
    split; [exact Hprocs | exact Hsame].
Defined.

(** ** The controller *)

Section Controller.

Context (env : Env) (self : Pipeline).






End Controller.

(** The consensus printed is the reference itself: every stage succeeds,
    rule 2 fails, and [run] returns [false]. *)
Example run_negative_verdict :
  (run (env_tools all_installed two_records reference) demo world_start).1
  = Return false.
Proof. vm_compute. reflexivity. Qed.

Example run_positive_verdict :
  (run env_ok demo world_start).1 = Return true.
Proof. vm_compute. reflexivity. Qed.

(** ** Files that are left alone *)



Section CompressedPath.

Context (env : Env) (self : Pipeline).

(** The path [compress_and_index_vcf] hands on. *)
Definition compressed_path : text :=
  if Py.endswith (vcf_path self) (Py.u ".gz") then vcf_path self
  else gz_path self.


End CompressedPath.

(** A file that the log path does not name and that no collaborator writes
    to is left alone by logging, by running a command, and by opening
    another file for writing. *)
Section FileLeftAlone.

Context (env : Env) (self : Pipeline) (file : text).

Hypothesis log_elsewhere : realpath env (log_file self) <> file.
Hypothesis tools_leave_file :
  forall k argv fs rc out err fs',
    spawn env k argv fs = Exited rc out err fs' -> fs' !! file = fs !! file.


Lemma same_file_logs (ms : list text) (w : World) :
  w_fs (logs env self ms w) !! file = w_fs w !! file.
Proof. apply w_fs_logs_ne, log_elsewhere. Qed.




(** With the compressed file and the output elsewhere too. *)
Hypothesis compressed_elsewhere : realpath env (gz_path self) <> file.
Hypothesis output_elsewhere : realpath env (output_path self) <> file.




End FileLeftAlone.

Lemma app_neq_self (s suffix : text) : suffix <> [] -> s ++ suffix <> s.
Proof.
  intros Hne Heq. apply (f_equal (@length N)) in Heq.
  rewrite length_app in Heq. destruct suffix; [congruence | simpl in Heq; lia].
Qed.

Lemma sibling_neq (p : text) (suffix target : text) :
  match rev suffix, rev target with
  | a :: _, b :: _ => negb (a =? b)
  | _, _ => false
  end = true ->
  p ++ suffix <> target.
Proof.
  intros Hlast Heq. apply (f_equal (@rev N)) in Heq.
  rewrite rev_app_distr in Heq.
  destruct (rev suffix) as [|a s], (rev target) as [|b t]; try discriminate.
  injection Heq as -> _. now rewrite N.eqb_refl in Hlast.
Qed.

(** * Further properties of the methods *)

(** ** What the pipeline writes *)

(** A relation on file systems that the collaborators respect, and that
    writing the files named by the log path, the compressed variant path
    and the output path respects, relates the file system before any method
    to the one after it. *)
Section FileSystemRelation.

Context (env : Env) (self : Pipeline).
Context (Rfs : FS -> FS -> Prop) `{!PreOrder Rfs}.

Hypothesis tools_respect :
  forall k argv fs rc out err fs',
    spawn env k argv fs = Exited rc out err fs' -> Rfs fs fs'.
Hypothesis writes_respect :
  forall path data fs,
    path = log_file self \/ path = gz_path self \/ path = output_path self ->
    Rfs fs (<[realpath env path := data]> fs).

Definition fs_related (w w' : World) : Prop := Rfs (w_fs w) (w_fs w').

#[local] Instance fs_related_preorder : PreOrder fs_related.
Proof.
  split.
  - intros w. unfold fs_related. reflexivity.
  - intros w1 w2 w3 H12 H23. unfold fs_related in *. now transitivity (w_fs w2).
Qed.

Lemma fs_related_log (m : text) : preserves fs_related (log env self m).
Proof.
  intros w r w'. rewrite log_eq. intros [= _ <-]. unfold fs_related.
  rewrite w_fs_logged. apply writes_respect. now left.
Qed.

Lemma fs_related_open_w (path : text) :
  path = gz_path self \/ path = output_path self ->
  preserves fs_related (open_w env path).
Proof.
  intros Hpath w r w'. unfold open_w. intros [= _ <-].
  unfold fs_related, set_fs. cbn [w_fs]. apply writes_respect. now right.
Qed.

Lemma fs_related_subprocess_run (cmd : list text) (stdout : Sink) (tm : bool) :
  match stdout with
  | ToFile p => p = gz_path self \/ p = output_path self
  | _ => True
  end ->
  forall stderr, stderr = PIPE \/ stderr = Inherit ->
  preserves fs_related (subprocess_run env cmd stdout stderr tm).
Proof.
  intros Hsink stderr Hstderr w r w'. unfold subprocess_run, fs_related.
  destruct (spawn env _ _ _) as [|error|rc out err fs'] eqn:Hspawn.
  - intros [= _ <-]. reflexivity.
  - intros [= _ <-]. reflexivity.
  - apply tools_respect in Hspawn.
    assert (Hfs : Rfs (w_fs w)
                    (match stderr with
                     | ToFile p =>
                       <[realpath env p := err]>
                         (match stdout with
                          | ToFile p0 => <[realpath env p0 := out]> fs'
                          | _ => fs'
                          end)
                     | _ => match stdout with
                            | ToFile p0 => <[realpath env p0 := out]> fs'
                            | _ => fs'
                            end
                     end)).
    { destruct Hstderr as [-> | ->]; destruct stdout as [|p|]; try exact Hspawn;
        (transitivity fs'; [exact Hspawn | apply writes_respect; now right]). }
    destruct (capture tm stdout out), (capture tm stderr err);
      try destruct (rc =? 0)%Z; intros [= _ <-]; exact Hfs.
Qed.

Lemma fs_related_spawn (cmd : list text) (tm : bool) :
  preserves fs_related (subprocess_run env cmd PIPE PIPE tm)
  /\ preserves fs_related (subprocess_run env cmd PIPE Inherit tm)
  /\ preserves fs_related (subprocess_run env cmd (ToFile (gz_path self)) PIPE tm)
  /\ preserves fs_related
       (subprocess_run env cmd (ToFile (output_path self)) PIPE tm).
Proof.
  repeat split; apply fs_related_subprocess_run;
    first [ exact I | now left | now right ].
Qed.

Lemma fs_related_run (w w' : World) (r : Result bool) :
  run env self w = (r, w') -> Rfs (w_fs w) (w_fs w').
Proof.
  apply (preserves_run fs_related env self fs_related_log fs_related_spawn).
  - apply fs_related_open_w. now left.
  - apply fs_related_open_w. now right.
Qed.

End FileSystemRelation.

(** Relations on the file of canonical name [file]. *)
Definition unchanged_at (file : text) (fs fs' : FS) : Prop :=
  fs' !! file = fs !! file.

Definition kept_at (file : text) (fs fs' : FS) : Prop :=
  is_Some (fs !! file) -> is_Some (fs' !! file).

#[global] Instance unchanged_at_preorder (path : text) : PreOrder (unchanged_at path).
Proof.
  split.
  - intros fs. reflexivity.
  - intros f1 f2 f3 H12 H23. unfold unchanged_at in *. congruence.
Qed.

#[global] Instance kept_at_preorder (path : text) : PreOrder (kept_at path).
Proof.
  split.
  - intros fs H. exact H.
  - intros f1 f2 f3 H12 H23 H. apply H23, H12, H.
Qed.

(** X1. The files [run] itself writes are the three that the log path, the
    compressed variant path (the variant path plus [.gz]) and the output
    path name: any other file that the collaborators leave alone holds after
    a run, whether it returns or raises, exactly what it held before.  The
    file is given by its canonical name, so a second path to the log, to
    the compressed file or to the output does not count as another file.
    This covers the reference file when none of the three paths names it. *)
Theorem run_footprint (env : Env) (self : Pipeline) (file : text) :
  file <> realpath env (log_file self) ->
  file <> realpath env (gz_path self) ->
  file <> realpath env (output_path self) ->
  (forall k argv fs rc out err fs',
     spawn env k argv fs = Exited rc out err fs' -> fs' !! file = fs !! file) ->
  forall w r w',
    run env self w = (r, w') -> w_fs w' !! file = w_fs w !! file.
Proof.
  intros Hlog Hgz Hout Htools w r w' Hrun.
  apply (fs_related_run env self (unchanged_at file) Htools) in Hrun;
    [exact Hrun|].
  intros p data fs Hp. unfold unchanged_at. apply lookup_insert_ne.
  destruct Hp as [-> | [-> | ->]]; congruence.
Qed.

(** X2. [run] deletes nothing: a file that exists before a run, and that no
    collaborator removes, exists after it, whether the run returns or
    raises.  (The compressed variant file and the output may have been cut
    and rewritten; they are still there.)  The file is given by its
    canonical name. *)
Theorem run_never_deletes (env : Env) (self : Pipeline) (file : text) :
  (forall k argv fs rc out err fs',
     spawn env k argv fs = Exited rc out err fs' ->
     is_Some (fs !! file) -> is_Some (fs' !! file)) ->
  forall w r w',
    run env self w = (r, w') ->
    is_Some (w_fs w !! file) -> is_Some (w_fs w' !! file).
Proof.
  intros Htools w r w' Hrun.
  apply (fs_related_run env self (kept_at file) Htools) in Hrun; [exact Hrun|].
  intros p data fs _ Hsome. unfold kept_at.
  destruct (decide (realpath env p = file)) as [->|Hne].
  - rewrite lookup_insert_eq. now eexists.
  - now rewrite lookup_insert_ne.
Qed.

(** The model tools write sibling indexes only, and remove nothing. *)
Definition no_index_name (path : text) : bool :=
  match rev path with
  | c :: _ => negb (c =? 105)
  | [] => false
  end.

Lemma no_index_name_sibling (p suffix path : text) :
  no_index_name path = true ->
  match rev suffix with c :: _ => c =? 105 | [] => false end = true ->
  p ++ suffix <> path.
Proof.
  unfold no_index_name. intros Hpath Hsuffix. apply sibling_neq.
  destruct (rev suffix) as [|a s], (rev path) as [|b t]; try discriminate.
  apply N.eqb_eq in Hsuffix as ->. now rewrite N.eqb_sym.
Qed.

Lemma tools_write_indexes (installed : text -> bool) (listing consensus : bytes)
    (k : nat) (argv : list text) (fs : FS) (rc : Z) (out err : bytes) (fs' : FS)
    (path : text) :
  tools installed listing consensus k argv fs = Exited rc out err fs' ->
  (is_Some (fs !! path) -> is_Some (fs' !! path))
  /\ (no_index_name path = true -> fs' !! path = fs !! path).
Proof.
  unfold tools.
  repeat match goal with
         | |- context [if ?b then _ else _] => destruct b
         | |- context [match ?l with [] => _ | _ :: _ => _ end] => destruct l
         end;
    intros H; try discriminate H; injection H as <- <- <- <-;
    (split; [intros Hsome | intros Hlast]);
    first
      [ exact Hsome
      | reflexivity
      | match goal with
        | |- is_Some (<[?q := _]> _ !! _) =>
          destruct (decide (q = path)) as [Heq|Hne];
            [rewrite Heq, lookup_insert_eq; now eexists
            | now rewrite lookup_insert_ne]
        end
      | apply lookup_insert_ne, no_index_name_sibling;
        [exact Hlast | reflexivity] ].
Qed.

Lemma run_footprint_witness :
  w_fs (run env_ok demo world_start).2 !! Py.u "ref.fa" = Some reference.
Proof.
  rewrite (run_footprint env_ok demo (Py.u "ref.fa")) with
    (w := world_start) (r := (run env_ok demo world_start).1).
  - by_computation.
  - by_computation.
  - by_computation.
  - by_computation.
  - intros k argv fs rc out err fs' H.
    apply (tools_write_indexes all_installed two_records consensus_out k argv
             fs rc out err fs' (Py.u "ref.fa") H).
    by_computation.
  - apply surjective_pairing.
Defined.

Lemma run_never_deletes_witness :
  is_Some (w_fs (run env_ok demo world_start).2 !! Py.u "calls.vcf").
Proof.
  apply (run_never_deletes env_ok demo (Py.u "calls.vcf")) with
    (w := world_start) (r := (run env_ok demo world_start).1).
  - intros k argv fs rc out err fs' H.
    apply (tools_write_indexes all_installed two_records consensus_out k argv
             fs rc out err fs' (Py.u "calls.vcf") H).
  - apply surjective_pairing.
  - exists two_records. by_computation.
Defined.

(** ** The log file is a transcript of the terminal *)

Lemma string_app_cons (c : ascii) (a b : bytes) :
  (String c a +:+ b)%string = String c (a +:+ b)%string.
Proof. reflexivity. Qed.

Lemma string_app_nil_r (s : bytes) : (s +:+ EmptyString)%string = s.
Proof.
  induction s as [|c s IH]; [reflexivity|]. now rewrite string_app_cons, IH.
Qed.

Lemma string_app_assoc (a b c : bytes) :
  ((a +:+ b) +:+ c)%string = (a +:+ b +:+ c)%string.
Proof.
  induction a as [|x a IH]; [reflexivity|]. now rewrite !string_app_cons, IH.
Qed.

(** The bytes that logging the given stamped lines appends. *)
Fixpoint encode_lines (lines : list text) : bytes :=
  match lines with
  | [] => EmptyString
  | l :: r => (Py.encode (l ++ LF) +:+ encode_lines r)%string
  end.

Lemma encode_lines_app (a b : list text) :
  encode_lines (a ++ b) = (encode_lines a +:+ encode_lines b)%string.
Proof.
  induction a as [|l a IH]; [reflexivity|].
  cbn [app encode_lines]. now rewrite IH, string_app_assoc.
Qed.

Definition log_content (env : Env) (self : Pipeline) (w : World) : bytes :=
  default EmptyString (w_fs w !! realpath env (log_file self)).

(** Between [w] and [w'] the terminal gained some lines and the log file
    gained the same lines, encoded, each closed by LF. *)
Definition transcribed (env : Env) (self : Pipeline) (w w' : World) : Prop :=
  exists lines,
    w_out w' = w_out w ++ lines
    /\ log_content env self w'
       = (log_content env self w +:+ encode_lines lines)%string.

#[global] Instance transcribed_preorder (env : Env) (self : Pipeline) :
  PreOrder (transcribed env self).
Proof.
  split.
  - intros w. exists []. now rewrite app_nil_r, string_app_nil_r.
  - intros w1 w2 w3 (l1 & O1 & L1) (l2 & O2 & L2). exists (l1 ++ l2).
    rewrite O2, O1, L2, L1, encode_lines_app, string_app_assoc, app_assoc.
    now split.
Qed.

Section Transcript.

Context (env : Env) (self : Pipeline).

(** The log path names a file that is neither the compressed variant file
    nor the output, and that no collaborator writes to. *)
Hypothesis log_not_compressed : apart env (log_file self) (gz_path self).
Hypothesis log_not_output : apart env (log_file self) (output_path self).
Hypothesis tools_leave_log :
  forall k argv fs rc out err fs',
    spawn env k argv fs = Exited rc out err fs' ->
    fs' !! realpath env (log_file self) = fs !! realpath env (log_file self).

Lemma transcribed_same (w w' : World) :
  w_out w' = w_out w ->
  w_fs w' !! realpath env (log_file self)
  = w_fs w !! realpath env (log_file self) ->
  transcribed env self w w'.
Proof.
  intros Hout Hfs. exists []. unfold log_content.
  now rewrite Hout, Hfs, app_nil_r, string_app_nil_r.
Qed.

Lemma transcribed_log (m : text) :
  preserves (transcribed env self) (log env self m).
Proof.
  intros w r w'. rewrite log_eq. intros [= _ <-].
  exists [stamp env (length (w_out w)) m]. split; [apply w_out_logged|].
  unfold log_content. rewrite w_fs_logged, lookup_insert_eq.
  cbn [default encode_lines]. now rewrite string_app_nil_r.
Qed.

Lemma transcribed_open_w (path : text) :
  apart env (log_file self) path ->
  preserves (transcribed env self) (open_w env path).
Proof.
  intros Hne w r w'. unfold open_w. intros [= _ <-].
  apply transcribed_same; [reflexivity|].
  unfold set_fs. cbn [w_fs]. apply lookup_insert_ne. now apply not_eq_sym.
Qed.

Lemma transcribed_subprocess_run (cmd : list text) (stdout : Sink) (tm : bool) :
  match stdout with ToFile p => apart env p (log_file self) | _ => True end ->
  forall stderr, stderr = PIPE \/ stderr = Inherit ->
  preserves (transcribed env self) (subprocess_run env cmd stdout stderr tm).
Proof.
  intros Hsink stderr Hstderr w r w'. unfold subprocess_run.
  destruct (spawn env _ _ _) as [|error|rc out err fs'] eqn:Hspawn.
  - intros [= _ <-]. now apply transcribed_same.
  - intros [= _ <-]. now apply transcribed_same.
  - apply tools_leave_log in Hspawn.
    assert (Hfs : (match stderr with
                   | ToFile p =>
                     <[realpath env p := err]>
                       (match stdout with
                        | ToFile p0 => <[realpath env p0 := out]> fs'
                        | _ => fs'
                        end)
                   | _ => match stdout with
                          | ToFile p0 => <[realpath env p0 := out]> fs'
                          | _ => fs'
                          end
                   end) !! realpath env (log_file self)
                  = w_fs w !! realpath env (log_file self)).
    { destruct Hstderr as [-> | ->]; destruct stdout as [|p|];
        rewrite ?lookup_insert_ne by exact Hsink; exact Hspawn. }
    destruct (capture tm stdout out), (capture tm stderr err);
      try destruct (rc =? 0)%Z; intros [= _ <-];
      (apply transcribed_same; [reflexivity | exact Hfs]).
Qed.

Lemma transcribed_spawn (cmd : list text) (tm : bool) :
  preserves (transcribed env self) (subprocess_run env cmd PIPE PIPE tm)
  /\ preserves (transcribed env self) (subprocess_run env cmd PIPE Inherit tm)
  /\ preserves (transcribed env self)
       (subprocess_run env cmd (ToFile (gz_path self)) PIPE tm)
  /\ preserves (transcribed env self)
       (subprocess_run env cmd (ToFile (output_path self)) PIPE tm).
Proof.
  repeat split; apply transcribed_subprocess_run;
    first [ exact I | exact (not_eq_sym log_not_compressed)
          | exact (not_eq_sym log_not_output) | now left | now right ].
Qed.

(** X3. The log file is an append-only transcript.  When the log path names
    a file that is neither the compressed variant file nor the output, and
    that no collaborator writes to, a run, returning or raising, leaves in
    the log file what was there before followed by exactly the lines it
    printed on the terminal, in order, each encoded and closed by a line
    feed.  The encoding is UTF-8, the one text files have throughout. *)
Theorem run_log_is_transcript (w w' : World) (r : Result bool) :
  run env self w = (r, w') ->
  exists lines,
    w_out w' = w_out w ++ lines
    /\ default EmptyString (w_fs w' !! realpath env (log_file self))
       = (default EmptyString (w_fs w !! realpath env (log_file self))
          +:+ encode_lines lines)%string.
Proof.
  intros Hrun.
  exact (preserves_run (transcribed env self) env self transcribed_log
           transcribed_spawn (transcribed_open_w _ log_not_compressed)
           (transcribed_open_w _ log_not_output) w r w' Hrun).
Qed.

End Transcript.

Lemma run_log_is_transcript_witness :
  w_fs (run env_ok demo world_start).2 !! realpath env_ok (Py.u "run.log")
  = Some (encode_lines (w_out (run env_ok demo world_start).2)).
Proof.
  destruct (run_log_is_transcript env_ok demo) with
    (w := world_start) (w' := (run env_ok demo world_start).2)
    (r := (run env_ok demo world_start).1) as (lines & Hout & Hlog).
  - by_computation.
  - by_computation.
  - intros k argv fs rc out err fs' H.
    apply (tools_write_indexes all_installed two_records consensus_out k argv
             fs rc out err fs' (log_file demo) H).
    by_computation.
  - apply surjective_pairing.
  - change (w_out world_start) with (@nil text) in Hout.
    cbn [app] in Hout. rewrite Hout.
    change (default EmptyString
              (w_fs world_start !! realpath env_ok (log_file demo))
            +:+ encode_lines lines)%string
      with (encode_lines lines) in Hlog.
    rewrite <- Hlog. by_computation.
Defined.

(** ** The command runner and the dependency check again *)

Section Runner.

Context (env : Env) (self : Pipeline).

Lemma subprocess_run_procs {cmd : list text} {stdout stderr : Sink} {tm : bool}
    {w w' : World} {r : Result CompletedProcess} :
  subprocess_run env cmd stdout stderr tm w = (r, w') ->
  w_procs w' = w_procs w ++ [cmd] /\ w_out w' = w_out w.
Proof.
  unfold subprocess_run.
  destruct (spawn env _ _ _) as [|error|rc out err fs'].
  - intros [= _ <-]. now split.
  - intros [= _ <-]. now split.
  - destruct (capture tm stdout out), (capture tm stderr err);
      try destruct (rc =? 0)%Z; intros [= _ <-]; now split.
Qed.

(** One call of [run_command] is one process, whatever comes of it. *)
Lemma run_command_procs (cmd : list text) (description : text) (w w' : World)
    (r : Result CompletedProcess) :
  run_command env self cmd description w = (r, w') ->
  w_procs w' = w_procs w ++ [cmd].
Proof.
  unfold run_command. through_logs. unfold try_except. rewrite bind_eq.
  destruct (subprocess_run env cmd PIPE PIPE true _) as [[cp|e] w1] eqn:Erun;
    apply subprocess_run_procs in Erun as [Hprocs _];
    rewrite !w_procs_logged in Hprocs.
  - destruct (nonempty (cp_stdout cp)); cbn [when]; through_logs;
      intros [= _ <-]; rewrite ?w_procs_logged; exact Hprocs.
  - destruct e; through_logs; unfold raise; intros [= _ <-];
      rewrite ?w_procs_logged; exact Hprocs.
Qed.

(** X4. When the program of the command is not installed, [run_command]
    lets the [FileNotFoundError] of [subprocess.run] through: it has logged
    the description and the command line, and logs no error line, since its
    handler is for a non-zero exit only.  One attempt was made, and the file
    system is as it was but for the log. *)
Theorem run_command_missing_program (cmd : list text) (description : text)
    (w : World) :
  let w2 := logs env self
              [Py.u "Running: " ++ description;
               Py.u "Command: " ++ Py.join (Py.u " ") cmd] w in
  spawn env (length (w_procs w)) cmd (w_fs w2) = NoSuchProgram ->
  exists w',
    run_command env self cmd description w
    = (Raise (FileNotFoundError (default [] (head cmd))), w')
    /\ w_out w' = w_out w2
    /\ w_fs w' = w_fs w2
    /\ w_procs w' = w_procs w ++ [cmd].
Proof.
  intros w2 Hspawn. unfold run_command. through_logs.
  change (logged env self _ (logged env self _ w)) with w2.
  unfold try_except. rewrite bind_eq. unfold subprocess_run at 1.
  change (w_procs w2) with (w_procs w). rewrite Hspawn.
  eexists. split; [reflexivity|]. cbn [w_out w_fs w_procs]. now repeat split.
Qed.

(** One probe is one process.  A tool that is absent or exits with a
    non-zero status joins the missing ones and the probe returns; a tool
    that cannot be started for another reason makes the probe raise that
    error. *)
Lemma probe_cases (tool : text) (missing_tools : list text) (w : World) :
  exists w',
    w_procs w' = w_procs w ++ [probe_cmd tool]
    /\ match spawn env (length (w_procs w)) (probe_cmd tool) (w_fs w) with
       | CannotStart error =>
         probe env self tool missing_tools w = (Raise (OtherError error), w')
       | outcome =>
         probe env self tool missing_tools w
         = (Return (if ok_exit outcome then missing_tools
                    else missing_tools ++ [tool]), w')
       end.
Proof.
  unfold probe, try_except, probe_cmd. rewrite bind_eq.
  unfold subprocess_run, capture.
  destruct (spawn env _ _ _) as [|error|rc out err fs']; cbn [ok_exit].
  - through_logs. eexists. split; [|reflexivity].
    now rewrite w_procs_logged.
  - unfold raise. eexists. split; [|reflexivity]. reflexivity.
  - destruct (rc =? 0)%Z; through_logs; (eexists; split; [|reflexivity]);
      now rewrite w_procs_logged.
Qed.




End Runner.

Lemma missing_of_nil (installed : text -> bool) (tool_list : list text) :
  missing_of installed tool_list = []
  <-> forall tool, In tool tool_list -> installed tool = true.
Proof.
  unfold missing_of. induction tool_list as [|t ts IH]; simpl.
  - split; [intros _ tool [] | reflexivity].
  - destruct (installed t) eqn:E; simpl.
    + rewrite IH. split.
      * intros Hts tool [<-|Hin]; [exact E | now apply Hts].
      * intros Hall tool Hin. apply Hall. now right.
    + split; [discriminate|]. intros Hall.
      rewrite (Hall t) in E by now left. discriminate E.
Qed.

Section ProbesAnswer.

Context (env : Env) (self : Pipeline).
Variable installed : text -> bool.
Hypothesis probe_answers :
  forall tool k fs, ok_exit (spawn env k (probe_cmd tool) fs) = installed tool.

(** When the loop returns, it returns the tools that do not answer. *)
Lemma probes_returned (tool_list : list text) :
  forall (missing_tools l : list text) (w w' : World),
    for_each tool_list (probe env self) missing_tools w = (Return l, w') ->
    l = missing_tools ++ missing_of installed tool_list.
Proof.
  induction tool_list as [|tool rest IH]; intros missing_tools l w w'.
  - cbn [for_each]. unfold ret. intros [= <- _]. now rewrite app_nil_r.
  - cbn [for_each]. rewrite bind_eq.
    destruct (probe_cases env self tool missing_tools w) as (w1 & _ & Hprobe).
    pose proof (probe_answers tool (length (w_procs w)) (w_fs w)) as Hp.
    destruct (spawn env (length (w_procs w)) (probe_cmd tool) (w_fs w))
      as [|error|rc out err fs']; rewrite Hprobe; try discriminate;
      rewrite Hp; intros H; apply IH in H; subst l;
      unfold missing_of; simpl List.filter;
      destruct (installed tool); cbn [negb]; rewrite <- ?app_assoc; reflexivity.
Qed.

(** When every tool answers, the loop returns. *)
Lemma probes_all_answer (tool_list : list text) :
  (forall tool, In tool tool_list -> installed tool = true) ->
  forall (missing_tools : list text) (w : World),
  exists w',
    for_each tool_list (probe env self) missing_tools w
    = (Return missing_tools, w').
Proof.
  induction tool_list as [|tool rest IH]; intros Hall missing_tools w.
  - exists w. reflexivity.
  - cbn [for_each]. rewrite bind_eq.
    destruct (probe_cases env self tool missing_tools w) as (w1 & _ & Hprobe).
    pose proof (probe_answers tool (length (w_procs w)) (w_fs w)) as Hp.
    rewrite (Hall tool) in Hp by now left.
    destruct (spawn env (length (w_procs w)) (probe_cmd tool) (w_fs w))
      as [|error|rc out err fs']; try discriminate Hp.
    rewrite Hprobe, Hp. apply IH. intros t Hin. apply Hall. now right.
Qed.

(** X6. With tools whose answer to [--version] does not depend on the
    state: the dependency check returns exactly when each of the four
    required tools answers with exit status zero.  A tool that is installed
    but exits with a non-zero status is reported missing, like one that is
    absent. *)
Theorem check_dependencies_returns_iff (w : World) :
  (exists w', check_dependencies env self w = (Return tt, w'))
  <-> (forall tool, In tool required_tools -> installed tool = true).
Proof.
  rewrite <- (missing_of_nil installed required_tools). split.
  - intros (w' & Heq). revert Heq. unfold check_dependencies.
    rewrite log_bind, bind_eq.
    destruct (for_each required_tools (probe env self) [] _)
      as [[l|e] w1] eqn:Eloop; [|discriminate].
    apply probes_returned in Eloop. cbn [app] in Eloop. subst l.
    destruct (missing_of installed required_tools); [reflexivity|].
    discriminate.
  - intros Hnone. unfold check_dependencies. rewrite log_bind.
    destruct (probes_all_answer required_tools
                (proj1 (missing_of_nil installed required_tools) Hnone) []
                (logged env self (Py.u "Checking dependencies...") w))
      as (w1 & Hloop).
    rewrite (bind_returns _ _ _ _ _ Hloop). now exists w1.
Qed.

End ProbesAnswer.



Lemma run_command_missing_program_witness :
  exists w',
    run_command (env_tools lacks_two two_records consensus_out) demo
      (faidx_cmd demo) (Py.u "FASTA indexing") world_start
    = (Raise (FileNotFoundError (Py.u "samtools")), w')
    /\ w_procs w' = [faidx_cmd demo].
Proof.
  destruct (run_command_missing_program
              (env_tools lacks_two two_records consensus_out) demo
              (faidx_cmd demo) (Py.u "FASTA indexing") world_start)
    as (w' & Hrun & _ & _ & Hprocs); [by_computation|].
  exists w'. split; [exact Hrun | exact Hprocs].
Defined.


Lemma check_dependencies_returns_iff_witness :
  exists w', check_dependencies env_ok demo world_start = (Return tt, w').
Proof.
  apply (check_dependencies_returns_iff env_ok demo all_installed
           (tools_probe_answers all_installed two_records consensus_out)
           world_start).
  intros tool _. reflexivity.
Defined.

(** ** Compressing and indexing the variant file *)

Definition bgzip_cmd (self : Pipeline) : list text :=
  [Py.u "bgzip"; Py.u "-c"; vcf_path self].

Definition tabix_cmd (compressed_vcf : text) : list text :=
  [Py.u "tabix"; Py.u "-p"; Py.u "vcf"; compressed_vcf].

(** What a child left on its standard output; nothing if it never ran. *)
Definition written (o : Outcome) : bytes :=
  match o with
  | NoSuchProgram | CannotStart _ => EmptyString
  | Exited _ out _ _ => out
  end.

Definition failed (o : Outcome) : Prop :=
  match o with
  | NoSuchProgram | CannotStart _ => True
  | Exited rc _ _ _ => rc <> 0%Z
  end.

Section CompressionSteps.

Context (env : Env) (self : Pipeline).

(** The index step of [compress_and_index_vcf], on a compressed file that
    is there: at most one process, [tabix] on that file. *)
Lemma index_step_procs (compressed_vcf : text) (w w' : World) (r : Result text) :
  bind
    (bind (exists_ env (compressed_vcf ++ Py.u ".tbi"))
       (fun present =>
          if present
          then log env self (Py.u "VCF index already exists: "
                             ++ compressed_vcf ++ Py.u ".tbi")
          else
            bind (log env self (Py.u "Indexing VCF file..."))
              (fun _ =>
                 bind (run_command env self (tabix_cmd compressed_vcf)
                         (Py.u "VCF indexing"))
                   (fun _ => ret tt))))
    (fun _ => ret compressed_vcf) w = (r, w') ->
  w_procs w' = w_procs w \/ w_procs w' = w_procs w ++ [tabix_cmd compressed_vcf].
Proof.
  rewrite bind_assoc, bind_eq, exists_eq.
  destruct (bool_decide _).
  - through_logs. intros [= _ <-]. left. apply w_procs_logged.
  - through_logs. rewrite bind_eq.
    destruct (run_command _ _ _ _ _) as [[cp|e] w1] eqn:Erun;
      apply run_command_procs in Erun; rewrite w_procs_logged in Erun;
      intros [= _ <-]; now right.
Qed.

Lemma compress_and_index_vcf_unfold (w : World) :
  compress_and_index_vcf env self w =
  bind
    (if Py.endswith (vcf_path self) (Py.u ".gz") then
       bind (log env self (Py.u "VCF is already compressed: " ++ vcf_path self))
         (fun _ => ret (vcf_path self))
     else
       bind (exists_ env (gz_path self))
         (fun present =>
            bind (if present
                  then log env self (Py.u "Compressed VCF already exists: "
                                     ++ gz_path self)
                  else compress_vcf env self)
              (fun _ => ret (gz_path self))))
    (fun compressed_vcf =>
       bind
         (bind (exists_ env (compressed_vcf ++ Py.u ".tbi"))
            (fun present =>
               if present
               then log env self (Py.u "VCF index already exists: "
                                  ++ compressed_vcf ++ Py.u ".tbi")
               else
                 bind (log env self (Py.u "Indexing VCF file..."))
                   (fun _ =>
                      bind (run_command env self (tabix_cmd compressed_vcf)
                              (Py.u "VCF indexing"))
                        (fun _ => ret tt))))
         (fun _ => ret compressed_vcf)) w.
Proof. reflexivity. Qed.

(** With the compressed file in place, [bgzip] is not run. *)
Lemma compress_and_index_vcf_present (w w' : World) (r : Result text) :
  Py.endswith (vcf_path self) (Py.u ".gz") = true
  \/ is_Some (w_fs w !! realpath env (gz_path self)) ->
  compress_and_index_vcf env self w = (r, w') ->
  w_procs w' = w_procs w
  \/ w_procs w' = w_procs w ++ [tabix_cmd (compressed_path self)].
Proof.
  intros Hpresent. rewrite compress_and_index_vcf_unfold. unfold compressed_path.
  destruct (Py.endswith _ _).
  - through_logs. intros H. apply index_step_procs in H.
    now rewrite w_procs_logged in H.
  - destruct Hpresent as [Habs|Hgz]; [discriminate Habs|].
    rewrite bind_assoc, bind_eq, exists_eq, bool_decide_eq_true_2 by exact Hgz.
    through_logs. intros H. apply index_step_procs in H.
    now rewrite w_procs_logged in H.
Qed.

(** The compression step by the outcome of [bgzip]. *)
Lemma compress_vcf_eq (w : World) :
  let w0 := logs env self
              [Py.u "Compressing VCF file...";
               Py.u "Command: bgzip -c " ++ vcf_path self ++ Py.u " > "
               ++ gz_path self] w in
  let fs0 := <[realpath env (gz_path self) := EmptyString]> (w_fs w0) in
  compress_vcf env self w =
  match spawn env (length (w_procs w)) (bgzip_cmd self) fs0 with
  | NoSuchProgram =>
    (Raise (FileNotFoundError (Py.u "bgzip")),
     {| w_fs := fs0; w_out := w_out w0; w_err := w_err w0;
        w_procs := w_procs w ++ [bgzip_cmd self] |})
  | CannotStart error =>
    (Raise (OtherError error),
     {| w_fs := fs0; w_out := w_out w0; w_err := w_err w0;
        w_procs := w_procs w ++ [bgzip_cmd self] |})
  | Exited rc out err fs' =>
    let w2 := {| w_fs := <[realpath env (gz_path self) := out]> fs';
                 w_out := w_out w0;
                 w_err := w_err w0; w_procs := w_procs w ++ [bgzip_cmd self] |} in
    if (rc =? 0)%Z then
      (Return tt,
       logs env self
         ((if nonempty (Bytes err) && Py.truthy (Py.strip (decode_replace env err))
           then [Py.u "bgzip stderr: " ++ decode_replace env err] else [])
          ++ [Py.u "VCF compressed successfully"]) w2)
    else
      (Raise (CalledProcessError (bgzip_cmd self) rc NotCaptured (Bytes err)),
       logs env self
         [Py.u "ERROR: VCF compression failed";
          Py.u "Error message: "
          ++ (if nonempty (Bytes err) then decode_replace env err
              else Py.u "Unknown error")] w2)
  end.
Proof.
  cbv zeta. unfold compress_vcf. through_logs. unfold try_except.
  rewrite bind_eq. unfold open_w at 1. rewrite bind_eq.
  unfold subprocess_run at 1, capture, bgzip_cmd.
  cbn [set_fs w_procs w_fs w_out w_err logs fold_left].
  rewrite !w_procs_logged.
  destruct (spawn env _ _ _) as [|error|rc out err fs'];
    [reflexivity | reflexivity |].
  destruct (rc =? 0)%Z.
  - cbn [cp_stderr]. destruct (nonempty (Bytes err)); cbn [when andb].
    + destruct (Py.truthy _); cbn [when app]; through_logs; reflexivity.
    + through_logs. reflexivity.
  - through_logs. reflexivity.
Qed.

End CompressionSteps.

Section Compression.

Context (env : Env) (self : Pipeline).

(** X7. With the compressed variant file and its index both in place (for a
    variant file named [.gz], with its index in place), the method reuses
    them: it returns the compressed path, starts no process, and changes
    nothing but the log, to which it adds two lines.  It looks at existence
    only: the content of what it reuses is not examined. *)
Theorem compress_and_index_vcf_reuses (w : World) :
  (Py.endswith (vcf_path self) (Py.u ".gz") = false ->
   is_Some (w_fs w !! realpath env (gz_path self))) ->
  is_Some (w_fs w !! realpath env (compressed_path self ++ Py.u ".tbi")) ->
  compress_and_index_vcf env self w =
  (Return (compressed_path self),
   logs env self
     [if Py.endswith (vcf_path self) (Py.u ".gz")
      then Py.u "VCF is already compressed: " ++ vcf_path self
      else Py.u "Compressed VCF already exists: " ++ gz_path self;
      Py.u "VCF index already exists: " ++ compressed_path self ++ Py.u ".tbi"]
     w).
Proof.
  intros Hgz Htbi. rewrite (compress_and_index_vcf_unfold env self).
  unfold compressed_path in *.
  destruct (Py.endswith _ _).
  - through_logs. rewrite bind_eq, exists_eq, bool_decide_eq_true_2
      by (apply w_fs_logged_is_Some; exact Htbi).
    through_logs. reflexivity.
  - rewrite bind_assoc, bind_eq, exists_eq, bool_decide_eq_true_2
      by (apply Hgz; reflexivity).
    through_logs. rewrite bind_eq, exists_eq, bool_decide_eq_true_2
      by (apply w_fs_logged_is_Some; exact Htbi).
    through_logs. reflexivity.
Qed.

(** X8. When compression is needed, the log path naming a file other than
    the compressed one, and [bgzip] cannot be started or exits with a
    non-zero status, the method raises, and the compressed file is left
    behind holding whatever [bgzip] wrote (nothing at all if it never ran):
    the file was opened for writing first, and is not removed.  The next
    call, with whatever tools (the compressed path naming the same file),
    finds that file and does not run [bgzip] again; the only process it may
    start is [tabix] on the file left behind. *)
Theorem failed_compression_is_kept (w : World) :
  let w0 := logs env self
              [Py.u "Compressing VCF file...";
               Py.u "Command: bgzip -c " ++ vcf_path self ++ Py.u " > "
               ++ gz_path self] w in
  let outcome :=
    spawn env (length (w_procs w)) (bgzip_cmd self)
      (<[realpath env (gz_path self) := EmptyString]> (w_fs w0)) in
  Py.endswith (vcf_path self) (Py.u ".gz") = false ->
  w_fs w !! realpath env (gz_path self) = None ->
  apart env (log_file self) (gz_path self) ->
  failed outcome ->
  exists e w',
    compress_and_index_vcf env self w = (Raise e, w')
    /\ w_fs w' !! realpath env (gz_path self) = Some (written outcome)
    /\ forall env2 r2 w2,
         realpath env2 (gz_path self) = realpath env (gz_path self) ->
         compress_and_index_vcf env2 self w' = (r2, w2) ->
         w_procs w2 = w_procs w'
         \/ w_procs w2 = w_procs w' ++ [tabix_cmd (gz_path self)].
Proof.
  intros w0 outcome Hraw Habsent Hlog Hfailed.
  assert (Hstep : exists e w',
             compress_vcf env self w = (Raise e, w')
             /\ w_fs w' !! realpath env (gz_path self) = Some (written outcome)).
  { pose proof (compress_vcf_eq env self w) as Heq. cbv zeta in Heq.
    fold w0 in Heq. fold outcome in Heq.
    destruct outcome as [|error|rc out err fs'].
    - eexists _, _. split; [exact Heq|]. cbn [w_fs written].
      apply lookup_insert_eq.
    - eexists _, _. split; [exact Heq|]. cbn [w_fs written].
      apply lookup_insert_eq.
    - cbn [failed] in Hfailed. apply Z.eqb_neq in Hfailed.
      rewrite Hfailed in Heq. eexists _, _. split; [exact Heq|].
      rewrite w_fs_logs_ne by exact Hlog. cbn [w_fs written].
      apply lookup_insert_eq. }
  destruct Hstep as (e & w' & Hstep & Hfile).
  exists e, w'. split; [|split; [exact Hfile|]].
  - rewrite (compress_and_index_vcf_unfold env self), Hraw.
    rewrite bind_assoc, bind_eq, exists_eq, bool_decide_eq_false_2
      by (rewrite Habsent; intros [x Hx]; discriminate Hx).
    rewrite bind_assoc, bind_eq, Hstep. reflexivity.
  - intros env2 r2 w2 Hsame Hnext.
    assert (Hgz : compressed_path self = gz_path self)
      by (unfold compressed_path; now rewrite Hraw).
    rewrite <- Hgz.
    apply (compress_and_index_vcf_present env2 self w' w2 r2); [|exact Hnext].
    right. rewrite Hsame, Hfile. now eexists.
Qed.

End Compression.

(** An empty compressed file and an empty index, left by some earlier run. *)
Definition world_stale : World :=
  world_of [(Py.u "ref.fa", reference); (Py.u "calls.vcf", two_records);
            (Py.u "calls.vcf.gz", EmptyString);
            (Py.u "calls.vcf.gz.tbi", EmptyString)].

Lemma compress_and_index_vcf_reuses_witness :
  (compress_and_index_vcf env_ok demo world_stale).1
  = Return (Py.u "calls.vcf.gz")
  /\ w_procs (compress_and_index_vcf env_ok demo world_stale).2 = []
  /\ w_fs (compress_and_index_vcf env_ok demo world_stale).2
       !! Py.u "calls.vcf.gz" = Some EmptyString.
Proof.
  rewrite (compress_and_index_vcf_reuses env_ok demo world_stale).
  - cbn [fst snd]. rewrite w_procs_logs.
    rewrite w_fs_logs_ne by by_computation.
    split; [|split]; by_computation.
  - intros _. exists EmptyString. by_computation.
  - exists EmptyString. by_computation.
Defined.

Definition lacks_bgzip (tool : text) : bool :=
  negb (bool_decide (tool = Py.u "bgzip")).

Lemma failed_compression_is_kept_witness :
  exists e w',
    compress_and_index_vcf (env_tools lacks_bgzip two_records consensus_out)
      demo world_start = (Raise e, w')
    /\ w_fs w' !! Py.u "calls.vcf.gz" = Some EmptyString
    /\ forall r2 w2,
         compress_and_index_vcf env_ok demo w' = (r2, w2) ->
         w_procs w2 = w_procs w'
         \/ w_procs w2 = w_procs w' ++ [tabix_cmd (Py.u "calls.vcf.gz")].
Proof.
  destruct (failed_compression_is_kept
              (env_tools lacks_bgzip two_records consensus_out) demo world_start)
    as (e & w' & Hraise & Hfile & Hnext).
  - by_computation.
  - by_computation.
  - by_computation.
  - vm_compute. exact I.
  - exists e, w'. split; [exact Hraise|]. split; [exact Hfile|].
    intros r2 w2. apply Hnext. reflexivity.
Defined.

(** ** The variant file is left alone *)

Section IndexStep.

Context (env : Env) (self : Pipeline) (compressed_vcf : text).




End IndexStep.

Section VariantFile.

Context (env : Env) (self : Pipeline).

(** The log path, the output path and the compressed path name files other
    than the variant file, and no collaborator writes to the variant file
    it is given. *)
Hypothesis log_elsewhere : apart env (log_file self) (vcf_path self).
Hypothesis output_elsewhere : apart env (output_path self) (vcf_path self).
Hypothesis compressed_elsewhere : apart env (gz_path self) (vcf_path self).
Hypothesis tools_read_only :
  forall k argv fs rc out err fs',
    spawn env k argv fs = Exited rc out err fs' ->
    fs' !! realpath env (vcf_path self) = fs !! realpath env (vcf_path self).


End VariantFile.




(** ** Writing the consensus *)

Definition consensus_cmd (self : Pipeline) (compressed_vcf : text) : list text :=
  [Py.u "bcftools"; Py.u "consensus"; Py.u "-f"; fasta_path self; compressed_vcf].

Section Consensus.

Context (env : Env) (self : Pipeline).

(** [apply_variants] by the outcome of the engine. *)
Lemma apply_variants_eq (compressed_vcf : text) (w : World) :
  let w0 := logged env self (Py.u "Applying variants to reference...") w in
  let fs0 := <[realpath env (output_path self) := EmptyString]> (w_fs w0) in
  let cmd := consensus_cmd self compressed_vcf in
  apply_variants env self compressed_vcf w =
  match spawn env (length (w_procs w)) cmd fs0 with
  | NoSuchProgram =>
    (Raise (FileNotFoundError (Py.u "bcftools")),
     {| w_fs := fs0; w_out := w_out w0; w_err := w_err w0;
        w_procs := w_procs w ++ [cmd] |})
  | CannotStart error =>
    (Raise (OtherError error),
     {| w_fs := fs0; w_out := w_out w0; w_err := w_err w0;
        w_procs := w_procs w ++ [cmd] |})
  | Exited rc out err fs' =>
    let w2 := {| w_fs := <[realpath env (output_path self) := out]> fs';
                 w_out := w_out w0;
                 w_err := w_err w0; w_procs := w_procs w ++ [cmd] |} in
    match Py.text_mode err with
    | None => (Raise UnicodeDecodeError, w2)
    | Some err_t =>
      if (rc =? 0)%Z then
        (Return tt,
         logs env self
           (if Py.truthy err_t then [Py.u "bcftools stderr: " ++ err_t] else [])
           w2)
      else (Raise (CalledProcessError cmd rc NotCaptured (Str err_t)), w2)
    end
  end.
Proof.
  cbv zeta. unfold apply_variants. through_logs.
  rewrite bind_eq. unfold open_w at 1. rewrite bind_eq.
  unfold subprocess_run at 1, capture. fold (consensus_cmd self compressed_vcf).
  cbn [set_fs w_procs w_fs w_out w_err]. rewrite w_procs_logged.
  destruct (spawn env _ _ _) as [|error|rc out err fs'];
    [reflexivity | reflexivity |].
  destruct (Py.text_mode err) as [err_t|]; cbn [fmap option_fmap option_map];
    [|reflexivity].
  destruct (rc =? 0)%Z; [|reflexivity].
  cbn [cp_stderr nonempty shown]. destruct (Py.truthy err_t); cbn [when];
    through_logs; reflexivity.
Qed.

(** X9. [apply_variants] overwrites.  When the log path names a file other
    than the output, however the start of the engine turns out (missing,
    not startable, a non-zero exit status, an error stream that cannot be
    decoded, success), the output file holds afterwards exactly what the
    engine wrote on its standard output, and nothing if it never ran: what
    the file held before is gone, and a failed call leaves a partial or
    empty output file behind.  The call returns exactly when the engine
    exits with status zero and its error stream decodes; one process is
    started. *)
Theorem apply_variants_overwrites (compressed_vcf : text) (w w' : World)
    (r : Result unit) :
  let outcome :=
    spawn env (length (w_procs w)) (consensus_cmd self compressed_vcf)
      (<[realpath env (output_path self) := EmptyString]>
         (w_fs (logged env self (Py.u "Applying variants to reference...") w))) in
  apart env (log_file self) (output_path self) ->
  apply_variants env self compressed_vcf w = (r, w') ->
  w_fs w' !! realpath env (output_path self) = Some (written outcome)
  /\ w_procs w' = w_procs w ++ [consensus_cmd self compressed_vcf]
  /\ (r = Return tt <->
      exists out err fs',
        outcome = Exited 0 out err fs' /\ is_Some (Py.text_mode err)).
Proof.
  intros outcome Hlog. rewrite apply_variants_eq. cbv zeta. fold outcome.
  intros Heq.
  pose proof (f_equal fst Heq) as Hr. pose proof (f_equal snd Heq) as Hw.
  clear Heq. destruct outcome as [|error|rc out err fs'].
  - cbn [fst snd] in Hr, Hw. subst r w'. cbn [w_fs w_procs written].
    split; [apply lookup_insert_eq|]. split; [reflexivity|].
    split; [discriminate | intros (? & ? & ? & [=] & _)].
  - cbn [fst snd] in Hr, Hw. subst r w'. cbn [w_fs w_procs written].
    split; [apply lookup_insert_eq|]. split; [reflexivity|].
    split; [discriminate | intros (? & ? & ? & [=] & _)].
  - destruct (Py.text_mode err) as [err_t|] eqn:Herr.
    + destruct (rc =? 0)%Z eqn:Hrc; cbn [fst snd] in Hr, Hw; subst r w'.
      * apply Z.eqb_eq in Hrc as ->.
        rewrite w_fs_logs_ne, w_procs_logs by exact Hlog.
        cbn [w_fs w_procs written].
        split; [apply lookup_insert_eq|]. split; [reflexivity|].
        split; [|reflexivity]. intros _. exists out, err, fs'.
        split; [reflexivity|]. rewrite Herr. now eexists.
      * cbn [w_fs w_procs written].
        split; [apply lookup_insert_eq|]. split; [reflexivity|].
        split; [discriminate|]. intros (? & ? & ? & [= -> _ _ _] & _).
        discriminate Hrc.
    + cbn [fst snd] in Hr, Hw; subst r w'. cbn [w_fs w_procs written].
      split; [apply lookup_insert_eq|]. split; [reflexivity|].
      split; [discriminate|]. intros (? & ? & ? & [= _ _ <- _] & [x Hx]).
      rewrite Herr in Hx. discriminate Hx.
Qed.

End Consensus.

(** An output of an earlier run is in the way, and [bcftools] is gone. *)
Definition lacks_bcftools (tool : text) : bool :=
  negb (bool_decide (tool = Py.u "bcftools")).

Lemma apply_variants_overwrites_witness :
  let w := world_of [(Py.u "ref.fa", reference); (Py.u "out.fa", consensus_out)] in
  w_fs (apply_variants (env_tools lacks_bcftools two_records consensus_out) demo
          (Py.u "calls.vcf.gz") w).2 !! Py.u "out.fa" = Some EmptyString.
Proof.
  intros w.
  destruct (apply_variants_overwrites
              (env_tools lacks_bcftools two_records consensus_out) demo
              (Py.u "calls.vcf.gz") w
              (apply_variants (env_tools lacks_bcftools two_records consensus_out)
                 demo (Py.u "calls.vcf.gz") w).2
              (apply_variants (env_tools lacks_bcftools two_records consensus_out)
                 demo (Py.u "calls.vcf.gz") w).1) as (Hfile & _).
  - by_computation.
  - apply surjective_pairing.
  - exact Hfile.
Defined.

(** ** The validator only reads *)



(** ** Counting: blank output *)

Lemma lstrip_nil (s : text) :
  Py.lstrip s = [] <-> forallb Py.isspace s = true.
Proof.
  induction s as [|c s IH]; [easy|]. simpl.
  destruct (Py.isspace c); [exact IH | easy].
Qed.

Lemma lstrip_blank_suffix (s : text) :
  forallb Py.isspace (Py.lstrip s) = true -> forallb Py.isspace s = true.
Proof.
  induction s as [|c s IH]; [easy|]. simpl.
  destruct (Py.isspace c) eqn:E; [exact IH|].
  simpl. now rewrite E.
Qed.

Lemma forallb_rev {A} (f : A -> bool) (l : list A) :
  forallb f (rev l) = forallb f l.
Proof.
  induction l as [|x l IH]; [reflexivity|].
  simpl. rewrite forallb_app, IH. simpl. rewrite andb_true_r. apply andb_comm.
Qed.

Lemma strip_nil (s : text) : Py.strip s = [] <-> forallb Py.isspace s = true.
Proof.
  unfold Py.strip, Py.rstrip. split.
  - intros H. apply (f_equal (@rev N)) in H. rewrite rev_involutive in H.
    simpl in H. apply lstrip_nil in H. rewrite forallb_rev in H.
    now apply lstrip_blank_suffix.
  - intros H. apply lstrip_nil in H. now rewrite H.
Qed.

(** X11. [count_vcf_variants] counts 0 exactly when the listing is blank,
    that is, empty or made of white space only (line ends included); any
    other listing counts at least 1. *)
Theorem count_lines_zero_iff_blank (stdout : text) :
  count_lines stdout = 0 <-> forallb Py.isspace stdout = true.
Proof.
  unfold count_lines. rewrite <- strip_nil.
  destruct (Py.strip stdout) as [|c s] eqn:E.
  - now split.
  - cbn [Py.truthy]. rewrite split_lf_length. split; [lia | discriminate].
Qed.

(** ** What the digest is a digest of *)

(** The lines of a text, put end to end, are the text. *)
Lemma concat_iter_lines (s : text) : concat (Py.iter_lines s) = s.
Proof.
  induction s as [|c s IH]; [reflexivity|].
  simpl. destruct (c =? 10).
  - simpl. now rewrite IH.
  - destruct (Py.iter_lines s) as [|l ls]; simpl in *; now rewrite <- IH.
Qed.

Lemma of_octets_app (a b : list N) :
  Py.of_octets (a ++ b) = (Py.of_octets a +:+ Py.of_octets b)%string.
Proof.
  induction a as [|x a IH]; [reflexivity|].
  simpl. now rewrite IH.
Qed.

Lemma encode_app (a b : text) :
  Py.encode (a ++ b) = (Py.encode a +:+ Py.encode b)%string.
Proof. unfold Py.encode. now rewrite map_app, concat_app, of_octets_app. Qed.

Lemma update_lines (lines : list text) (h : Hashlib.md5) :
  fold_left (fun h l => Hashlib.update h (Py.encode l)) lines h
  = (h +:+ Py.encode (concat lines))%string.
Proof.
  revert h. induction lines as [|l ls IH]; intros h.
  - simpl. now rewrite string_app_nil_r.
  - simpl. rewrite IH, encode_app. unfold Hashlib.update.
    apply string_app_assoc.
Qed.

Lemma universal_newlines_no_cr (s : text) :
  ~ In 13 s -> Py.universal_newlines s = s.
Proof.
  induction s as [|c s IH]; [reflexivity|]. intros Hno. simpl.
  destruct (c =? 13) eqn:E.
  - apply N.eqb_eq in E as ->. exfalso. apply Hno. now left.
  - f_equal. apply IH. intros Hin. apply Hno. now right.
Qed.

(** *** Decoding and encoding again gives the bytes back *)

Definition N_range (lo : N) (n : nat) : list N :=
  map (fun i => lo + N.of_nat i) (seq 0 n).

Lemma in_N_range (lo hi b : N) :
  Py.in_range lo hi b = true -> In b (N_range lo (S (N.to_nat (hi - lo)))).
Proof.
  unfold Py.in_range. intros H. apply andb_true_iff in H as [Hlo Hhi].
  apply N.leb_le in Hlo, Hhi. unfold N_range. apply in_map_iff.
  exists (N.to_nat (b - lo)). split; [lia|]. apply in_seq. lia.
Qed.

(** The code point of a sequence of two, three and four bytes. *)
Definition point2 (b0 b1 : N) : N :=
  N.lor (N.shiftl (N.land b0 0x1F) 6) (N.land b1 0x3F).

Definition point3 (b0 b1 b2 : N) : N :=
  N.lor (N.shiftl (N.land b0 0x0F) 12)
    (N.lor (N.shiftl (N.land b1 0x3F) 6) (N.land b2 0x3F)).

Definition point4 (b0 b1 b2 b3 : N) : N :=
  N.lor (N.shiftl (N.land b0 0x07) 18)
    (N.lor (N.shiftl (N.land b1 0x3F) 12)
       (N.lor (N.shiftl (N.land b2 0x3F) 6) (N.land b3 0x3F))).

(** Six more bits below [h]. *)
Definition append6 (h b : N) : N := N.lor (N.shiftl h 6) (N.land b 0x3F).

Definition continuation : list N := N_range 0x80 64.

Lemma continuation_low (b : N) :
  Py.is_cont b = true -> N.lor 0x80 (N.land b 0x3F) = b.
Proof.
  intros Hb. apply (in_N_range 0x80 0xBF) in Hb.
  assert (Hall : forallb (fun b => N.lor 0x80 (N.land b 0x3F) =? b)
                   (N_range 0x80 (S (N.to_nat (0xBF - 0x80)))) = true)
    by (vm_compute; reflexivity).
  rewrite forallb_forall in Hall. apply N.eqb_eq, Hall, Hb.
Qed.

Lemma append6_split (h b : N) :
  Py.is_cont b = true ->
  N.shiftr (append6 h b) 6 = h
  /\ N.lor 0x80 (N.land (append6 h b) 0x3F) = b.
Proof.
  intros Hb. unfold append6.
  assert (Hx : N.land b 0x3F < 64).
  { change 0x3F with (N.ones 6). rewrite N.land_ones.
    apply N.mod_lt. discriminate. }
  split.
  - rewrite N.shiftr_lor, N.shiftr_shiftl_l by reflexivity.
    change (6 - 6) with 0. rewrite N.shiftl_0_r.
    rewrite (N.shiftr_div_pow2 (N.land b 0x3F)).
    rewrite N.div_small by exact Hx. apply N.lor_0_r.
  - rewrite N.land_lor_distr_l.
    replace (N.land (N.shiftl h 6) 0x3F) with 0.
    + rewrite N.lor_0_l.
      replace (N.land (N.land b 0x3F) 0x3F) with (N.land b 0x3F).
      * now apply continuation_low.
      * change 0x3F with (N.ones 6). rewrite !N.land_ones.
        symmetry. apply N.Div0.mod_mod.
    + change 0x3F with (N.ones 6).
      rewrite N.land_ones, N.shiftl_mul_pow2. symmetry. apply N.Div0.mod_mul.
Qed.

Lemma shiftr6_bounds (cp h : N) :
  N.shiftr cp 6 = h -> 64 * h <= cp /\ cp < 64 * (h + 1).
Proof.
  rewrite N.shiftr_div_pow2. change (2 ^ 6) with 64. intros <-.
  pose proof (N.div_mod' cp 64) as Hdm.
  assert (Hlt : cp mod 64 < 64) by (apply N.mod_lt; discriminate).
  revert Hdm Hlt. generalize (cp / 64) (cp mod 64). intros q r Hdm Hlt. lia.
Qed.

Lemma point3_append (b0 b1 b2 : N) :
  point3 b0 b1 b2 = append6 (append6 (N.land b0 0x0F) b1) b2.
Proof.
  unfold point3, append6.
  rewrite N.shiftl_lor, N.shiftl_shiftl, N.lor_assoc. reflexivity.
Qed.

Lemma point4_append (b0 b1 b2 b3 : N) :
  point4 b0 b1 b2 b3 = append6 (append6 (append6 (N.land b0 0x07) b1) b2) b3.
Proof.
  unfold point4, append6.
  rewrite !N.shiftl_lor, !N.shiftl_shiftl, !N.lor_assoc. reflexivity.
Qed.

(** The lead byte gives back its bits, and with the byte after it rules out
    the code points that have a shorter form. *)
Definition tail_ok (b0 special_lo special_hi b1 : N) (lo hi : N) : bool :=
  Py.in_range (if b0 =? special_lo then lo else 0x80)
    (if b0 =? special_hi then hi else 0xBF) b1.

Definition lead2_ok (b0 : N) : bool :=
  (N.lor 0xC0 (N.land b0 0x1F) =? b0) && (2 <=? N.land b0 0x1F)
  && (N.land b0 0x1F <? 32).

Definition lead3_ok (b0 b1 : N) : bool :=
  implb (tail_ok b0 0xE0 0xED b1 0xA0 0x9F)
    ((N.lor 0xE0 (N.land b0 0x0F) =? b0)
     && (0x20 <=? append6 (N.land b0 0x0F) b1)
     && (append6 (N.land b0 0x0F) b1 <? 0x400)
     && Py.is_cont b1).

Definition lead4_ok (b0 b1 : N) : bool :=
  implb (tail_ok b0 0xF0 0xF4 b1 0x90 0x8F)
    ((N.lor 0xF0 (N.land b0 0x07) =? b0)
     && (0x10 <=? append6 (N.land b0 0x07) b1)
     && Py.is_cont b1).

Lemma lead2_all : forallb lead2_ok (N_range 0xC2 30) = true.
Proof. vm_compute. reflexivity. Qed.

Lemma lead3_all :
  forallb (fun b0 => forallb (lead3_ok b0) (N_range 0 256)) (N_range 0xE0 16)
  = true.
Proof. vm_compute. reflexivity. Qed.

Lemma lead4_all :
  forallb (fun b0 => forallb (lead4_ok b0) (N_range 0 256)) (N_range 0xF0 5)
  = true.
Proof. vm_compute. reflexivity. Qed.

Lemma byte_in_range (c : ascii) : In (N_of_ascii c) (N_range 0 256).
Proof.
  apply (in_N_range 0 255). unfold Py.in_range.
  pose proof (N_ascii_bounded c) as Hc.
  apply andb_true_iff. split; apply N.leb_le; lia.
Qed.

Lemma encode_point1 (b0 : N) : (b0 <? 0x80) = true -> Py.encode_point b0 = [b0].
Proof. intros H. unfold Py.encode_point. now rewrite H. Qed.

Lemma encode_point2 (b0 b1 : N) :
  Py.in_range 0xC2 0xDF b0 = true -> Py.is_cont b1 = true ->
  Py.encode_point (point2 b0 b1) = [b0; b1] /\ 0x80 <= point2 b0 b1.
Proof.
  intros H0 H1. apply (in_N_range 0xC2 0xDF) in H0.
  pose proof lead2_all as Hall. rewrite forallb_forall in Hall.
  specialize (Hall _ H0). unfold lead2_ok in Hall.
  apply andb_true_iff in Hall as [Hall Hhi].
  apply andb_true_iff in Hall as [Hlead Hlo].
  apply N.eqb_eq in Hlead. apply N.leb_le in Hlo. apply N.ltb_lt in Hhi.
  change (point2 b0 b1) with (append6 (N.land b0 0x1F) b1).
  destruct (append6_split (N.land b0 0x1F) b1 H1) as [Hshift Hlow].
  destruct (shiftr6_bounds _ _ Hshift) as [Hge Hlt].
  split; [|lia]. unfold Py.encode_point.
  rewrite (proj2 (N.ltb_ge _ 0x80)) by lia.
  rewrite (proj2 (N.ltb_lt _ 0x800)) by lia.
  now rewrite Hshift, Hlead, Hlow.
Qed.

Lemma encode_point3 (b0 b1 b2 : N) :
  Py.in_range 0xE0 0xEF b0 = true -> In b1 (N_range 0 256) ->
  tail_ok b0 0xE0 0xED b1 0xA0 0x9F = true -> Py.is_cont b2 = true ->
  Py.encode_point (point3 b0 b1 b2) = [b0; b1; b2] /\ 0x80 <= point3 b0 b1 b2.
Proof.
  intros H0 Hb1 H1 H2. apply (in_N_range 0xE0 0xEF) in H0.
  pose proof lead3_all as Hall. rewrite forallb_forall in Hall.
  specialize (Hall _ H0). rewrite forallb_forall in Hall.
  specialize (Hall _ Hb1). unfold lead3_ok in Hall. rewrite H1 in Hall.
  cbn [implb] in Hall.
  apply andb_true_iff in Hall as [Hall Hcont].
  apply andb_true_iff in Hall as [Hall Hhi].
  apply andb_true_iff in Hall as [Hlead Hlo].
  apply N.eqb_eq in Hlead. apply N.leb_le in Hlo. apply N.ltb_lt in Hhi.
  rewrite point3_append.
  destruct (append6_split (N.land b0 0x0F) b1 Hcont) as [Hshift1 Hlow1].
  destruct (append6_split (append6 (N.land b0 0x0F) b1) b2 H2)
    as [Hshift2 Hlow2].
  destruct (shiftr6_bounds _ _ Hshift2) as [Hge Hlt].
  split; [|lia]. unfold Py.encode_point.
  rewrite (proj2 (N.ltb_ge _ 0x80)) by lia.
  rewrite (proj2 (N.ltb_ge _ 0x800)) by lia.
  rewrite (proj2 (N.ltb_lt _ 0x10000)) by lia.
  change 12 with (6 + 6). rewrite <- N.shiftr_shiftr.
  now rewrite Hshift2, Hshift1, Hlead, Hlow1, Hlow2.
Qed.

Lemma encode_point4 (b0 b1 b2 b3 : N) :
  Py.in_range 0xF0 0xF4 b0 = true -> In b1 (N_range 0 256) ->
  tail_ok b0 0xF0 0xF4 b1 0x90 0x8F = true ->
  Py.is_cont b2 = true -> Py.is_cont b3 = true ->
  Py.encode_point (point4 b0 b1 b2 b3) = [b0; b1; b2; b3]
  /\ 0x80 <= point4 b0 b1 b2 b3.
Proof.
  intros H0 Hb1 H1 H2 H3. apply (in_N_range 0xF0 0xF4) in H0.
  pose proof lead4_all as Hall. rewrite forallb_forall in Hall.
  specialize (Hall _ H0). rewrite forallb_forall in Hall.
  specialize (Hall _ Hb1). unfold lead4_ok in Hall. rewrite H1 in Hall.
  cbn [implb] in Hall.
  apply andb_true_iff in Hall as [Hall Hcont].
  apply andb_true_iff in Hall as [Hlead Hlo].
  apply N.eqb_eq in Hlead. apply N.leb_le in Hlo.
  rewrite point4_append.
  destruct (append6_split (N.land b0 0x07) b1 Hcont) as [Hshift1 Hlow1].
  destruct (append6_split (append6 (N.land b0 0x07) b1) b2 H2)
    as [Hshift2 Hlow2].
  destruct (append6_split (append6 (append6 (N.land b0 0x07) b1) b2) b3 H3)
    as [Hshift3 Hlow3].
  destruct (shiftr6_bounds _ _ Hshift3) as [Hge3 _].
  destruct (shiftr6_bounds _ _ Hshift2) as [Hge2 _].
  split; [|lia]. unfold Py.encode_point.
  rewrite (proj2 (N.ltb_ge _ 0x80)) by lia.
  rewrite (proj2 (N.ltb_ge _ 0x800)) by lia.
  rewrite (proj2 (N.ltb_ge _ 0x10000)) by lia.
  change 18 with (6 + (6 + 6)). change 12 with (6 + 6).
  rewrite <- !N.shiftr_shiftr.
  now rewrite Hshift3, Hshift2, Hshift1, Hlead, Hlow1, Hlow2, Hlow3.
Qed.

Lemma encode_cons (c : N) (t : text) :
  Py.encode (c :: t) = (Py.of_octets (Py.encode_point c) +:+ Py.encode t)%string.
Proof. unfold Py.encode. simpl. apply of_octets_app. Qed.

Lemma utf8_decode_encode_upto (n : nat) (b : bytes) (t : text) :
  (String.length b <= n)%nat ->
  Py.utf8_decode b = Some t ->
  Py.encode t = b /\ (In 13 t -> In 13 (Py.octets b)).
Proof.
  revert b t. induction n as [|n IH]; intros b t Hlen H.
  - destruct b; [|simpl in Hlen; lia]. simpl in H. injection H as <-.
    split; [reflexivity|]. intros [].
  - destruct b as [|c0 r0].
    { simpl in H. injection H as <-. split; [reflexivity|]. intros []. }
    simpl in Hlen. cbn [Py.utf8_decode] in H. cbv zeta in H.
    destruct (N_of_ascii c0 <? 0x80) eqn:E1.
    { destruct (Py.utf8_decode r0) as [t0|] eqn:E0; [|discriminate H].
      simpl in H. injection H as <-.
      destruct (IH r0 t0 ltac:(lia) E0) as [Henc Hcr]. split.
      - rewrite encode_cons, (encode_point1 _ E1), Henc. simpl.
        rewrite ascii_N_embedding. reflexivity.
      - intros [Hc|Hin]; [left; exact Hc|right; exact (Hcr Hin)]. }
    destruct (Py.in_range 0xC2 0xDF (N_of_ascii c0)) eqn:E2.
    { destruct r0 as [|c1 r1]; [discriminate H|].
      destruct (Py.is_cont (N_of_ascii c1)) eqn:C1; [|discriminate H].
      destruct (Py.utf8_decode r1) as [t1|] eqn:E0; [|discriminate H].
      simpl in H. injection H as <-. simpl in Hlen.
      destruct (IH r1 t1 ltac:(lia) E0) as [Henc Hcr].
      destruct (encode_point2 _ _ E2 C1) as [Hpt Hge].
      change (N.lor (N.shiftl (N.land (N_of_ascii c0) 31) 6)
                (N.land (N_of_ascii c1) 63))
        with (point2 (N_of_ascii c0) (N_of_ascii c1)).
      split.
      - rewrite encode_cons, Hpt, Henc. simpl.
        rewrite !ascii_N_embedding. reflexivity.
      - intros [Hc|Hin]; [lia|right; right; exact (Hcr Hin)]. }
    destruct (Py.in_range 0xE0 0xEF (N_of_ascii c0)) eqn:E3.
    { destruct r0 as [|c1 [|c2 r2]]; try discriminate H.
      change (Py.in_range _ _ (N_of_ascii c1))
        with (tail_ok (N_of_ascii c0) 0xE0 0xED (N_of_ascii c1) 0xA0 0x9F) in H.
      destruct (tail_ok (N_of_ascii c0) 0xE0 0xED (N_of_ascii c1) 0xA0 0x9F)
        eqn:T1; [|discriminate H].
      destruct (Py.is_cont (N_of_ascii c2)) eqn:C2; [|discriminate H].
      cbn [andb] in H.
      destruct (Py.utf8_decode r2) as [t2|] eqn:E0; [|discriminate H].
      simpl in H. injection H as <-. simpl in Hlen.
      destruct (IH r2 t2 ltac:(lia) E0) as [Henc Hcr].
      destruct (encode_point3 _ _ _ E3 (byte_in_range c1) T1 C2) as [Hpt Hge].
      change (N.lor (N.shiftl (N.land (N_of_ascii c0) 15) 12)
                (N.lor (N.shiftl (N.land (N_of_ascii c1) 63) 6)
                   (N.land (N_of_ascii c2) 63)))
        with (point3 (N_of_ascii c0) (N_of_ascii c1) (N_of_ascii c2)).
      split.
      - rewrite encode_cons, Hpt, Henc. simpl.
        rewrite !ascii_N_embedding. reflexivity.
      - intros [Hc|Hin]; [lia|right; right; right; exact (Hcr Hin)]. }
    destruct (Py.in_range 0xF0 0xF4 (N_of_ascii c0)) eqn:E4; [|discriminate H].
    destruct r0 as [|c1 [|c2 [|c3 r3]]]; try discriminate H.
    change (Py.in_range _ _ (N_of_ascii c1))
      with (tail_ok (N_of_ascii c0) 0xF0 0xF4 (N_of_ascii c1) 0x90 0x8F) in H.
    destruct (tail_ok (N_of_ascii c0) 0xF0 0xF4 (N_of_ascii c1) 0x90 0x8F)
      eqn:T1; [|discriminate H].
    destruct (Py.is_cont (N_of_ascii c2)) eqn:C2; [|discriminate H].
    destruct (Py.is_cont (N_of_ascii c3)) eqn:C3; [|discriminate H].
    cbn [andb] in H.
    destruct (Py.utf8_decode r3) as [t3|] eqn:E0; [|discriminate H].
    simpl in H. injection H as <-. simpl in Hlen.
    destruct (IH r3 t3 ltac:(lia) E0) as [Henc Hcr].
    destruct (encode_point4 _ _ _ _ E4 (byte_in_range c1) T1 C2 C3)
      as [Hpt Hge].
    change (N.lor (N.shiftl (N.land (N_of_ascii c0) 7) 18)
              (N.lor (N.shiftl (N.land (N_of_ascii c1) 63) 12)
                 (N.lor (N.shiftl (N.land (N_of_ascii c2) 63) 6)
                    (N.land (N_of_ascii c3) 63))))
      with (point4 (N_of_ascii c0) (N_of_ascii c1) (N_of_ascii c2)
              (N_of_ascii c3)).
    split.
    + rewrite encode_cons, Hpt, Henc. simpl.
      rewrite !ascii_N_embedding. reflexivity.
    + intros [Hc|Hin]; [lia|right; right; right; right; exact (Hcr Hin)].
Qed.

(** Strict decoding loses nothing: encoding the text again gives the bytes. *)
Lemma utf8_decode_encode (b : bytes) (t : text) :
  Py.utf8_decode b = Some t -> Py.encode t = b.
Proof. intros H. exact (proj1 (utf8_decode_encode_upto _ b t (le_n _) H)). Qed.

Lemma utf8_decode_cr (b : bytes) (t : text) :
  Py.utf8_decode b = Some t -> In 13 t -> In 13 (Py.octets b).
Proof. intros H. exact (proj2 (utf8_decode_encode_upto _ b t (le_n _) H)). Qed.

(** X12. The digest [get_file_stats] reports is the MD5 of the text the file
    is read as, encoded again; for a file that holds no carriage return this
    is the MD5 of the bytes of the file. *)
Theorem get_file_stats_digest (env : Env) (filepath : text) (w w' : World)
    (content : bytes) (stats : Stats) :
  w_fs w !! realpath env filepath = Some content ->
  get_file_stats env filepath w = (Return stats, w') ->
  (exists t, Py.text_mode content = Some t
             /\ md5 stats
                = Some (Hashlib.hexdigest
                          (Hashlib.update Hashlib.new (Py.encode t))))
  /\ (~ In 13 (Py.octets content) ->
      md5 stats
      = Some (Hashlib.hexdigest (Hashlib.update Hashlib.new content))).
Proof.
  intros Hfile Hrun. rewrite get_file_stats_eq, Hfile in Hrun.
  destruct (Py.text_mode content) as [t|] eqn:Ht; [|discriminate Hrun].
  pose proof (f_equal fst Hrun) as Hr. cbn [fst] in Hr.
  injection Hr as <-.
  assert (Hmd5 : md5 (stats_of_lines (Py.iter_lines t))
                 = Some (Hashlib.hexdigest
                           (Hashlib.update Hashlib.new (Py.encode t)))).
  { rewrite stats_of_lines_spec. cbn [md5].
    now rewrite update_lines, concat_iter_lines. }
  split.
  - exists t. split; [reflexivity | exact Hmd5].
  - intros Hno. rewrite Hmd5. unfold Py.text_mode in Ht.
    destruct (Py.utf8_decode content) as [t0|] eqn:Hdec; [|discriminate Ht].
    cbn in Ht. injection Ht as <-.
    rewrite universal_newlines_no_cr.
    + now rewrite (utf8_decode_encode _ _ Hdec).
    + intros Hin. exact (Hno (utf8_decode_cr _ _ Hdec Hin)).
Qed.

Lemma no_cr_check (l : list N) :
  forallb (fun c => negb (c =? 13)) l = true -> ~ In 13 l.
Proof.
  intros Hall Hin. rewrite forallb_forall in Hall.
  specialize (Hall _ Hin). discriminate Hall.
Qed.

Lemma get_file_stats_digest_witness :
  md5 (stats_of_lines (Py.iter_lines (Py.u fasta_10_blank_5)))
  = Some (Hashlib.hexdigest (Hashlib.update Hashlib.new fasta_10_blank_5)).
Proof.
  refine (proj2 (get_file_stats_digest env_no_tools (Py.u "a.fa")
                   (world_of [(Py.u "a.fa", fasta_10_blank_5)])
                   (world_of [(Py.u "a.fa", fasta_10_blank_5)])
                   fasta_10_blank_5 _ _ _) _);
    [by_computation | by_computation | apply no_cr_check; by_computation].
Defined.

(** ** Line endings *)

(** The file with every line feed turned into carriage return, line feed. *)
Fixpoint crlf (b : bytes) : bytes :=
  match b with
  | EmptyString => EmptyString
  | String c r =>
    if N_of_ascii c =? 10 then String "013" (String "010" (crlf r))
    else String c (crlf r)
  end.

Fixpoint crlf_text (t : text) : text :=
  match t with
  | [] => []
  | c :: r => if c =? 10 then 13 :: 10 :: crlf_text r else c :: crlf_text r
  end.

Lemma high_not_lf (b : N) : (b <? 0x80) = false -> (b =? 10) = false.
Proof. intros H. apply N.ltb_ge in H. apply N.eqb_neq. lia. Qed.

Lemma cont_not_lf (b : N) : Py.is_cont b = true -> (b =? 10) = false.
Proof.
  unfold Py.is_cont. intros H. apply andb_true_iff in H as [H _].
  apply N.leb_le in H. apply N.eqb_neq. lia.
Qed.

Lemma tail_not_lf (b0 special_lo special_hi b1 lo hi : N) :
  tail_ok b0 special_lo special_hi b1 lo hi = true -> 0x80 <= lo ->
  (b1 =? 10) = false.
Proof.
  unfold tail_ok, Py.in_range. intros H Hlo.
  apply andb_true_iff in H as [H _]. apply N.leb_le in H.
  apply N.eqb_neq. destruct (b0 =? special_lo); lia.
Qed.

Lemma point_not_lf (c : N) : 0x80 <= c -> (c =? 10) = false.
Proof. intros H. apply N.eqb_neq. lia. Qed.

Lemma utf8_decode_crlf_upto (n : nat) (b : bytes) (t : text) :
  (String.length b <= n)%nat ->
  Py.utf8_decode b = Some t ->
  Py.utf8_decode (crlf b) = Some (crlf_text t).
Proof.
  revert b t. induction n as [|n IH]; intros b t Hlen H.
  - destruct b; [|simpl in Hlen; lia]. simpl in H. injection H as <-.
    reflexivity.
  - destruct b as [|c0 r0].
    { simpl in H. injection H as <-. reflexivity. }
    simpl in Hlen. cbn [Py.utf8_decode] in H. cbv zeta in H.
    destruct (N_of_ascii c0 <? 0x80) eqn:E1.
    { destruct (Py.utf8_decode r0) as [t0|] eqn:E0; [|discriminate H].
      simpl in H. injection H as <-.
      pose proof (IH r0 t0 ltac:(lia) E0) as Hrest.
      cbn [crlf crlf_text]. destruct (N_of_ascii c0 =? 10) eqn:Elf.
      - cbn [Py.utf8_decode]. cbv zeta.
        change (N_of_ascii "013" <? 0x80) with true.
        change (N_of_ascii "010" <? 0x80) with true.
        cbv iota. rewrite Hrest. reflexivity.
      - cbn [Py.utf8_decode]. cbv zeta. rewrite E1, Hrest. reflexivity. }
    pose proof (high_not_lf _ E1) as L0.
    destruct (Py.in_range 0xC2 0xDF (N_of_ascii c0)) eqn:E2.
    { destruct r0 as [|c1 r1]; [discriminate H|].
      destruct (Py.is_cont (N_of_ascii c1)) eqn:C1; [|discriminate H].
      destruct (Py.utf8_decode r1) as [t1|] eqn:E0; [|discriminate H].
      simpl in H. injection H as <-. simpl in Hlen.
      pose proof (IH r1 t1 ltac:(lia) E0) as Hrest.
      destruct (encode_point2 _ _ E2 C1) as [_ Hge].
      unfold point2 in Hge.
      cbn [crlf crlf_text].
      rewrite L0, (cont_not_lf _ C1), (point_not_lf _ Hge).
      cbn [Py.utf8_decode]. cbv zeta. rewrite E1, E2, C1, Hrest.
      reflexivity. }
    destruct (Py.in_range 0xE0 0xEF (N_of_ascii c0)) eqn:E3.
    { destruct r0 as [|c1 [|c2 r2]]; try discriminate H.
      change (Py.in_range _ _ (N_of_ascii c1))
        with (tail_ok (N_of_ascii c0) 0xE0 0xED (N_of_ascii c1) 0xA0 0x9F) in H.
      destruct (tail_ok (N_of_ascii c0) 0xE0 0xED (N_of_ascii c1) 0xA0 0x9F)
        eqn:T1; [|discriminate H].
      destruct (Py.is_cont (N_of_ascii c2)) eqn:C2; [|discriminate H].
      cbn [andb] in H.
      destruct (Py.utf8_decode r2) as [t2|] eqn:E0; [|discriminate H].
      simpl in H. injection H as <-. simpl in Hlen.
      pose proof (IH r2 t2 ltac:(lia) E0) as Hrest.
      destruct (encode_point3 _ _ _ E3 (byte_in_range c1) T1 C2) as [_ Hge].
      unfold point3 in Hge.
      cbn [crlf crlf_text].
      rewrite L0, (tail_not_lf _ _ _ _ _ _ T1 ltac:(lia)), (cont_not_lf _ C2),
        (point_not_lf _ Hge).
      cbn [Py.utf8_decode]. cbv zeta. rewrite E1, E2, E3.
      change (Py.in_range _ _ (N_of_ascii c1))
        with (tail_ok (N_of_ascii c0) 0xE0 0xED (N_of_ascii c1) 0xA0 0x9F).
      rewrite T1, C2, Hrest. reflexivity. }
    destruct (Py.in_range 0xF0 0xF4 (N_of_ascii c0)) eqn:E4; [|discriminate H].
    destruct r0 as [|c1 [|c2 [|c3 r3]]]; try discriminate H.
    change (Py.in_range _ _ (N_of_ascii c1))
      with (tail_ok (N_of_ascii c0) 0xF0 0xF4 (N_of_ascii c1) 0x90 0x8F) in H.
    destruct (tail_ok (N_of_ascii c0) 0xF0 0xF4 (N_of_ascii c1) 0x90 0x8F)
      eqn:T1; [|discriminate H].
    destruct (Py.is_cont (N_of_ascii c2)) eqn:C2; [|discriminate H].
    destruct (Py.is_cont (N_of_ascii c3)) eqn:C3; [|discriminate H].
    cbn [andb] in H.
    destruct (Py.utf8_decode r3) as [t3|] eqn:E0; [|discriminate H].
    simpl in H. injection H as <-. simpl in Hlen.
    pose proof (IH r3 t3 ltac:(lia) E0) as Hrest.
    destruct (encode_point4 _ _ _ _ E4 (byte_in_range c1) T1 C2 C3)
      as [_ Hge].
    unfold point4 in Hge.
    cbn [crlf crlf_text].
    rewrite L0, (tail_not_lf _ _ _ _ _ _ T1 ltac:(lia)), (cont_not_lf _ C2),
      (cont_not_lf _ C3), (point_not_lf _ Hge).
    cbn [Py.utf8_decode]. cbv zeta. rewrite E1, E2, E3, E4.
    change (Py.in_range _ _ (N_of_ascii c1))
      with (tail_ok (N_of_ascii c0) 0xF0 0xF4 (N_of_ascii c1) 0x90 0x8F).
    rewrite T1, C2, C3, Hrest. reflexivity.
Qed.

Lemma universal_newlines_crlf (t : text) :
  ~ In 13 t -> Py.universal_newlines (crlf_text t) = t.
Proof.
  induction t as [|c t IH]; [reflexivity|]. intros Hno.
  assert (Hc : (c =? 13) = false).
  { apply N.eqb_neq. intros ->. apply Hno. now left. }
  assert (Ht : ~ In 13 t) by (intros Hin; apply Hno; now right).
  cbn [crlf_text]. destruct (c =? 10) eqn:Elf.
  - apply N.eqb_eq in Elf as ->. cbn. f_equal. exact (IH Ht).
  - cbn [Py.universal_newlines]. rewrite Hc. f_equal. exact (IH Ht).
Qed.

(** A file without carriage returns and the same file with CR LF line
    endings are read as the same text. *)
Lemma text_mode_crlf (content : bytes) (t : text) :
  ~ In 13 (Py.octets content) ->
  Py.text_mode content = Some t -> Py.text_mode (crlf content) = Some t.
Proof.
  unfold Py.text_mode. intros Hno Ht.
  destruct (Py.utf8_decode content) as [t0|] eqn:Hdec; [|discriminate Ht].
  cbn in Ht. injection Ht as <-.
  assert (Hno0 : ~ In 13 t0).
  { intros Hin. exact (Hno (utf8_decode_cr _ _ Hdec Hin)). }
  rewrite (utf8_decode_crlf_upto _ _ _ (le_n _) Hdec). cbn.
  now rewrite universal_newlines_crlf, universal_newlines_no_cr.
Qed.

(** X13. Line endings do not show in the statistics: when [get_file_stats]
    returns for a file that holds no carriage return, it returns the same
    record, digest included, for the file with every line ending turned into
    CR LF, although the bytes of the two files differ. *)
Theorem get_file_stats_line_endings (env : Env) (unix dos : text)
    (w w' : World) (content : bytes) (stats : Stats) :
  w_fs w !! realpath env unix = Some content ->
  w_fs w !! realpath env dos = Some (crlf content) ->
  ~ In 13 (Py.octets content) ->
  get_file_stats env unix w = (Return stats, w') ->
  get_file_stats env dos w = (Return stats, w).
Proof.
  intros Hunix Hdos Hno Hrun.
  rewrite get_file_stats_eq, Hunix in Hrun. rewrite get_file_stats_eq, Hdos.
  destruct (Py.text_mode content) as [t|] eqn:Ht; [|discriminate Hrun].
  rewrite (text_mode_crlf _ _ Hno Ht).
  pose proof (f_equal fst Hrun) as Hr. cbn [fst] in Hr.
  injection Hr as <-. reflexivity.
Qed.

Lemma get_file_stats_line_endings_witness :
  let w := world_of [(Py.u "unix.fa", fasta_10_0_5);
                     (Py.u "dos.fa", crlf fasta_10_0_5)] in
  crlf fasta_10_0_5 <> fasta_10_0_5
  /\ get_file_stats env_no_tools (Py.u "dos.fa") w
     = get_file_stats env_no_tools (Py.u "unix.fa") w.
Proof.
  intros w. split; [by_computation|].
  rewrite (get_file_stats_line_endings env_no_tools (Py.u "unix.fa")
             (Py.u "dos.fa") w w
             fasta_10_0_5 (stats_of_lines (Py.iter_lines (Py.u fasta_10_0_5))));
    [by_computation | by_computation | by_computation
    | apply no_cr_check; by_computation | by_computation].
Defined.

Section ValidatorLineEndings.

Context (env : Env) (self : Pipeline).

(** X14. The validator compares texts, not bytes: when the output file is
    the reference with every line ending turned into CR LF (the reference
    holding no carriage return, and the log path naming a third file),
    rule 2 fails, the validator logs that the output is identical to the
    input, and the verdict is negative. *)
Theorem validate_output_line_endings (w : World) (content : bytes) :
  apart env (log_file self) (fasta_path self) ->
  apart env (log_file self) (output_path self) ->
  w_fs w !! realpath env (fasta_path self) = Some content ->
  w_fs w !! realpath env (output_path self) = Some (crlf content) ->
  ~ In 13 (Py.octets content) ->
  is_Some (Py.text_mode content) ->
  exists w',
    validate_output env self w = (Return false, w')
    /\ said env (Py.u "  ✓ Number of sequences matches") w w'
    /\ said env
         (Py.u "  ✗ WARNING: Output identical to input (no changes made?)")
         w w'.
Proof.
  intros Hne1 Hne2 Hin Hout Hno [t Ht].
  set (stats := stats_of_lines (Py.iter_lines t)).
  assert (Hsin : get_file_stats env (fasta_path self) w = (Return stats, w)).
  { rewrite get_file_stats_eq, Hin, Ht. reflexivity. }
  assert (Hsout : get_file_stats env (output_path self) w = (Return stats, w)).
  { rewrite get_file_stats_eq, Hout, (text_mode_crlf _ _ Hno Ht).
    reflexivity. }
  clearbody stats.
  pose proof (validate_output_report env self w stats stats Hne1 Hne2
                Hsin Hsout) as Hrep.
  cbv zeta in Hrep.
  assert (H1 : check1 stats stats = true) by apply N.eqb_refl.
  assert (H2 : check2 stats stats = false).
  { unfold check2. now rewrite bool_decide_eq_true_2. }
  set (c3 := has_content env (output_path self) w) in *. clearbody c3.
  exists (logs env self (report stats stats c3) w).
  split; [|split].
  - rewrite Hrep, H1, H2. reflexivity.
  - apply (said_logs env self _ 12). unfold report. rewrite H1. reflexivity.
  - apply (said_logs env self _ 13). unfold report. rewrite H2. reflexivity.
Qed.

End ValidatorLineEndings.

Definition world_dos_output : World :=
  world_of [(Py.u "ref.fa", fasta_10_0_5); (Py.u "out.fa", crlf fasta_10_0_5)].

Lemma validate_output_line_endings_witness :
  w_fs world_dos_output !! Py.u "out.fa" <> w_fs world_dos_output !! Py.u "ref.fa"
  /\ exists w',
       validate_output env_no_tools demo world_dos_output = (Return false, w')
       /\ said env_no_tools
            (Py.u "  ✗ WARNING: Output identical to input (no changes made?)")
            world_dos_output w'.
Proof.
  split; [by_computation|].
  destruct (validate_output_line_endings env_no_tools demo world_dos_output
              fasta_10_0_5) as (w' & Hrun & _ & Hsaid);
    [by_computation | by_computation | by_computation | by_computation
    | apply no_cr_check; by_computation
    | exists (Py.u fasta_10_0_5); by_computation |].
  exists w'. split; [exact Hrun | exact Hsaid].
Defined.

(** ** The processes of a run *)



Section Processes.

Context (env : Env) (self : Pipeline).











End Processes.

